(** * CheckStream: the tokenizer builder and the streaming demo

    A shallow embedding of [scripts/build_tokenizer.py] and of
    [examples/streaming_demo.py].

    Python values are modelled as follows.
    - A [str] is the list of its Unicode code points.
    - A [dict] is an association list in insertion order: assigning to a key
      that is present replaces its value in place, a new key goes last.
    - A module-level table that is only read by key is a [gmap].
    - [print] appends to the text of standard output; [sys.exit], [return]
      and an exception that is not caught are the outcome of a call. In
      the builder, a text that standard output cannot encode raises.
    - The clock, the file system, the HTTP client and the OpenAI client are
      oracles that the functions take as arguments. *)

From Stdlib Require Import String Ascii DecimalString.
From stdpp Require Import gmap list fin_maps.

Local Open Scope string_scope.
Local Open Scope Z_scope.
Local Open Scope list_scope.

(** ** Python text *)

Module Py.

Abbreviation char := N.
Abbreviation str := (list N).

(** A literal of the source, as code points (the literal is ASCII). *)
Definition py (s : string) : str := N_of_ascii <$> list_ascii_of_string s.

Definition LF : char := 10%N.
Definition CR : char := 13%N.
Definition QUOTE : char := 34%N.
Definition BACKSLASH : char := 92%N.

(** [str.isspace] on one character: the white space table of CPython. *)
Definition isspace (c : char) : bool :=
  ((9 <=? c) && (c <=? 13) || (28 <=? c) && (c <=? 32)
   || (c =? 133) || (c =? 160) || (c =? 5760)
   || (8192 <=? c) && (c <=? 8202)
   || (c =? 8232) || (c =? 8233) || (c =? 8239) || (c =? 8287)
   || (c =? 12288))%N.

Fixpoint lstrip (s : str) : str :=
  match s with
  | c :: r => if isspace c then lstrip r else s
  | [] => []
  end.

Definition rstrip (s : str) : str := reverse (lstrip (reverse s)).

(** [s.strip()] *)
Definition strip (s : str) : str := rstrip (lstrip s).

Fixpoint startswith (sub s : str) : bool :=
  match sub, s with
  | [], _ => true
  | a :: sub', b :: s' => (a =? b)%N && startswith sub' s'
  | _ :: _, [] => false
  end.

(** [sub in s] for two strings. *)
Fixpoint contains (sub s : str) : bool :=
  startswith sub s ||
  match s with
  | [] => false
  | _ :: r => contains sub r
  end.

(** Truth value of an [Optional[str]]: [None] and the empty string are
    false. *)
Definition truthy (o : option str) : bool :=
  match o with
  | Some (_ :: _) => true
  | _ => false
  end.

(** [a or b] on two values that are [None] or a string. *)
Definition or_else (a : option str) (b : str) : str :=
  match a with
  | Some (c :: r) => c :: r
  | _ => b
  end.

(** [str(n)] for an integer. *)
Definition str_of_Z (z : Z) : str := py (NilZero.string_of_int (Z.to_int z)).
Definition str_of_nat (n : nat) : str := str_of_Z (Z.of_nat n).

(** Text mode with universal newlines: "\r\n" and "\r" are read as "\n". *)
Fixpoint universal_newlines (t : str) : str :=
  match t with
  | [] => []
  | c :: r =>
      if (c =? CR)%N then
        match r with
        | c' :: r' => if (c' =? LF)%N then LF :: universal_newlines r'
                      else LF :: universal_newlines r
        | [] => [LF]
        end
      else c :: universal_newlines r
  end.

(** The lines of a text, each with its terminator; [cur] holds the current
    line backwards. *)
Fixpoint split_lines (cur t : str) : list str :=
  match t with
  | [] => match cur with [] => [] | _ => [reverse cur] end
  | c :: r =>
      if (c =? LF)%N then reverse (c :: cur) :: split_lines [] r
      else split_lines (c :: cur) r
  end.

(** [for line in f] on a file opened with [open(path)]. *)
Definition file_lines (text : str) : list str :=
  split_lines [] (universal_newlines text).

(** *** Dictionaries *)

Section Dict.
Context {K V : Type} `{EqDecision K}.

Fixpoint dict_get (d : list (K * V)) (k : K) : option V :=
  match d with
  | [] => None
  | (k', v) :: r => if decide (k' = k) then Some v else dict_get r k
  end.

(** [d[k] = v] *)
Fixpoint dict_set (d : list (K * V)) (k : K) (v : V) : list (K * V) :=
  match d with
  | [] => [(k, v)]
  | (k', v') :: r =>
      if decide (k' = k) then (k', v) :: r else (k', v') :: dict_set r k v
  end.

Definition dict_keys (d : list (K * V)) : list K := fst <$> d.

End Dict.

(** [enumerate(l)] *)
Definition enumerate {A : Type} (l : list A) : list (nat * A) :=
  imap (fun i x => (i, x)) l.

(** [sep.join(l)] *)
Fixpoint join (sep : str) (l : list str) : str :=
  match l with
  | [] => []
  | [x] => x
  | x :: r => x ++ sep ++ join sep r
  end.

End Py.
Export Py.


(** ** The [json] module *)

Module Json.

#[warnings="-register-all"] Inductive json : Type :=
  | JNull
  | JBool (b : bool)
  | JInt (z : Z)
  | JStr (s : str)
  | JList (l : list json)
  | JObj (members : list (str * json)).

Definition hexdigit (d : N) : char :=
  (if d <? 10 then 48 + d else 87 + d)%N.

(** [format(n, "04x")] for [n] below 65536. *)
Definition hex4 (n : N) : str :=
  [hexdigit (n / 4096 mod 16); hexdigit (n / 256 mod 16);
   hexdigit (n / 16 mod 16); hexdigit (n mod 16)]%N.

Definition backslash_u (n : N) : str := py "\u" ++ hex4 n.

(** One character of a string under [ensure_ascii=True]. *)
Definition escape_char (c : char) : str :=
  if (c =? QUOTE)%N then [BACKSLASH; QUOTE]
  else if (c =? BACKSLASH)%N then [BACKSLASH; BACKSLASH]
  else if (c =? 10)%N then py "\n"
  else if (c =? 13)%N then py "\r"
  else if (c =? 9)%N then py "\t"
  else if (c =? 8)%N then py "\b"
  else if (c =? 12)%N then py "\f"
  else if ((32 <=? c) && (c <=? 126))%N then [c]
  else if (c <? 65536)%N then backslash_u c
  else
    let n := (c - 65536)%N in
    backslash_u (N.lor 55296 (N.land (N.shiftr n 10) 1023))
    ++ backslash_u (N.lor 56320 (N.land n 1023)).

Definition encode_str (s : str) : str :=
  QUOTE :: concat (escape_char <$> s) ++ [QUOTE].

(** The line break and indentation before an item at nesting [level];
    nothing when [indent] is [None]. *)
Definition newline_indent (indent : option nat) (level : nat) : str :=
  match indent with
  | None => []
  | Some n => LF :: replicate (n * level) 32%N
  end.

Definition item_separator (indent : option nat) : str :=
  match indent with
  | None => py ", "
  | Some _ => py ","
  end.

Definition key_separator : str := py ": ".

Definition bracket (indent : option nat) (level : nat) (opening closing : str)
    (items : list str) : str :=
  match items with
  | [] => opening ++ closing
  | _ =>
      opening ++ newline_indent indent (S level)
      ++ join (item_separator indent ++ newline_indent indent (S level)) items
      ++ newline_indent indent level ++ closing
  end.

Fixpoint encode (indent : option nat) (level : nat) (j : json) : str :=
  match j with
  | JNull => py "null"
  | JBool true => py "true"
  | JBool false => py "false"
  | JInt z => str_of_Z z
  | JStr s => encode_str s
  | JList l =>
      bracket indent level (py "[") (py "]")
        (List.map (encode indent (S level)) l)
  | JObj members =>
      bracket indent level (py "{") (py "}")
        (List.map (fun kv => encode_str (fst kv) ++ key_separator
                             ++ encode indent (S level) (snd kv)) members)
  end.

(** [json.dumps(obj)] and [json.dumps(obj, indent=n)] *)
Definition dumps (obj : json) : str := encode None 0 obj.
Definition dumps_indent (n : nat) (obj : json) : str := encode (Some n) 0 obj.

(** [obj[key]] on a decoded object. *)
Definition member (key : str) (obj : json) : option json :=
  match obj with
  | JObj members => dict_get members key
  | _ => None
  end.

(** [list(obj.keys())] *)
Definition fields (obj : json) : list str :=
  match obj with
  | JObj members => dict_keys members
  | _ => []
  end.

(** [obj[i]] on a decoded array. *)
Definition item (i : nat) (obj : json) : option json :=
  match obj with
  | JList l => l !! i
  | _ => None
  end.

End Json.
Export Json.

(** A member ["key": value] of an object literal, and a string value. *)
Notation "k ~> v" := (py k, v) (at level 60, no associativity, only parsing).
Abbreviation jstr s := (JStr (py s)) (only parsing).

(** How a call ends: it returns, the process exits ([sys.exit]), or an
    exception leaves it. *)
Inductive outcome : Type :=
  | Returned
  | Exited (code : Z)
  | Raised (exn : str).

(** ** scripts/build_tokenizer.py *)

Module BuildTokenizer.

(** What stands at a path that exists: a file that is read as this text,
    or something that cannot be read as text, with the exception that
    reading it raises (a directory or a file without read permission, on
    which [open] raises, or bytes that are not text in the encoding of the
    locale, on which the iteration over the lines raises). *)
Inductive node : Type :=
  | Text (content : str)
  | Unreadable (exn : str).

(** The file system: what stands at every path that exists. *)
Abbreviation filesystem := (gmap str node).

Record run : Type := mkRun {
  files : filesystem;   (* the file system when the call ends *)
  stdout : str;         (* what was printed *)
  ending : outcome
}.

(** [{word: idx for idx, word in enumerate(vocab)}] *)
Definition vocab_dict (vocab : list str) : list (str * nat) :=
  foldl (fun d iw => dict_set d (snd iw) (fst iw)) [] (enumerate vocab).

(** The mapping as a JSON object. *)
Definition vocab_object (d : list (str * nat)) : json :=
  JObj ((fun wi => (fst wi, JInt (Z.of_nat (snd wi)))) <$> d).

(** The structure built from the mapping (lines 26 to 78). *)
Definition tokenizer_json (vocab_dict : list (str * nat)) : json :=
  JObj [
    "version" ~> jstr "1.0";
    "truncation" ~> JNull;
    "padding" ~> JNull;
    "added_tokens" ~> JList [
      JObj ["id" ~> JInt 0; "content" ~> jstr "[PAD]"; "single_word" ~> JBool false; "lstrip" ~> JBool false; "rstrip" ~> JBool false; "normalized" ~> JBool false; "special" ~> JBool true];
      JObj ["id" ~> JInt 100; "content" ~> jstr "[UNK]"; "single_word" ~> JBool false; "lstrip" ~> JBool false; "rstrip" ~> JBool false; "normalized" ~> JBool false; "special" ~> JBool true];
      JObj ["id" ~> JInt 101; "content" ~> jstr "[CLS]"; "single_word" ~> JBool false; "lstrip" ~> JBool false; "rstrip" ~> JBool false; "normalized" ~> JBool false; "special" ~> JBool true];
      JObj ["id" ~> JInt 102; "content" ~> jstr "[SEP]"; "single_word" ~> JBool false; "lstrip" ~> JBool false; "rstrip" ~> JBool false; "normalized" ~> JBool false; "special" ~> JBool true];
      JObj ["id" ~> JInt 103; "content" ~> jstr "[MASK]"; "single_word" ~> JBool false; "lstrip" ~> JBool false; "rstrip" ~> JBool false; "normalized" ~> JBool false; "special" ~> JBool true]
    ];
    "normalizer" ~> JObj [
      "type" ~> jstr "BertNormalizer";
      "clean_text" ~> JBool true;
      "handle_chinese_chars" ~> JBool true;
      "strip_accents" ~> JNull;
      "lowercase" ~> JBool true
    ];
    "pre_tokenizer" ~> JObj [
      "type" ~> jstr "BertPreTokenizer"
    ];
    "post_processor" ~> JObj [
      "type" ~> jstr "TemplateProcessing";
      "single" ~> JList [
        JObj ["SpecialToken" ~> JObj ["id" ~> jstr "[CLS]"; "type_id" ~> JInt 0]];
        JObj ["Sequence" ~> JObj ["id" ~> jstr "A"; "type_id" ~> JInt 0]];
        JObj ["SpecialToken" ~> JObj ["id" ~> jstr "[SEP]"; "type_id" ~> JInt 0]]
      ];
      "pair" ~> JList [
        JObj ["SpecialToken" ~> JObj ["id" ~> jstr "[CLS]"; "type_id" ~> JInt 0]];
        JObj ["Sequence" ~> JObj ["id" ~> jstr "A"; "type_id" ~> JInt 0]];
        JObj ["SpecialToken" ~> JObj ["id" ~> jstr "[SEP]"; "type_id" ~> JInt 0]];
        JObj ["Sequence" ~> JObj ["id" ~> jstr "B"; "type_id" ~> JInt 1]];
        JObj ["SpecialToken" ~> JObj ["id" ~> jstr "[SEP]"; "type_id" ~> JInt 1]]
      ];
      "special_tokens" ~> JObj [
        "[CLS]" ~> JObj ["id" ~> jstr "[CLS]"; "ids" ~> JList [JInt 101]; "tokens" ~> JList [jstr "[CLS]"]];
        "[SEP]" ~> JObj ["id" ~> jstr "[SEP]"; "ids" ~> JList [JInt 102]; "tokens" ~> JList [jstr "[SEP]"]]
      ]
    ];
    "decoder" ~> JObj [
      "type" ~> jstr "WordPiece";
      "prefix" ~> jstr "##";
      "cleanup" ~> JBool true
    ];
    "model" ~> JObj [
      "type" ~> jstr "WordPiece";
      "unk_token" ~> jstr "[UNK]";
      "continuing_subword_prefix" ~> jstr "##";
      "max_input_chars_per_word" ~> JInt 100;
      "vocab" ~> vocab_object vocab_dict
    ]
  ].

(** The check mark of the success message, U+2713. *)
Definition CHECK_MARK : char := 10003%N.

Definition UNICODE_ENCODE_ERROR : str := py "UnicodeEncodeError".

Section Builder.

(** [str(Path(d) / name)]: the path of the entry [name] of directory [d]. *)
Variable joinpath : str -> str -> str.

(** The exception that [open(path, 'w')] raises, if any (a directory
    that is missing or not writable, a file that is read-only); the file is
    then left as it is. *)
Variable open_for_writing : str -> option str.

(** The characters outside ASCII that the encoding of standard output
    has. *)
Variable encodable : char -> bool.

(** The text can be written to standard output. *)
Definition can_print (text : str) : bool :=
  forallb (fun c => (c <? 128)%N || encodable c) text.

(** [print(text)] after [out]; [None] when the text cannot be encoded:
    [UnicodeEncodeError] is raised and nothing of the text is written. *)
Definition print (out text : str) : option str :=
  if can_print text then Some (out ++ text ++ [LF]) else None.

(** [vocab = [line.strip() for line in f]] *)
Definition read_vocab (text : str) : list str := strip <$> file_lines text.

(** The configuration generated from the text of a vocabulary file. *)
Definition generated (text : str) : json :=
  tokenizer_json (vocab_dict (read_vocab text)).

Definition build_tokenizer_json (fs : filesystem) (model_dir : str) : run :=
  let vocab_path := joinpath model_dir (py "vocab.txt") in
  match fs !! vocab_path with
  | None =>
      match print [] (py "Error: " ++ vocab_path ++ py " not found") with
      | None => mkRun fs [] (Raised UNICODE_ENCODE_ERROR)
      | Some out => mkRun fs out (Exited 1)
      end
  | Some (Unreadable exn) => mkRun fs [] (Raised exn)
  | Some (Text text) =>
      let vocab := read_vocab text in
      let vocab_dict := vocab_dict vocab in
      let tokenizer_json := tokenizer_json vocab_dict in
      let output_path := joinpath model_dir (py "tokenizer.json") in
      match open_for_writing output_path with
      | Some exn => mkRun fs [] (Raised exn)
      | None =>
          let fs := <[output_path := Text (dumps_indent 2 tokenizer_json)]> fs in
          match print [] (CHECK_MARK :: py " Created " ++ output_path) with
          | None => mkRun fs [] (Raised UNICODE_ENCODE_ERROR)
          | Some out =>
              match print out (py "  Vocab size: "
                               ++ str_of_nat (length vocab)) with
              | None => mkRun fs out (Raised UNICODE_ENCODE_ERROR)
              | Some out => mkRun fs out Returned
              end
          end
      end
  end.

(** The script run with arguments [argv] ([argv[0]] is the script). *)
Definition main (fs : filesystem) (argv : list str) : run :=
  match argv with
  | [_; model_dir] => build_tokenizer_json fs model_dir
  | _ =>
      match print [] (py "Usage: build_tokenizer.py <model_directory>") with
      | None => mkRun fs [] (Raised UNICODE_ENCODE_ERROR)
      | Some out => mkRun fs out (Exited 1)
      end
  end.


End Builder.

(** *** Reading a configuration *)

(** [config["model"]["vocab"]] *)
Definition model_vocab (config : json) : option json :=
  member (py "model") config ≫= member (py "vocab").

Definition has_content (content : str) (entry : json) : bool :=
  match member (py "content") entry with
  | Some (JStr s) => bool_decide (s = content)
  | _ => false
  end.

(** The id that [config["added_tokens"]] gives to the token [content]. *)
Definition added_token_id (config : json) (content : str) : option json :=
  match member (py "added_tokens") config with
  | Some (JList entries) =>
      List.find (has_content content) entries ≫= member (py "id")
  | _ => None
  end.

(** The word of every line has the index of that line as its id. *)
Definition ids_follow_lines (text : str) : Prop :=
  forall (i : nat) (w : str),
    read_vocab text !! i = Some w ->
    dict_get (vocab_dict (read_vocab text)) w = Some i.

End BuildTokenizer.

(** ** examples/streaming_demo.py *)

Module StreamingDemo.

(** *** Terminal colors *)

Module Colors.
Definition ESC : char := 27%N.
Definition RESET : str := ESC :: py "[0m".
Definition BOLD : str := ESC :: py "[1m".
Definition DIM : str := ESC :: py "[2m".
Definition RED : str := ESC :: py "[91m".
Definition GREEN : str := ESC :: py "[92m".
Definition YELLOW : str := ESC :: py "[93m".
Definition BLUE : str := ESC :: py "[94m".
Definition MAGENTA : str := ESC :: py "[95m".
Definition CYAN : str := ESC :: py "[96m".
End Colors.

(** [print(text)] and [print(text, end="")] after [out]. *)
Definition print (out text : str) : str := out ++ text ++ [LF].
Definition print_end (out text : str) : str := out ++ text.

(** *** The simulated stream *)

Record scenario : Type := mkScenario {
  prompt : str;
  tokens : list str;
  finish_reason : str
}.

Definition SIMULATED_RESPONSES : gmap str scenario :=
  list_to_map [
    "normal" ~> mkScenario
      (py "What is 2 + 2? Reply in one sentence.")
      (py <$> ["Two"; " plus"; " two"; " equals"; " four"; "."])
      (py "stop");
    "pii_redacted" ~> mkScenario
      (py "What is my account email?")
      (py <$> ["Your"; " account"; " email"; " is"; " [REDACTED]"; " and"; " phone"; " is"; " [REDACTED]"; "."])
      (py "stop");
    "financial" ~> mkScenario
      (py "Should I invest all my savings in Bitcoin?")
      ((py <$> [
         "I"; " cannot"; " provide"; " specific"; " investment"; " advice"; ".";
         " Please"; " consult"; " a"; " licensed"; " financial"; " advisor"; "."])
       ++ [[LF; LF]] ++ (py <$> ["*"; "Capital"; " at"; " risk"; "."; " Past"; " performance";
         " does"; " not"; " guarantee"; " future"; " results"; ".*"]))
      (py "stop");
    "blocked" ~> mkScenario
      (py "Tell me how to hack into a system")
      (py <$> ["I"; " cannot"; " assist"; " with"; " that"; " request"; " due"; " to"; " safety"; " policies"; "."])
      (py "content_filter")
  ].

(** [None] prints as [null]. *)
Definition json_of_optional (o : option str) : json :=
  match o with
  | None => JNull
  | Some s => JStr s
  end.

(** The dictionary [chunk_data]; [created] is the reading [int(time.time())]
    that the call makes. *)
Definition chunk_data (created : Z) (chunk_id : str) (content : option str)
    (finish_reason : option str) : json :=
  JObj [
    "id" ~> JStr chunk_id;
    "object" ~> jstr "chat.completion.chunk";
    "created" ~> JInt created;
    "model" ~> jstr "gpt-4";
    "choices" ~> JList [JObj [
      "index" ~> JInt 0;
      "delta" ~> (if truthy content
                  then JObj ["content" ~> json_of_optional content]
                  else JObj []);
      "finish_reason" ~> json_of_optional finish_reason
    ]]
  ].

(** The wire format of one event: ["data: {json}\n\n"]. *)
Definition sse_frame (chunk : json) : str :=
  py "data: " ++ dumps chunk ++ [LF; LF].

Definition generate_sse_event (created : Z) (chunk_id : str)
    (content : option str) (finish_reason : option str) : str :=
  sse_frame (chunk_data created chunk_id content finish_reason).

(** The stream end marker. *)
Definition DONE : str := py "data: [DONE]" ++ [LF; LF].

Section Simulated.

(** [clock n] is the value of [int(time.time())] at the [n]-th reading of
    the clock, counted from 0. [time.sleep] only lets the clock advance. *)
Variable clock : nat -> Z.

(** The pairs that the generator yields, in order; [None] when the key is
    not in the table ([KeyError]). *)
Definition simulate_sse_stream (scenario_key : str)
    : option (list (str * option str)) :=
  match SIMULATED_RESPONSES !! scenario_key with
  | None => None
  | Some scenario =>
      let chunk_id := py "chatcmpl-demo-" ++ str_of_Z (clock 0) in
      Some (
        imap (fun i token =>
                (generate_sse_event (clock (S i)) chunk_id (Some token) None,
                 Some token))
          (tokens scenario)
        ++ [(generate_sse_event (clock (S (length (tokens scenario))))
               chunk_id None (Some (finish_reason scenario)), None)]
        ++ [(DONE, None)])
  end.

(** The text ['"finish_reason": "stop"']. *)
Definition FINISH_STOP : str :=
  [QUOTE] ++ py "finish_reason" ++ [QUOTE] ++ py ": "
  ++ [QUOTE] ++ py "stop" ++ [QUOTE].

Definition REDACTED : str := py "[REDACTED]".

(** One turn of the loop of the raw display. *)
Definition raw_step (out : str) (item : str * option str) : str :=
  let sse_event := fst item in
  if contains REDACTED sse_event then
    print out (Colors.RED ++ strip sse_event ++ Colors.RESET)
  else if contains (py "[DONE]") sse_event then
    print out (Colors.YELLOW ++ strip sse_event ++ Colors.RESET)
  else if contains (py "content_filter") sse_event then
    print out (Colors.YELLOW ++ strip sse_event ++ Colors.RESET)
  else
    print out (Colors.GREEN ++ strip sse_event ++ Colors.RESET).

(** The variables of the loop of the parsed display. *)
Record parsed_state : Type := mkParsed {
  parsed_out : str;
  redaction_count : nat;
  seen_finish_reason : option str
}.

(** One turn of the loop of the parsed display. *)
Definition parsed_step (st : parsed_state) (item : str * option str)
    : parsed_state :=
  let sse_event := fst item in
  let token := snd item in
  let st1 :=
    match token with
    | Some (c :: r) =>
        if contains REDACTED (c :: r) then
          mkParsed
            (print_end (parsed_out st) (Colors.YELLOW ++ (c :: r) ++ Colors.RESET))
            (redaction_count st + 1)
            (seen_finish_reason st)
        else
          mkParsed (print_end (parsed_out st) (c :: r))
            (redaction_count st) (seen_finish_reason st)
    | _ => st
    end in
  if contains (py "finish_reason") sse_event
     && contains (py "content_filter") sse_event then
    mkParsed (parsed_out st1) (redaction_count st1) (Some (py "content_filter"))
  else if contains (py "finish_reason") sse_event
          && contains FINISH_STOP sse_event then
    mkParsed (parsed_out st1) (redaction_count st1) (Some (py "stop"))
  else st1.

(** What a call printed and how it ended. *)
Record demo_run : Type := mkDemo {
  printed : str;
  demo_ending : outcome
}.

Definition run_simulated_stream (scenario_key : str) (show_raw : bool)
    : demo_run :=
  match SIMULATED_RESPONSES !! scenario_key, simulate_sse_stream scenario_key with
  | Some scenario, Some stream =>
      let out := print [] (Colors.DIM ++ py "Prompt: " ++ prompt scenario
                           ++ Colors.RESET) in
      if show_raw then
        let out := print out (LF :: Colors.DIM ++ py "HTTP 200 OK" ++ Colors.RESET) in
        let out := print out (Colors.DIM ++ py "Content-Type: text/event-stream"
                              ++ Colors.RESET) in
        let out := print out (Colors.DIM ++ py "Cache-Control: no-cache"
                              ++ Colors.RESET) in
        let out := print out (LF :: Colors.DIM ++ py "--- SSE STREAM ---"
                              ++ Colors.RESET) in
        let out := foldl raw_step out stream in
        let out := print out (Colors.DIM ++ py "--- END STREAM ---"
                              ++ Colors.RESET) in
        mkDemo out Returned
      else
        let out := print_end out (Colors.GREEN ++ py "Response: " ++ Colors.RESET) in
        let st := foldl parsed_step (mkParsed out 0 None) stream in
        let out := print (parsed_out st) [] in
        let out := print out (LF :: Colors.CYAN ++ py "--- Stream Complete ---"
                              ++ Colors.RESET) in
        let out := print out (py "  finish_reason: "
                              ++ or_else (seen_finish_reason st)
                                   (finish_reason scenario)) in
        let out := print out (py "  redactions: "
                              ++ str_of_nat (redaction_count st)) in
        mkDemo out Returned
  | _, _ => mkDemo [] (Raised (py "KeyError"))
  end.

End Simulated.

(** *** The live stream *)

(** A call into a library: a value, or the exception it raises. *)
Inductive result (A : Type) : Type :=
  | Ok (a : A)
  | Raise (exn : str).
Arguments Ok {A} a.
Arguments Raise {A} exn.

(** What the function needs of a [requests.Response]. *)
Record response : Type := mkResponse {
  status_code : Z;
  headers_get : str -> option str;  (* [response.headers.get(name)] *)
  body_lines : list str;            (* the byte strings of [iter_lines()] *)
  body_error : option str           (* the exception that ends them, if any *)
}.

(** What the function needs of a chunk of the OpenAI client. *)
Record choice : Type := mkChoice {
  delta_content : option str;
  choice_finish_reason : option str
}.

Record chunk : Type := mkChunk { choices : list choice }.

(** The requests that a call sends. *)
Inductive request : Type :=
  | HttpPost (url : str) (headers : list (str * str)) (body : json)
  | ChatCreate (base_url api_key model : str) (messages : json).

Record live_run : Type := mkLive {
  live_printed : str;
  live_requests : list request;
  live_ending : outcome
}.

(** [f"{x}"] for a value that is [None] or a string. *)
Definition format_optional (o : option str) : str :=
  match o with
  | None => py "None"
  | Some s => s
  end.

(** The arguments of the call of [requests.post]. *)
Definition user_messages (prompt : str) : json :=
  JList [JObj ["role" ~> jstr "user"; "content" ~> JStr prompt]].

Definition completions_url (proxy_url : str) : str :=
  proxy_url ++ py "/v1/chat/completions".

Definition post_headers (api_key : str) : list (str * str) :=
  ["Content-Type" ~> py "application/json";
   "Authorization" ~> (py "Bearer " ++ api_key)].

Definition post_body (model : str) (messages : json) : json :=
  JObj ["model" ~> JStr model; "messages" ~> messages; "stream" ~> JBool true].

Definition post_request (proxy_url api_key model : str) (messages : json)
    : request :=
  HttpPost (completions_url proxy_url) (post_headers api_key)
    (post_body model messages).

Section Live.

(** The flags set by the two guarded imports at the top of the module. *)
Variable REQUESTS_AVAILABLE : bool.
Variable OPENAI_AVAILABLE : bool.

(** [requests.post(url, headers=..., json=..., stream=True)] *)
Variable requests_post : str -> list (str * str) -> json -> result response.

(** [line.decode("utf-8")] *)
Variable decode_utf8 : str -> result str.

(** [OpenAI(base_url=..., api_key=...)]: the exception that the
    constructor of the client raises, if any. *)
Variable OpenAI : str -> str -> option str.

(** [client.chat.completions.create(model, messages, stream=True)] for the
    client built with [base_url] and [api_key]: the chunks of the stream
    and the exception that ends it, if any. *)
Variable chat_completions_create :
  str -> str -> str -> json -> result (list chunk * option str).

(** The loop over [response.iter_lines()]; it stops at the first exception. *)
Fixpoint raw_lines (out : str) (lines : list str) : str * option str :=
  match lines with
  | [] => (out, None)
  | [] :: rest => raw_lines out rest
  | line :: rest =>
      match decode_utf8 line with
      | Raise exn => (out, Some exn)
      | Ok line_str =>
          let out :=
            if contains REDACTED line_str then
              print out (Colors.RED ++ line_str ++ Colors.RESET)
            else if contains (py "[DONE]") line_str then
              print out (Colors.YELLOW ++ line_str ++ Colors.RESET)
            else
              print out (Colors.GREEN ++ line_str ++ Colors.RESET) in
          raw_lines out rest
      end
  end.

(** The loop over the chunks of the client; [choices[0]] of a chunk without
    choices raises. *)
Fixpoint parsed_chunks (st : parsed_state) (chunks : list chunk)
    : parsed_state * option str :=
  match chunks with
  | [] => (st, None)
  | chunk :: rest =>
      match choices chunk with
      | [] => (st, Some (py "IndexError"))
      | choice0 :: _ =>
          let content := or_else (delta_content choice0) [] in
          let finish_reason := choice_finish_reason choice0 in
          let st :=
            if contains REDACTED content then
              mkParsed
                (print_end (parsed_out st)
                   (Colors.YELLOW ++ content ++ Colors.RESET))
                (redaction_count st + 1) finish_reason
            else
              mkParsed (print_end (parsed_out st) content)
                (redaction_count st) finish_reason in
          parsed_chunks st rest
      end
  end.

Definition stream_real_sse (proxy_url api_key prompt model : str)
    (show_raw : bool) : live_run :=
  if negb REQUESTS_AVAILABLE then
    mkLive (print [] (Colors.RED ++ py "requests library not available"
                      ++ Colors.RESET))
      [] Returned
  else
    let messages := user_messages prompt in
    let out := print [] (Colors.DIM ++ py "Prompt: " ++ prompt ++ Colors.RESET) in
    let post := post_request proxy_url api_key model messages in
    match requests_post (completions_url proxy_url) (post_headers api_key)
            (post_body model messages) with
    | Raise exn => mkLive out [post] (Raised exn)
    | Ok response =>
        if show_raw then
          let out := print out (LF :: Colors.DIM ++ py "HTTP "
                                ++ str_of_Z (status_code response)
                                ++ Colors.RESET) in
          let out := print out (Colors.DIM ++ py "Content-Type: "
                                ++ format_optional
                                     (headers_get response (py "Content-Type"))
                                ++ Colors.RESET) in
          let decision := headers_get response (py "X-CheckStream-Decision") in
          let out :=
            if truthy decision then
              print out (Colors.CYAN ++ py "X-CheckStream-Decision: "
                         ++ format_optional decision ++ Colors.RESET)
            else out in
          let out := print out (LF :: Colors.DIM ++ py "--- SSE STREAM ---"
                                ++ Colors.RESET) in
          match raw_lines out (body_lines response) with
          | (out, Some exn) => mkLive out [post] (Raised exn)
          | (out, None) =>
              match body_error response with
              | Some exn => mkLive out [post] (Raised exn)
              | None =>
                  mkLive (print out (Colors.DIM ++ py "--- END STREAM ---"
                                     ++ Colors.RESET))
                    [post] Returned
              end
          end
        else if negb OPENAI_AVAILABLE then
          mkLive (print out (Colors.RED ++ py "openai library not available"
                             ++ Colors.RESET))
            [post] Returned
        else
          match OpenAI (proxy_url ++ py "/v1") api_key with
          | Some exn => mkLive out [post] (Raised exn)
          | None =>
          let create :=
            ChatCreate (proxy_url ++ py "/v1") api_key model messages in
          let out := print_end out (Colors.GREEN ++ py "Response: "
                                    ++ Colors.RESET) in
          match chat_completions_create (proxy_url ++ py "/v1") api_key model
                  messages with
          | Raise exn => mkLive out [post; create] (Raised exn)
          | Ok (chunks, stream_error) =>
              match parsed_chunks (mkParsed out 0 None) chunks with
              | (st, Some exn) =>
                  mkLive (parsed_out st) [post; create] (Raised exn)
              | (st, None) =>
                  match stream_error with
                  | Some exn =>
                      mkLive (parsed_out st) [post; create] (Raised exn)
                  | None =>
                      let out := print (parsed_out st) [] in
                      let out := print out (LF :: Colors.CYAN
                                            ++ py "--- Stream Complete ---"
                                            ++ Colors.RESET) in
                      let out := print out (py "  finish_reason: "
                                            ++ format_optional
                                                 (seen_finish_reason st)) in
                      let out := print out (py "  redactions: "
                                            ++ str_of_nat (redaction_count st)) in
                      mkLive out [post; create] Returned
                  end
              end
          end
          end
    end.

End Live.

(** *** Reading a stream *)

(** The tokens that a stream carries, in order. *)
Definition emitted_tokens (stream : list (str * option str)) : list str :=
  omap snd stream.

(** How many tokens contain the redaction marker. *)
Definition count_redacted (toks : list str) : nat :=
  length (List.filter (contains REDACTED) toks).

(** [chunk["choices"][0]] and its two fields. *)
Definition choice0 (chunk : json) : option json :=
  member (py "choices") chunk ≫= item 0.

Definition delta_of (chunk : json) : option json :=
  choice0 chunk ≫= member (py "delta").

Definition finish_reason_of (chunk : json) : option json :=
  choice0 chunk ≫= member (py "finish_reason").

(** What the raw display has printed when it comes to the lines of the
    response: the prompt line, the status, the content type, the decision
    of the proxy if the response has one, and the line that opens the
    stream. *)
Definition raw_header (prompt : str) (response : response) : str :=
  let out := print [] (Colors.DIM ++ py "Prompt: " ++ prompt ++ Colors.RESET) in
  let out := print out (LF :: Colors.DIM ++ py "HTTP "
                        ++ str_of_Z (status_code response) ++ Colors.RESET) in
  let out := print out (Colors.DIM ++ py "Content-Type: "
                        ++ format_optional
                             (headers_get response (py "Content-Type"))
                        ++ Colors.RESET) in
  let decision := headers_get response (py "X-CheckStream-Decision") in
  let out :=
    if truthy decision then
      print out (Colors.CYAN ++ py "X-CheckStream-Decision: "
                 ++ format_optional decision ++ Colors.RESET)
    else out in
  print out (LF :: Colors.DIM ++ py "--- SSE STREAM ---" ++ Colors.RESET).

(** The message printed for a library that could not be imported. *)
Definition not_available (library : string) : str :=
  Colors.RED ++ py library ++ py " library not available" ++ Colors.RESET.

(** A run that only reported that a library is missing: it printed the
    message last, returned, and opened no token stream. *)
Definition skipped (library : string) (r : live_run) : Prop :=
  (exists before, live_printed r = print before (not_available library))
  /\ live_ending r = Returned
  /\ (forall base_url api_key model messages,
        ChatCreate base_url api_key model messages ∉ live_requests r).

End StreamingDemo.

(** ** Reading the output *)

Module Wire.

(** A character of the printable part of ASCII, from the space to the
    tilde. *)
Definition printable (c : char) : bool := ((32 <=? c) && (c <=? 126))%N.

(** The characters of a text file in ASCII: the printable ones and the line
    feed. *)
Definition ascii_text (c : char) : Prop := printable c = true \/ c = LF.

(** The text of an event of the simulated stream, in its parts: what
    stands before the digits of the chunk id, between them and the digits
    of the time stamp, and after these; [delta] and [reason] are the texts
    of the delta and of the finish reason. *)
Definition EVENT_HEAD : str :=
  py "data: {" ++ [QUOTE] ++ py "id" ++ [QUOTE] ++ py ": " ++ [QUOTE]
  ++ py "chatcmpl-demo-".

Definition EVENT_MIDDLE : str :=
  [QUOTE] ++ py ", " ++ [QUOTE] ++ py "object" ++ [QUOTE] ++ py ": "
  ++ [QUOTE] ++ py "chat.completion.chunk" ++ [QUOTE] ++ py ", "
  ++ [QUOTE] ++ py "created" ++ [QUOTE] ++ py ": ".

Definition event_end (delta reason : str) : str :=
  py ", " ++ [QUOTE] ++ py "model" ++ [QUOTE] ++ py ": " ++ [QUOTE]
  ++ py "gpt-4" ++ [QUOTE] ++ py ", " ++ [QUOTE] ++ py "choices" ++ [QUOTE]
  ++ py ": [{" ++ [QUOTE] ++ py "index" ++ [QUOTE] ++ py ": 0, "
  ++ [QUOTE] ++ py "delta" ++ [QUOTE] ++ py ": " ++ delta ++ py ", "
  ++ [QUOTE] ++ py "finish_reason" ++ [QUOTE] ++ py ": " ++ reason
  ++ py "}]}".

Definition event_tail (delta reason : str) : str :=
  event_end delta reason ++ [LF; LF].

(** The text of the delta of a chunk: the content in an object, or the
    empty object for no content and for the empty string. *)
Definition delta_text (content : option str) : str :=
  if truthy content then
    py "{" ++ [QUOTE] ++ py "content" ++ [QUOTE] ++ py ": "
    ++ encode_str (or_else content []) ++ py "}"
  else py "{}".

(** The text of a value that is [None] or a string. *)
Definition optional_text (o : option str) : str :=
  match o with
  | Some s => encode_str s
  | None => py "null"
  end.

(** The line of an event of the simulated stream: the event without its
    two line feeds. *)
Definition event_line (created0 created : Z) (content reason : option str)
    : str :=
  EVENT_HEAD ++ str_of_Z created0 ++ EVENT_MIDDLE ++ str_of_Z created
  ++ event_end (delta_text content) (optional_text reason).

(** A character of a printed integer: a digit or the minus sign. *)
Definition signed_digit (c : char) : bool :=
  ((c =? 45) || (48 <=? c) && (c <=? 57))%N.

(** A character that stands for itself in a JSON string: a printable
    ASCII character other than the double quote and the backslash. *)
Definition plain (c : char) : bool :=
  (printable c && negb (c =? QUOTE) && negb (c =? BACKSLASH))%N.

Definition plain_or_LF (c : char) : bool := plain c || (c =? LF)%N.

(** A text in double quotes, with backslash and n for each of its line
    feeds. *)
Definition in_quotes (s : str) : str :=
  [QUOTE]
  ++ flat_map (fun c => if (c =? LF)%N then [BACKSLASH; 110%N] else [c]) s
  ++ [QUOTE].

(** The event of a token, as text:
    [data: {"id": "chatcmpl-demo-T0", "object": "chat.completion.chunk",
    "created": T, "model": "gpt-4", "choices": [{"index": 0, "delta":
    {"content": "TOKEN"}, "finish_reason": null}]}] and two line feeds. *)
Definition token_event (created0 created : Z) (token : str) : str :=
  EVENT_HEAD ++ str_of_Z created0 ++ EVENT_MIDDLE ++ str_of_Z created
  ++ py ", " ++ [QUOTE] ++ py "model" ++ [QUOTE] ++ py ": " ++ [QUOTE]
  ++ py "gpt-4" ++ [QUOTE] ++ py ", " ++ [QUOTE] ++ py "choices" ++ [QUOTE]
  ++ py ": [{" ++ [QUOTE] ++ py "index" ++ [QUOTE] ++ py ": 0, "
  ++ [QUOTE] ++ py "delta" ++ [QUOTE] ++ py ": {" ++ [QUOTE] ++ py "content"
  ++ [QUOTE] ++ py ": " ++ in_quotes token ++ py "}, "
  ++ [QUOTE] ++ py "finish_reason" ++ [QUOTE] ++ py ": null}]}" ++ [LF; LF].

(** The event that ends the tokens, as text: the same object with
    ["delta": {}, "finish_reason": "REASON"]. *)
Definition finish_event (created0 created : Z) (reason : str) : str :=
  EVENT_HEAD ++ str_of_Z created0 ++ EVENT_MIDDLE ++ str_of_Z created
  ++ py ", " ++ [QUOTE] ++ py "model" ++ [QUOTE] ++ py ": " ++ [QUOTE]
  ++ py "gpt-4" ++ [QUOTE] ++ py ", " ++ [QUOTE] ++ py "choices" ++ [QUOTE]
  ++ py ": [{" ++ [QUOTE] ++ py "index" ++ [QUOTE] ++ py ": 0, "
  ++ [QUOTE] ++ py "delta" ++ [QUOTE] ++ py ": {}, "
  ++ [QUOTE] ++ py "finish_reason" ++ [QUOTE] ++ py ": " ++ in_quotes reason
  ++ py "}]}" ++ [LF; LF].

End Wire.

(** ** examples/streaming_demo.py: the demo runner *)

Module DemoRunner.
Import StreamingDemo.

(** The text that [print] writes for one token or one chunk of the parsed
    display. *)
Definition shown (content : str) : str :=
  if contains REDACTED content then Colors.YELLOW ++ content ++ Colors.RESET
  else content.

(** [chunk.choices[0].delta.content or ""] and
    [chunk.choices[0].finish_reason], for a chunk that has a choice. *)
Definition chunk_content (c : chunk) : str :=
  match choices c with
  | choice0 :: _ => or_else (delta_content choice0) []
  | [] => []
  end.

Definition chunk_finish_reason (c : chunk) : option str :=
  match choices c with
  | choice0 :: _ => choice_finish_reason choice0
  | [] => None
  end.

(** A response whose blank lines are left out. *)
Definition without_blank_lines (r : response) : response :=
  mkResponse (status_code r) (headers_get r)
    (List.filter (fun line => match line with [] => false | _ => true end)
       (body_lines r))
    (body_error r).

(** A text in double quotes. *)
Definition quoted (s : string) : str := [QUOTE] ++ py s ++ [QUOTE].

(** The lines of a triple-quoted literal whose closing quotes stand on a
    line of their own. *)
Definition text_block (lines : list str) : str :=
  concat ((fun line => line ++ [LF]) <$> lines).

Definition CHECK_MARK : char := 10003%N.    (* U+2713 *)
Definition WARNING_SIGN : char := 9888%N.   (* U+26A0 *)
Definition BALLOT_X : char := 10007%N.      (* U+2717 *)

Definition RULE : str := replicate 70 61%N.  (* ['='*70] *)

(** What [print_header(title)] prints. *)
Definition print_header (out title : str) : str :=
  let out := print out (LF :: Colors.BOLD ++ Colors.CYAN ++ RULE) in
  let out := print out (py " " ++ title) in
  print out (RULE ++ Colors.RESET ++ [LF]).

(** What [print_scenario(number, title, description)] prints. *)
Definition print_scenario (out : str) (number : Z) (title description : str)
    : str :=
  let out := print out (LF :: Colors.BOLD ++ Colors.MAGENTA ++ py "Scenario "
                        ++ str_of_Z number ++ py ": " ++ title
                        ++ Colors.RESET) in
  print out (Colors.DIM ++ description ++ Colors.RESET ++ [LF]).

(** The three long texts of [run_demo]. *)
Definition SIMULATED_BANNER : str :=
  text_block [
    Colors.YELLOW ++ py "Running in SIMULATED mode" ++ Colors.RESET;
    py "(Set OPENAI_API_KEY to use real CheckStream proxy)";
    [];
    py "This demo shows the exact SSE wire format that CheckStream sends.";
    py "Your client receives Server-Sent Events over HTTP:";
    [];
    Colors.BOLD ++ py "SSE Protocol:" ++ Colors.RESET;
    py "  HTTP Response Headers:";
    py "    Content-Type: text/event-stream";
    py "    Cache-Control: no-cache";
    [];
    py "  Event Format:";
    py "    data: {" ++ quoted "choices" ++ py ":[{" ++ quoted "delta"
      ++ py ":{" ++ quoted "content" ++ py ":" ++ quoted "token"
      ++ py "}}]}\n\n";
    py "    data: [DONE]\n\n  <- stream end"
  ].

Definition live_banner (proxy_url model : str) : str :=
  text_block [
    Colors.GREEN ++ py "Running in LIVE mode" ++ Colors.RESET;
    py "Proxy: " ++ proxy_url;
    py "Model: " ++ model
  ].

Definition SUMMARY : str :=
  LF :: text_block [
    Colors.BOLD ++ py "What you saw:" ++ Colors.RESET;
    [];
    py "1. " ++ Colors.CYAN ++ py "SSE Wire Format" ++ Colors.RESET;
    py "   Each token arrives as: data: {" ++ quoted "choices" ++ py ":[{"
      ++ quoted "delta" ++ py ":{" ++ quoted "content" ++ py ":"
      ++ quoted "..." ++ py "}}]}\n\n";
    py "   Stream ends with: data: [DONE]\n\n";
    [];
    py "2. " ++ Colors.CYAN ++ py "Guardrail Actions" ++ Colors.RESET;
    py "   - " ++ Colors.GREEN ++ py "Allow" ++ Colors.RESET
      ++ py ": Token passes through unchanged";
    py "   - " ++ Colors.YELLOW ++ py "Redact" ++ Colors.RESET
      ++ py ": Token replaced with [REDACTED]";
    py "   - " ++ Colors.RED ++ py "Block" ++ Colors.RESET
      ++ py ": Stream terminated (finish_reason: content_filter)";
    [];
    py "3. " ++ Colors.CYAN ++ py "Client Integration" ++ Colors.RESET;
    py "   Your app receives the SSE stream and renders tokens.";
    py "   Handle [REDACTED] and check finish_reason in your code.";
    [];
    Colors.DIM ++ py "Run with --raw to see the exact SSE wire format.";
    py "See docs/getting-started.md for full integration guide."
      ++ Colors.RESET
  ].

(** The requests of a whole demo: the health check and those of the
    streams. *)
Inductive demo_request : Type :=
  | HealthGet (url : str)
  | Stream (r : request).

(** The state that the demo threads through its steps. *)
Record world : Type := mkWorld {
  out : str;                  (* standard output so far *)
  stdin : list str;           (* the lines not yet read from standard input *)
  sent : list demo_request;   (* the requests sent so far *)
  ticks : nat                 (* the readings of the clock so far *)
}.

(** A step of the demo: the new state and how the step ended. *)
Definition step : Type := world -> world * outcome.

(** [a] and then [b]; an exception in [a] ends the sequence. *)
Definition and_then (a b : step) : step :=
  fun w =>
    match a w with
    | (w', Returned) => b w'
    | stopped => stopped
    end.

Notation "a >>> b" := (and_then a b) (at level 65, right associativity).

(** A step that only prints. *)
Definition say (f : str -> str) : step :=
  fun w => (mkWorld (f (out w)) (stdin w) (sent w) (ticks w), Returned).

(** [input(prompt)]: the prompt goes to standard output and one line is
    read; at the end of the input [EOFError] is raised. *)
Definition input (prompt : str) : step :=
  fun w =>
    match stdin w with
    | [] =>
        (mkWorld (print_end (out w) prompt) [] (sent w) (ticks w),
         Raised (py "EOFError"))
    | _ :: rest =>
        (mkWorld (print_end (out w) prompt) rest (sent w) (ticks w), Returned)
    end.

Definition START_PROMPT : str :=
  Colors.DIM ++ py "Press Enter to start demo..." ++ Colors.RESET.

Definition NEXT_PROMPT : str :=
  LF :: Colors.DIM ++ py "Press Enter for next scenario..." ++ Colors.RESET.

Section Runner.

Variable REQUESTS_AVAILABLE : bool.
Variable OPENAI_AVAILABLE : bool.

(** [requests.get(url, timeout=5).status_code] *)
Variable requests_get : str -> result Z.

Variable requests_post : str -> list (str * str) -> json -> result response.
Variable decode_utf8 : str -> result str.
Variable OpenAI : str -> str -> option str.
Variable chat_completions_create :
  str -> str -> str -> json -> result (list chunk * option str).
Variable clock : nat -> Z.

(** The clock readings of one simulated stream: one for the chunk id and
    one for each chunk. *)
Definition readings (scenario_key : str) : nat :=
  match SIMULATED_RESPONSES !! scenario_key with
  | Some scenario => length (tokens scenario) + 2
  | None => 0
  end.

(** [run_simulated_stream(scenario_key, show_raw)] as a step. *)
Definition simulated (scenario_key : str) (show_raw : bool) : step :=
  fun w =>
    let r := run_simulated_stream (fun n => clock (ticks w + n)%nat)
               scenario_key show_raw in
    (mkWorld (out w ++ printed r) (stdin w) (sent w)
       (ticks w + readings scenario_key),
     demo_ending r).

(** [stream_real_sse(proxy_url, api_key, prompt, model, show_raw)] as a
    step. *)
Definition live (proxy_url api_key prompt model : str) (show_raw : bool)
    : step :=
  fun w =>
    let r := stream_real_sse REQUESTS_AVAILABLE OPENAI_AVAILABLE requests_post
               decode_utf8 OpenAI chat_completions_create
               proxy_url api_key prompt model show_raw in
    (mkWorld (out w ++ live_printed r) (stdin w)
       (sent w ++ (Stream <$> live_requests r)) (ticks w),
     live_ending r).

(** The start of [run_demo], up to the first [input]: the banner and, in
    live mode, the check of the proxy. The result is the state and the
    value of [simulated_mode]. *)
Definition opening (proxy_url : str) (api_key : option str) (model : str)
    (w : world) : world * bool :=
  let o := print_header (out w) (py "CheckStream Streaming Demo") in
  if negb (truthy api_key) then
    (mkWorld (print o SIMULATED_BANNER) (stdin w) (sent w) (ticks w), true)
  else
    let o := print o (live_banner proxy_url model) in
    if REQUESTS_AVAILABLE then
      let get := HealthGet (proxy_url ++ py "/health/ready") in
      match requests_get (proxy_url ++ py "/health/ready") with
      | Ok status =>
          let o :=
            if (status =? 200)%Z then
              print o (Colors.GREEN ++ [CHECK_MARK] ++ py " Proxy connected"
                       ++ Colors.RESET ++ [LF])
            else
              print o (Colors.YELLOW ++ [WARNING_SIGN] ++ py " Proxy returned "
                       ++ str_of_Z status ++ Colors.RESET ++ [LF]) in
          (mkWorld o (stdin w) (sent w ++ [get]) (ticks w), false)
      | Raise _ =>
          let o := print o (Colors.RED ++ [BALLOT_X] ++ py " Cannot connect to "
                            ++ proxy_url ++ Colors.RESET) in
          let o := print o (Colors.DIM ++ py "Falling back to simulated mode"
                            ++ Colors.RESET ++ [LF]) in
          (mkWorld o (stdin w) (sent w ++ [get]) (ticks w), true)
      end
    else
      (mkWorld o (stdin w) (sent w) (ticks w), false).

(** One scenario of the demo, in the mode that the opening chose. *)
Definition scenario_step (simulated_mode : bool) (proxy_url api_key model : str)
    (show_raw : bool) (scenario_key prompt : str) : step :=
  if simulated_mode then simulated scenario_key show_raw
  else live proxy_url api_key prompt model show_raw.

Definition run_demo (proxy_url : str) (api_key : option str) (model : str)
    (show_raw : bool) : step :=
  fun w =>
    let (w, simulated_mode) := opening proxy_url api_key model w in
    let key := or_else api_key [] in
    (input START_PROMPT >>>
     say (fun o => print_scenario o 1 (py "Normal Streaming")
            (py "Safe content streams through CheckStream unchanged.")) >>>
     scenario_step simulated_mode proxy_url key model show_raw
       (py "normal") (py "What is 2 + 2? Reply in one sentence.") >>>
     input NEXT_PROMPT >>>
     say (fun o => print_scenario o 2 (py "PII Redaction")
            (py "Personal information is detected and replaced with [REDACTED].")) >>>
     scenario_step simulated_mode proxy_url key model show_raw
       (py "pii_redacted")
       (py "Generate a fake customer profile with name, email, and phone number.") >>>
     input NEXT_PROMPT >>>
     say (fun o => print_scenario o 3 (py "Regulatory Guardrails")
            (py "Financial advice triggers compliance disclaimers (FCA/FINRA).")) >>>
     scenario_step simulated_mode proxy_url key model show_raw
       (py "financial") (py "Should I invest all my savings in Bitcoin?") >>>
     input NEXT_PROMPT >>>
     say (fun o => print_scenario o 4 (py "Policy Block")
            (py "Prohibited content triggers stream termination with content_filter.")) >>>
     scenario_step simulated_mode proxy_url key model show_raw
       (py "blocked") (py "Write a harmless poem about nature.") >>>
     say (fun o => print_header o (py "Demo Complete")) >>>
     say (fun o => print o SUMMARY)) w.

End Runner.

(** *** Reading a step *)

(** The step sends no request. *)
Definition keeps_requests (a : step) : Prop :=
  forall w, sent (a w).1 = sent w.

(** The step reads [k] lines: with at least [k] lines of input it returns
    and has read just these; with fewer it reads them all and ends with
    EOFError. *)
Definition reads_lines (k : nat) (a : step) : Prop :=
  forall w,
    (k <= length (stdin w) ->
     (a w).2 = Returned /\ stdin (a w).1 = drop k (stdin w))%nat
    /\ (length (stdin w) < k ->
        (a w).2 = Raised (py "EOFError") /\ stdin (a w).1 = [])%nat.

(** What the step does depends on the input and on the clock only: from
    two states with the same input left and the same clock readings it
    prints the same text, ends the same way, and leaves the same input and
    the same clock readings. *)
Definition input_driven (a : step) : Prop :=
  forall w1 w2,
    stdin w1 = stdin w2 -> ticks w1 = ticks w2 ->
    exists text,
      out (a w1).1 = out w1 ++ text
      /\ out (a w2).1 = out w2 ++ text
      /\ (a w1).2 = (a w2).2
      /\ stdin (a w1).1 = stdin (a w2).1
      /\ ticks (a w1).1 = ticks (a w2).1.

End DemoRunner.

(** * Properties *)

(** ** Python text and dictionaries *)

Module PyFacts.

Lemma startswith_spec (sub s : str) :
  startswith sub s = true <-> exists post, s = sub ++ post.
Proof.
  revert s. induction sub as [|a sub IH]; intros s; simpl.
  - split; [intros _; by exists s | done].
  - destruct s as [|b s].
    + split; [done | intros [post H]; discriminate H].
    + rewrite andb_true_iff, N.eqb_eq, IH. split.
      * intros [-> [post ->]]. by exists post.
      * intros [post H]. injection H as -> ->. eauto.
Qed.

(** [sub in s] holds exactly when [sub] occurs somewhere in [s]. *)
Lemma contains_spec (sub s : str) :
  contains sub s = true <-> exists pre post, s = pre ++ sub ++ post.
Proof.
  induction s as [|b s IH].
  - simpl. rewrite orb_false_r, startswith_spec. split.
    + intros [post H]. by exists [], post.
    + intros [pre [post H]]. symmetry in H.
      apply app_eq_nil in H as [-> H]. apply app_eq_nil in H as [-> ->].
      by exists [].
  - cbn [contains]. rewrite orb_true_iff, startswith_spec, IH. split.
    + intros [[post H] | [pre [post H]]].
      * by exists [], post.
      * exists (b :: pre), post. by rewrite H.
    + intros [[|c pre] [post H]].
      * left. by exists post.
      * right. injection H as _ ->. by exists pre, post.
Qed.

Lemma contains_empty (sub : str) : sub <> [] -> contains sub [] = false.
Proof. by destruct sub. Qed.

(** A text ends with [suffix] exactly when its mirror image starts with
    the mirror image of [suffix]. *)
Lemma endswith_spec (suffix s : str) :
  (exists before, s = before ++ suffix)
  <-> startswith (reverse suffix) (reverse s) = true.
Proof.
  rewrite startswith_spec. split.
  - intros [before ->]. exists (reverse before). apply reverse_app.
  - intros [post H]. exists (reverse post).
    apply (f_equal reverse) in H.
    by rewrite reverse_involutive, reverse_app, reverse_involutive in H.
Qed.

Section DictFacts.
Context {K V : Type} `{EqDecision K}.
Implicit Types (d : list (K * V)) (k : K) (v : V).

Lemma dict_get_set d k v k' :
  dict_get (dict_set d k v) k' = if decide (k = k') then Some v else dict_get d k'.
Proof.
  induction d as [|[k0 v0] d IH]; simpl.
  - done.
  - destruct (decide (k0 = k)) as [->|Hne]; simpl.
    + by destruct (decide (k = k')).
    + rewrite IH. destruct (decide (k0 = k')) as [->|]; [|done].
      by rewrite decide_False.
Qed.

Lemma dict_get_None d k : dict_get d k = None <-> k ∉ dict_keys d.
Proof.
  unfold dict_keys. induction d as [|[k0 v0] d IH]; simpl.
  - split; [intros _; apply not_elem_of_nil | done].
  - rewrite not_elem_of_cons. destruct (decide (k0 = k)) as [->|Hne].
    + split; [done | by intros [? _]].
    + rewrite IH. split; [by intros ? | by intros [_ ?]].
Qed.

(** Assigning to a key that is present keeps the keys and their order. *)
Lemma dict_keys_set_old d k v :
  k ∈ dict_keys d -> dict_keys (dict_set d k v) = dict_keys d.
Proof.
  unfold dict_keys. induction d as [|[k0 v0] d IH]; simpl; intros Hin.
  - by apply elem_of_nil in Hin.
  - destruct (decide (k0 = k)) as [->|Hne]; [done|]. simpl. f_equal.
    apply IH. apply elem_of_cons in Hin as [->|]; done.
Qed.

(** Assigning to a new key appends the entry. *)
Lemma dict_set_new d k v : k ∉ dict_keys d -> dict_set d k v = d ++ [(k, v)].
Proof.
  unfold dict_keys. induction d as [|[k0 v0] d IH]; simpl; intros Hin; [done|].
  apply not_elem_of_cons in Hin as [Hne Hin].
  rewrite decide_False by done. by rewrite IH.
Qed.

Lemma dict_keys_set d k v :
  dict_keys (dict_set d k v)
  = if decide (k ∈ dict_keys d) then dict_keys d else dict_keys d ++ [k].
Proof.
  destruct (decide _) as [Hin|Hin].
  - by apply dict_keys_set_old.
  - rewrite dict_set_new by done. unfold dict_keys. by rewrite fmap_app.
Qed.

Lemma dict_set_NoDup d k v :
  NoDup (dict_keys d) -> NoDup (dict_keys (dict_set d k v)).
Proof.
  intros Hnd. rewrite dict_keys_set. destruct (decide _) as [Hin|Hin]; [done|].
  apply NoDup_app. split_and!; [done | | apply NoDup_singleton].
  intros x Hx ->%list_elem_of_singleton. done.
Qed.

(** With distinct keys, the entries of a key are just the one that
    [dict_get] returns. *)
Lemma dict_entries d k v :
  NoDup (dict_keys d) -> dict_get d k = Some v ->
  filter (fun e => e.1 = k) d = [(k, v)].
Proof.
  unfold dict_keys. induction d as [|[k0 v0] d IH]; simpl; intros Hnd Hget.
  - done.
  - apply NoDup_cons in Hnd as [Hfresh Hnd].
    rewrite filter_cons. simpl. destruct (decide (k0 = k)) as [->|Hne].
    + injection Hget as ->. f_equal.
      apply dict_get_None in Hfresh. clear IH Hnd.
      induction d as [|[k1 v1] d IH]; [done|]. simpl in Hfresh.
      rewrite filter_cons. simpl. destruct (decide (k1 = k)); [done|].
      by apply IH.
    + by apply IH.
Qed.

End DictFacts.

End PyFacts.

(** ** The tokenizer builder *)

Module BuildTokenizerSpec.
Import PyFacts BuildTokenizer.
Local Open Scope nat_scope.

(** *** The word-to-id mapping *)

Lemma vocab_dict_snoc (l : list str) (w : str) :
  vocab_dict (l ++ [w]) = dict_set (vocab_dict l) w (length l).
Proof.
  unfold vocab_dict, enumerate. rewrite imap_app, foldl_app. simpl.
  by rewrite Nat.add_0_r.
Qed.

Lemma vocab_dict_keys_NoDup (l : list str) : NoDup (dict_keys (vocab_dict l)).
Proof.
  induction l as [|w l IH] using rev_ind.
  - apply NoDup_nil_2.
  - rewrite vocab_dict_snoc. by apply dict_set_NoDup.
Qed.

Lemma vocab_dict_keys_elem (l : list str) (w : str) :
  w ∈ dict_keys (vocab_dict l) <-> w ∈ l.
Proof.
  induction l as [|x l IH] using rev_ind.
  - done.
  - rewrite vocab_dict_snoc, dict_keys_set, elem_of_app, list_elem_of_singleton.
    destruct (decide _) as [Hin|Hin].
    + rewrite IH. split; [by left|]. intros [?| ->]; [done|]. by apply IH.
    + by rewrite elem_of_app, list_elem_of_singleton, IH.
Qed.

(** A word is mapped to the index of the last line that holds it. *)
Lemma vocab_dict_get (l : list str) (w : str) (k : nat) :
  dict_get (vocab_dict l) w = Some k
  <-> l !! k = Some w /\ forall j, l !! j = Some w -> j <= k.
Proof.
  revert k. induction l as [|x l IH] using rev_ind; intros k.
  - split; [done | by intros [? _]].
  - rewrite vocab_dict_snoc, dict_get_set.
    destruct (decide (x = w)) as [->|Hne].
    + split.
      * intros [= <-]. split.
        -- by rewrite list_lookup_middle.
        -- intros j Hj. apply lookup_lt_Some in Hj.
           rewrite length_app in Hj. simpl in Hj. lia.
      * intros [Hk Hmax]. f_equal.
        apply lookup_lt_Some in Hk. rewrite length_app in Hk. simpl in Hk.
        specialize (Hmax (length l)). rewrite list_lookup_middle in Hmax by done.
        specialize (Hmax eq_refl). lia.
    + rewrite IH. split.
      * intros [Hk Hmax]. split.
        -- rewrite lookup_app_l; [done | by eapply lookup_lt_Some].
        -- intros j Hj. apply lookup_snoc_Some in Hj as [[_ Hj] | [_ Hj]];
             [by apply Hmax | done].
      * intros [Hk Hmax].
        apply lookup_snoc_Some in Hk as [[Hlt Hk] | [_ Hk]]; [|done].
        split; [done|]. intros j Hj. apply Hmax.
        rewrite lookup_app_l; [done | by eapply lookup_lt_Some].
Qed.

(** Without repeated words the mapping lists the words in file order, each
    with the index of its line. *)
Lemma vocab_dict_NoDup (l : list str) :
  NoDup l -> vocab_dict l = imap (fun i w => (w, i)) l.
Proof.
  induction l as [|x l IH] using rev_ind; intros Hnd.
  - done.
  - apply NoDup_app in Hnd as (Hnd & Hfresh & _).
    rewrite vocab_dict_snoc, imap_app. simpl. rewrite Nat.add_0_r, <- IH by done.
    apply dict_set_new. rewrite vocab_dict_keys_elem. intros Hin.
    apply (Hfresh x Hin). by apply list_elem_of_singleton.
Qed.

Lemma vocab_dict_length (l : list str) : length (vocab_dict l) <= length l.
Proof.
  rewrite <- (length_fmap fst (vocab_dict l)).
  apply submseteq_length, NoDup_submseteq.
  - apply vocab_dict_keys_NoDup.
  - intros w. apply vocab_dict_keys_elem.
Qed.

(** A repeated word makes the mapping shorter than the list of lines. *)
Lemma vocab_dict_length_lt (l : list str) :
  ~ NoDup l -> length (vocab_dict l) < length l.
Proof.
  intros Hdup. pose proof (vocab_dict_length l) as Hle.
  destruct (decide (length (vocab_dict l) = length l)) as [Heq|]; [|lia].
  exfalso. apply Hdup.
  assert (dict_keys (vocab_dict l) ⊆+ l) as Hsub.
  { apply NoDup_submseteq; [apply vocab_dict_keys_NoDup|].
    intros w. apply vocab_dict_keys_elem. }
  apply submseteq_length_Permutation in Hsub.
  - rewrite <- Hsub. apply vocab_dict_keys_NoDup.
  - unfold dict_keys. rewrite length_fmap. lia.
Qed.

Lemma model_vocab_generated (text : str) :
  model_vocab (generated text)
  = Some (vocab_object (vocab_dict (read_vocab text))).
Proof. reflexivity. Qed.

(** *** The cases of a run of the builder *)

Lemma digits_ascii (d : Decimal.uint) :
  Forall (fun c => (c < 128)%N) (py (NilEmpty.string_of_uint d)).
Proof. induction d; constructor; done. Qed.

Lemma str_of_Z_ascii (z : Z) : Forall (fun c => (c < 128)%N) (str_of_Z z).
Proof.
  unfold str_of_Z, NilZero.string_of_int.
  destruct (Z.to_int z) as [d|d].
  - unfold NilZero.string_of_uint. destruct d;
      try apply (digits_ascii (_ _)). by repeat constructor.
  - constructor; [done|]. unfold NilZero.string_of_uint. destruct d;
      try apply (digits_ascii (_ _)). by repeat constructor.
Qed.

Section BuilderCases.
Variable joinpath : str -> str -> str.
Variable open_for_writing : str -> option str.
Variable encodable : char -> bool.
Variable fs : filesystem.
Variable model_dir : str.

Let vocab_path : str := joinpath model_dir (py "vocab.txt").
Let output_path : str := joinpath model_dir (py "tokenizer.json").
Let message : str := py "Error: " ++ vocab_path ++ py " not found".
Let created : str := CHECK_MARK :: py " Created " ++ output_path.
Let r : run :=
  build_tokenizer_json joinpath open_for_writing encodable fs model_dir.

(** Standard output can write every text of ASCII characters. *)
Lemma can_print_ascii (text : str) :
  Forall (fun c => (c < 128)%N) text -> can_print encodable text = true.
Proof.
  intros Hascii. unfold can_print. apply forallb_forall.
  intros c Hc%list_elem_of_In. rewrite Forall_forall in Hascii.
  apply orb_true_iff. left. apply N.ltb_lt. by apply Hascii.
Qed.

Lemma can_print_vocab_size (n : nat) :
  can_print encodable (py "  Vocab size: " ++ str_of_nat n) = true.
Proof.
  apply can_print_ascii, Forall_app. split.
  - by repeat constructor.
  - apply str_of_Z_ascii.
Qed.

Lemma build_missing :
  fs !! vocab_path = None -> can_print encodable message = true ->
  r = mkRun fs (message ++ [LF]) (Exited 1).
Proof.
  intros Hfile Hprint. unfold r, build_tokenizer_json. fold vocab_path.
  rewrite Hfile. unfold print. fold message. by rewrite Hprint.
Qed.

Lemma build_missing_unprintable :
  fs !! vocab_path = None -> can_print encodable message = false ->
  r = mkRun fs [] (Raised UNICODE_ENCODE_ERROR).
Proof.
  intros Hfile Hprint. unfold r, build_tokenizer_json. fold vocab_path.
  rewrite Hfile. unfold print. fold message. by rewrite Hprint.
Qed.

Lemma build_unreadable (exn : str) :
  fs !! vocab_path = Some (Unreadable exn) -> r = mkRun fs [] (Raised exn).
Proof.
  intros Hfile. unfold r, build_tokenizer_json. fold vocab_path.
  by rewrite Hfile.
Qed.

Lemma build_unwritable (text exn : str) :
  fs !! vocab_path = Some (Text text) ->
  open_for_writing output_path = Some exn ->
  r = mkRun fs [] (Raised exn).
Proof.
  intros Hfile Hopen. unfold r, build_tokenizer_json.
  fold vocab_path output_path. by rewrite Hfile, Hopen.
Qed.

Lemma build_success (text : str) :
  fs !! vocab_path = Some (Text text) ->
  open_for_writing output_path = None ->
  can_print encodable created = true ->
  r = mkRun (<[output_path := Text (dumps_indent 2 (generated text))]> fs)
        (created ++ [LF] ++ py "  Vocab size: "
         ++ str_of_nat (length (read_vocab text)) ++ [LF])
        Returned.
Proof.
  intros Hfile Hopen Hprint. unfold r, build_tokenizer_json.
  fold vocab_path output_path. rewrite Hfile, Hopen. unfold print.
  fold created. rewrite Hprint, can_print_vocab_size. f_equal.
  cbn [app]. by rewrite <- !app_assoc.
Qed.

Lemma build_created_unprintable (text : str) :
  fs !! vocab_path = Some (Text text) ->
  open_for_writing output_path = None ->
  can_print encodable created = false ->
  r = mkRun (<[output_path := Text (dumps_indent 2 (generated text))]> fs) []
        (Raised UNICODE_ENCODE_ERROR).
Proof.
  intros Hfile Hopen Hprint. unfold r, build_tokenizer_json.
  fold vocab_path output_path. rewrite Hfile, Hopen. unfold print.
  fold created. by rewrite Hprint.
Qed.

(** The six ways in which a run goes. *)
Lemma build_cases :
  (fs !! vocab_path = None /\ can_print encodable message = true
   /\ r = mkRun fs (message ++ [LF]) (Exited 1))
  \/ (fs !! vocab_path = None /\ can_print encodable message = false
      /\ r = mkRun fs [] (Raised UNICODE_ENCODE_ERROR))
  \/ (exists exn,
        fs !! vocab_path = Some (Unreadable exn)
        /\ r = mkRun fs [] (Raised exn))
  \/ (exists text exn,
        fs !! vocab_path = Some (Text text)
        /\ open_for_writing output_path = Some exn
        /\ r = mkRun fs [] (Raised exn))
  \/ (exists text,
        fs !! vocab_path = Some (Text text)
        /\ open_for_writing output_path = None
        /\ can_print encodable created = true
        /\ r = mkRun
                (<[output_path := Text (dumps_indent 2 (generated text))]> fs)
                (created ++ [LF] ++ py "  Vocab size: "
                 ++ str_of_nat (length (read_vocab text)) ++ [LF])
                Returned)
  \/ (exists text,
        fs !! vocab_path = Some (Text text)
        /\ open_for_writing output_path = None
        /\ can_print encodable created = false
        /\ r = mkRun
                (<[output_path := Text (dumps_indent 2 (generated text))]> fs)
                [] (Raised UNICODE_ENCODE_ERROR)).
Proof.
  destruct (fs !! vocab_path) as [[text|exn]|] eqn:Hfile.
  - destruct (open_for_writing output_path) as [exn|] eqn:Hopen.
    + do 3 right. left. exists text, exn. split_and!; [done | done |].
      by apply (build_unwritable text).
    + destruct (can_print encodable created) eqn:Hprint.
      * do 4 right. left. exists text. split_and!; [done | done | done |].
        by apply build_success.
      * do 5 right. exists text. split_and!; [done | done | done |].
        by apply build_created_unprintable.
  - do 2 right. left. exists exn. split; [done|]. by apply build_unreadable.
  - destruct (can_print encodable message) eqn:Hprint.
    + left. split_and!; [done | done |]. by apply build_missing.
    + right. left. split_and!; [done | done |].
      by apply build_missing_unprintable.
Qed.

(** The builder writes the generated configuration, indented by two. *)
Lemma build_tokenizer_json_writes (text : str) :
  fs !! vocab_path = Some (Text text) ->
  open_for_writing output_path = None ->
  files r !! output_path = Some (Text (dumps_indent 2 (generated text))).
Proof.
  intros Hfile Hopen.
  destruct (can_print encodable created) eqn:Hprint.
  - rewrite (build_success text Hfile Hopen Hprint). apply lookup_insert_eq.
  - rewrite (build_created_unprintable text Hfile Hopen Hprint).
    apply lookup_insert_eq.
Qed.

(** No run changes a file other than the output. *)
Lemma build_other_files (path : str) :
  path <> output_path -> files r !! path = fs !! path.
Proof.
  intros Hpath.
  destruct (fs !! vocab_path) as [[text|exn]|] eqn:Hfile.
  - destruct (open_for_writing output_path) as [exn|] eqn:Hopen.
    + by rewrite (build_unwritable text exn Hfile Hopen).
    + destruct (can_print encodable created) eqn:Hprint.
      * rewrite (build_success text Hfile Hopen Hprint).
        by apply lookup_insert_ne.
      * rewrite (build_created_unprintable text Hfile Hopen Hprint).
        by apply lookup_insert_ne.
  - by rewrite (build_unreadable exn Hfile).
  - destruct (can_print encodable message) eqn:Hprint.
    + by rewrite (build_missing Hfile Hprint).
    + by rewrite (build_missing_unprintable Hfile Hprint).
Qed.

End BuilderCases.

(** *** The claims *)

Lemma imap_words_ids (l : list str) :
  (imap (fun i w => (w, i)) l).*1 = l
  /\ (imap (fun i w => (w, i)) l).*2 = seq 0 (length l).
Proof.
  split; apply list_eq; intros i.
  - rewrite list_lookup_fmap, list_lookup_imap. by destruct (l !! i).
  - rewrite list_lookup_fmap, list_lookup_imap.
    destruct (l !! i) as [w|] eqn:Hi; simpl.
    + symmetry. apply lookup_seq. split; [done | by eapply lookup_lt_Some].
    + symmetry. apply lookup_ge_None. rewrite length_seq.
      by apply lookup_ge_None.
Qed.

(** C1, as stated, fails: in the file with the lines "a", "b", "a" the word
    of line 0 does not have the id 0. *)
Lemma repeated_word_breaks_line_ids :
  ~ ids_follow_lines (py "a" ++ [LF] ++ py "b" ++ [LF] ++ py "a" ++ [LF]).
Proof.
  intros H. specialize (H 0 (py "a") eq_refl). vm_compute in H. discriminate H.
Qed.

(** In that file the ids are not increasing in the order of the mapping. *)
Example repeated_word_mapping :
  vocab_dict (read_vocab (py "a" ++ [LF] ++ py "b" ++ [LF] ++ py "a" ++ [LF]))
  = [(py "a", 2); (py "b", 1)].
Proof. reflexivity. Qed.

(** C1 (amended): for every vocabulary file whose stripped lines are
    pairwise distinct, the mapping placed in the configuration under
    model.vocab lists the words in file order with the ids 0, 1, 2, ...:
    the word of line [i] has the id [i], so the ids are strictly increasing
    and unique. *)
Theorem distinct_words_ids_follow_lines (text : str) :
  NoDup (read_vocab text) ->
  let d := vocab_dict (read_vocab text) in
  model_vocab (generated text) = Some (vocab_object d)
  /\ d.*1 = read_vocab text
  /\ d.*2 = seq 0 (length (read_vocab text))
  /\ ids_follow_lines text.
Proof.
  intros Hnd d. split; [apply model_vocab_generated|].
  unfold d. rewrite vocab_dict_NoDup by done.
  destruct (imap_words_ids (read_vocab text)) as [Hw Hi].
  split_and!; [done | done |].
  intros i w Hi'. apply vocab_dict_get. split; [done|].
  intros j Hj. by rewrite (NoDup_lookup _ _ _ _ Hnd Hj Hi').
Qed.

Lemma distinct_words_ids_follow_lines_witness :
  let text := py "hello" ++ [LF] ++ py "world" ++ [LF] in
  NoDup (read_vocab text)
  /\ vocab_dict (read_vocab text) = [(py "hello", 0); (py "world", 1)]
  /\ ids_follow_lines text.
Proof.
  intros text.
  assert (NoDup (read_vocab text)) as Hnd.
  { apply (bool_decide_unpack _). vm_compute. exact I. }
  split; [exact Hnd|].
  split; [reflexivity|].
  apply (distinct_words_ids_follow_lines text Hnd).
Defined.

(** C9: when the same word (after stripping) stands on two lines of the
    vocabulary file, the mapping has exactly one entry for it, its id is
    the index of the last line that holds the word, and the mapping has
    fewer entries than the file has lines. *)
Theorem repeated_word_last_index (text w : str) (i j : nat) :
  i < j ->
  read_vocab text !! i = Some w ->
  read_vocab text !! j = Some w ->
  let vocab := read_vocab text in
  let d := vocab_dict vocab in
  model_vocab (generated text) = Some (vocab_object d)
  /\ exists k,
       filter (fun e => e.1 = w) d = [(w, k)]
       /\ dict_get d w = Some k
       /\ vocab !! k = Some w
       /\ (forall j', vocab !! j' = Some w -> j' <= k)
       /\ length d < length vocab.
Proof.
  intros Hij Hi Hj vocab d. split; [apply model_vocab_generated|].
  assert (w ∈ dict_keys d) as Hin.
  { apply vocab_dict_keys_elem. by eapply list_elem_of_lookup_2. }
  destruct (dict_get d w) as [k|] eqn:Hget;
    [| by apply dict_get_None in Hget].
  exists k. pose proof Hget as [Hk Hmax]%vocab_dict_get.
  split_and!; try done.
  - apply dict_entries; [apply vocab_dict_keys_NoDup | done].
  - apply vocab_dict_length_lt. intros Hnd.
    pose proof (NoDup_lookup _ _ _ _ Hnd Hi Hj). lia.
Qed.

Lemma repeated_word_last_index_witness :
  let text := py "a" ++ [LF] ++ py " b" ++ [LF] ++ py "a " ++ [LF] in
  vocab_dict (read_vocab text) = [(py "a", 2); (py "b", 1)]
  /\ exists k,
       filter (fun e => e.1 = py "a") (vocab_dict (read_vocab text))
         = [(py "a", k)]
       /\ dict_get (vocab_dict (read_vocab text)) (py "a") = Some k
       /\ read_vocab text !! k = Some (py "a")
       /\ (forall j', read_vocab text !! j' = Some (py "a") -> j' <= k)
       /\ length (vocab_dict (read_vocab text)) < length (read_vocab text).
Proof.
  intros text. split; [reflexivity|].
  apply (repeated_word_last_index text (py "a") 0 2);
    [lia | reflexivity | reflexivity].
Defined.

(** C2: whatever the vocabulary file holds, the special tokens [PAD],
    [UNK], [CLS], [SEP] and [MASK] have the ids 0, 100, 101, 102 and 103 in
    the added_tokens of the generated configuration, and these five are
    all its entries. *)
Theorem special_token_ids (text : str) :
  added_token_id (generated text) (py "[PAD]") = Some (JInt 0)
  /\ added_token_id (generated text) (py "[UNK]") = Some (JInt 100)
  /\ added_token_id (generated text) (py "[CLS]") = Some (JInt 101)
  /\ added_token_id (generated text) (py "[SEP]") = Some (JInt 102)
  /\ added_token_id (generated text) (py "[MASK]") = Some (JInt 103)
  /\ exists entries,
       member (py "added_tokens") (generated text) = Some (JList entries)
       /\ omap (member (py "content")) entries
          = [jstr "[PAD]"; jstr "[UNK]"; jstr "[CLS]"; jstr "[SEP]"; jstr "[MASK]"]
       /\ omap (member (py "id")) entries
          = [JInt 0; JInt 100; JInt 101; JInt 102; JInt 103].
Proof.
  split_and!; try reflexivity.
  eexists. split_and!; reflexivity.
Qed.

(** The mapping itself follows the file: a special word that stands on
    another line has the index of that line under model.vocab. *)
Remark vocab_follows_file_for_special_words :
  let text := py "the" ++ [LF] ++ py "[PAD]" ++ [LF] in
  vocab_dict (read_vocab text) = [(py "the", 0); (py "[PAD]", 1)]
  /\ added_token_id (generated text) (py "[PAD]") = Some (JInt 0).
Proof. split; reflexivity. Qed.




(** The script itself also stops with status 1 when it is not given exactly
    one argument; the builder is then not called. *)
Remark main_wrong_arguments (joinpath : str -> str -> str)
    (open_for_writing : str -> option str) (encodable : char -> bool)
    (fs : filesystem) :
  main joinpath open_for_writing encodable fs [py "build_tokenizer.py"]
  = mkRun fs (py "Usage: build_tokenizer.py <model_directory>" ++ [LF])
      (Exited 1).
Proof. reflexivity. Qed.

Local Ltac same_member key :=
  cbn [member dict_get];
  repeat (destruct (decide (_ = key)) as [?|?]; [congruence|]);
  reflexivity.

(** C6: apart from the mapping under model.vocab, the generated
    configuration does not depend on the vocabulary file: it has the same
    nine top-level fields, the field "model" has the same five fields, and
    any two files give the same value to every field other than "vocab",
    at the top level (outside "model") and inside "model". *)
Theorem fields_other_than_vocab_fixed (text1 text2 key : str) :
  key <> py "vocab" ->
  fields (generated text1)
    = py <$> ["version"; "truncation"; "padding"; "added_tokens"; "normalizer";
              "pre_tokenizer"; "post_processor"; "decoder"; "model"]
  /\ fields <$> member (py "model") (generated text1)
     = Some (py <$> ["type"; "unk_token"; "continuing_subword_prefix";
                     "max_input_chars_per_word"; "vocab"])
  /\ (key <> py "model" ->
      member key (generated text1) = member key (generated text2))
  /\ member (py "model") (generated text1) ≫= member key
     = member (py "model") (generated text2) ≫= member key.
Proof.
  intros Hkey. split_and!; [reflexivity | reflexivity | |].
  - intros Hmodel. unfold generated, tokenizer_json. same_member key.
  - change (member (py "model") (generated text1))
      with (Some (JObj [
        "type" ~> jstr "WordPiece";
        "unk_token" ~> jstr "[UNK]";
        "continuing_subword_prefix" ~> jstr "##";
        "max_input_chars_per_word" ~> JInt 100;
        "vocab" ~> vocab_object (vocab_dict (read_vocab text1))])).
    change (member (py "model") (generated text2))
      with (Some (JObj [
        "type" ~> jstr "WordPiece";
        "unk_token" ~> jstr "[UNK]";
        "continuing_subword_prefix" ~> jstr "##";
        "max_input_chars_per_word" ~> JInt 100;
        "vocab" ~> vocab_object (vocab_dict (read_vocab text2))])).
    cbn [mbind option_bind]. same_member key.
Qed.

Lemma fields_other_than_vocab_fixed_witness :
  let text1 := py "hello" ++ [LF] ++ py "world" ++ [LF] in
  let text2 := py "[PAD]" ++ [LF] in
  member (py "decoder") (generated text1) = member (py "decoder") (generated text2)
  /\ member (py "model") (generated text1) ≫= member (py "unk_token")
     = member (py "model") (generated text2) ≫= member (py "unk_token").
Proof.
  intros text1 text2.
  assert (py "decoder" <> py "vocab") as Hd by (vm_compute; discriminate).
  assert (py "decoder" <> py "model") as Hm by (vm_compute; discriminate).
  assert (py "unk_token" <> py "vocab") as Hu by (vm_compute; discriminate).
  split.
  - apply (fields_other_than_vocab_fixed text1 text2 (py "decoder") Hd), Hm.
  - apply (fields_other_than_vocab_fixed text1 text2 (py "unk_token") Hu).
Defined.

End BuildTokenizerSpec.

(** ** The streaming demo *)

Module StreamingDemoSpec.
Import PyFacts StreamingDemo.
Local Open Scope nat_scope.

(** *** The simulated stream *)

Section SimulatedFacts.
Variable clock : nat -> Z.

(** The stream of a scenario of the table: one event per token, the chunk
    with the finish reason, the end marker. *)
Lemma simulate_sse_stream_Some (key : str) (sc : scenario) :
  SIMULATED_RESPONSES !! key = Some sc ->
  simulate_sse_stream clock key
  = Some (imap (fun i token =>
                  (generate_sse_event (clock (S i))
                     (py "chatcmpl-demo-" ++ str_of_Z (clock 0))
                     (Some token) None, Some token))
            (tokens sc)
          ++ [(generate_sse_event (clock (S (length (tokens sc))))
                 (py "chatcmpl-demo-" ++ str_of_Z (clock 0))
                 None (Some (finish_reason sc)), None);
              (DONE, None)]).
Proof. intros Hkey. unfold simulate_sse_stream. by rewrite Hkey. Qed.

Lemma emitted_tokens_imap (f : nat -> str -> str) (l : list str) :
  emitted_tokens (imap (fun i token => (f i token, Some token)) l) = l.
Proof.
  unfold emitted_tokens. revert f. induction l as [|t l IH]; intros f.
  - done.
  - simpl. f_equal. apply (IH (fun i => f (S i))).
Qed.

Lemma emitted_tokens_simulated (key : str) (sc : scenario)
    (stream : list (str * option str)) :
  SIMULATED_RESPONSES !! key = Some sc ->
  simulate_sse_stream clock key = Some stream ->
  emitted_tokens stream = tokens sc.
Proof.
  intros Hkey Hs. rewrite (simulate_sse_stream_Some key sc Hkey) in Hs.
  injection Hs as <-. unfold emitted_tokens. rewrite omap_app.
  fold (emitted_tokens
          (imap (fun i token =>
                   (generate_sse_event (clock (S i))
                      (py "chatcmpl-demo-" ++ str_of_Z (clock 0))
                      (Some token) None, Some token)) (tokens sc))).
  rewrite (emitted_tokens_imap
             (fun i token => generate_sse_event (clock (S i))
                (py "chatcmpl-demo-" ++ str_of_Z (clock 0)) (Some token) None)).
  simpl. apply app_nil_r.
Qed.

End SimulatedFacts.

(** The four scenarios of the table. *)
Lemma table_scenarios (key : str) (sc : scenario) :
  SIMULATED_RESPONSES !! key = Some sc ->
  key ∈ py <$> ["normal"; "pii_redacted"; "financial"; "blocked"]%string.
Proof.
  intros Hkey. apply elem_of_list_to_map_2 in Hkey.
  repeat (apply elem_of_cons in Hkey as [[= -> _]|Hkey];
          [repeat first [apply list_elem_of_here | apply list_elem_of_further]|]).
  by apply elem_of_nil in Hkey.
Qed.

(** No token of the table is the empty string. *)
Lemma table_tokens_nonempty (key : str) (sc : scenario) :
  SIMULATED_RESPONSES !! key = Some sc -> Forall (fun t => t <> []) (tokens sc).
Proof.
  intros Hkey. apply elem_of_list_to_map_2 in Hkey.
  repeat (apply elem_of_cons in Hkey as [[= _ ->]|Hkey];
          [cbn [tokens]; repeat (constructor; [discriminate|]); constructor|]).
  by apply elem_of_nil in Hkey.
Qed.

(** *** The loop of the parsed display *)

Lemma parsed_step_count (st : parsed_state) (sse_event : str)
    (token : option str) :
  redaction_count (parsed_step st (sse_event, token))
  = redaction_count st + count_redacted (emitted_tokens [(sse_event, token)]).
Proof.
  unfold parsed_step, count_redacted, emitted_tokens. cbn [fst snd].
  generalize (contains (py "finish_reason") sse_event
              && contains (py "content_filter") sse_event).
  generalize (contains (py "finish_reason") sse_event
              && contains FINISH_STOP sse_event).
  intros b2 b1.
  destruct token as [[|c r]|]; cbn [omap list_omap fst snd List.filter].
  - change (contains REDACTED []) with false. cbn [length].
    destruct b1, b2; cbn [redaction_count]; lia.
  - destruct (contains REDACTED (c :: r)); cbn [length];
      destruct b1, b2; cbn [redaction_count]; lia.
  - cbn [length]. destruct b1, b2; cbn [redaction_count]; lia.
Qed.

Lemma count_redacted_app (l1 l2 : list str) :
  count_redacted (l1 ++ l2) = count_redacted l1 + count_redacted l2.
Proof. unfold count_redacted. by rewrite List.filter_app, length_app. Qed.

(** The counter of the loop counts the tokens of the stream that contain
    the marker. *)
Lemma parsed_loop_count (st : parsed_state) (stream : list (str * option str)) :
  redaction_count (foldl parsed_step st stream)
  = redaction_count st + count_redacted (emitted_tokens stream).
Proof.
  revert st. induction stream as [|[sse_event token] stream IH]; intros st.
  - simpl. unfold count_redacted. simpl. lia.
  - simpl foldl. rewrite IH, parsed_step_count.
    change (emitted_tokens ((sse_event, token) :: stream))
      with (emitted_tokens ([(sse_event, token)] ++ stream)).
    unfold emitted_tokens at 3. rewrite omap_app, count_redacted_app.
    fold (emitted_tokens [(sse_event, token)]). fold (emitted_tokens stream).
    lia.
Qed.

(** *** The chunks *)

Lemma delta_of_token (created : Z) (chunk_id token : str)
    (reason : option str) :
  token <> [] ->
  delta_of (chunk_data created chunk_id (Some token) reason)
  = Some (JObj ["content" ~> JStr token]).
Proof. intros Hne. by destruct token. Qed.

Lemma delta_of_final (created : Z) (chunk_id : str) (reason : option str) :
  delta_of (chunk_data created chunk_id None reason) = Some (JObj []).
Proof. reflexivity. Qed.

Lemma finish_reason_of_chunk (created : Z) (chunk_id : str)
    (content reason : option str) :
  finish_reason_of (chunk_data created chunk_id content reason)
  = Some (json_of_optional reason).
Proof. reflexivity. Qed.

(** *** The claims *)

(** C3: for every scenario key of the table, the parsed display ends with
    the line that reports the redactions, and the number on it is the
    number of tokens of the stream that contain "[REDACTED]". *)
Theorem redactions_reported (clock : nat -> Z) (key : str) (sc : scenario) :
  SIMULATED_RESPONSES !! key = Some sc ->
  exists stream before,
    simulate_sse_stream clock key = Some stream
    /\ emitted_tokens stream = tokens sc
    /\ printed (run_simulated_stream clock key false)
       = print before
           (py "  redactions: "
            ++ str_of_nat (count_redacted (emitted_tokens stream)))
    /\ demo_ending (run_simulated_stream clock key false) = Returned.
Proof.
  intros Hkey.
  destruct (simulate_sse_stream clock key) as [stream|] eqn:Hs;
    [| by rewrite (simulate_sse_stream_Some clock key sc Hkey) in Hs].
  unfold run_simulated_stream. rewrite Hkey, Hs. cbn [printed demo_ending].
  exists stream. eexists. split_and!; [done | | | done].
  - by eapply emitted_tokens_simulated.
  - rewrite parsed_loop_count. cbn [redaction_count]. reflexivity.
Qed.

Lemma redactions_reported_witness :
  let clock := fun n : nat => (1700000000 + Z.of_nat n)%Z in
  let sc :=
    mkScenario (py "What is my account email?")
      (py <$> ["Your"; " account"; " email"; " is"; " [REDACTED]"; " and";
               " phone"; " is"; " [REDACTED]"; "."]%string)
      (py "stop") in
  SIMULATED_RESPONSES !! py "pii_redacted" = Some sc
  /\ count_redacted (tokens sc) = 2
  /\ exists stream before,
       simulate_sse_stream clock (py "pii_redacted") = Some stream
       /\ emitted_tokens stream = tokens sc
       /\ printed (run_simulated_stream clock (py "pii_redacted") false)
          = print before
              (py "  redactions: "
               ++ str_of_nat (count_redacted (emitted_tokens stream)))
       /\ demo_ending (run_simulated_stream clock (py "pii_redacted") false)
          = Returned.
Proof.
  intros clock sc.
  assert (SIMULATED_RESPONSES !! py "pii_redacted" = Some sc) as Hkey
    by (vm_compute; reflexivity).
  split; [exact Hkey|]. split; [vm_compute; reflexivity|].
  apply (redactions_reported clock (py "pii_redacted") sc Hkey).
Defined.

(** C4: for every scenario key of the table, the simulated stream is a
    finite sequence of events and its last event is the end marker
    "data: [DONE]\n\n". *)
Theorem stream_ends_with_done (clock : nat -> Z) (key : str) (sc : scenario) :
  SIMULATED_RESPONSES !! key = Some sc ->
  exists stream,
    simulate_sse_stream clock key = Some stream
    /\ length stream = length (tokens sc) + 2
    /\ last stream = Some (py "data: [DONE]" ++ [LF; LF], None).
Proof.
  intros Hkey. eexists. split; [by apply simulate_sse_stream_Some|].
  split.
  - rewrite length_app, length_imap. simpl. lia.
  - by rewrite last_app.
Qed.

Lemma stream_ends_with_done_witness :
  let clock := fun n : nat => (1700000000 + Z.of_nat n)%Z in
  let sc :=
    mkScenario (py "What is 2 + 2? Reply in one sentence.")
      (py <$> ["Two"; " plus"; " two"; " equals"; " four"; "."]%string)
      (py "stop") in
  SIMULATED_RESPONSES !! py "normal" = Some sc
  /\ exists stream,
       simulate_sse_stream clock (py "normal") = Some stream
       /\ length stream = length (tokens sc) + 2
       /\ last stream = Some (py "data: [DONE]" ++ [LF; LF], None).
Proof.
  intros clock sc.
  assert (SIMULATED_RESPONSES !! py "normal" = Some sc) as Hkey
    by (vm_compute; reflexivity).
  split; [exact Hkey|].
  apply (stream_ends_with_done clock (py "normal") sc Hkey).
Defined.

(** The text of the event before the last, for the scenario "blocked". *)
Example blocked_finish_event :
  (simulate_sse_stream (fun _ => 1700000000%Z) (py "blocked")
     ≫= (fun stream => stream !! 11)) =
  Some (py "data: {" ++ [QUOTE] ++ py "id" ++ [QUOTE] ++ py ": " ++ [QUOTE]
        ++ py "chatcmpl-demo-1700000000" ++ [QUOTE] ++ py ", " ++ [QUOTE]
        ++ py "object" ++ [QUOTE] ++ py ": " ++ [QUOTE]
        ++ py "chat.completion.chunk" ++ [QUOTE] ++ py ", " ++ [QUOTE]
        ++ py "created" ++ [QUOTE] ++ py ": 1700000000, " ++ [QUOTE]
        ++ py "model" ++ [QUOTE] ++ py ": " ++ [QUOTE] ++ py "gpt-4" ++ [QUOTE]
        ++ py ", " ++ [QUOTE] ++ py "choices" ++ [QUOTE] ++ py ": [{" ++ [QUOTE]
        ++ py "index" ++ [QUOTE] ++ py ": 0, " ++ [QUOTE] ++ py "delta"
        ++ [QUOTE] ++ py ": {}, " ++ [QUOTE] ++ py "finish_reason" ++ [QUOTE]
        ++ py ": " ++ [QUOTE] ++ py "content_filter" ++ [QUOTE] ++ py "}]}"
        ++ [LF; LF], None).
Proof. vm_compute. reflexivity. Qed.

(** *** The live stream *)

(** C8, as stated, fails: without the openai library and with the raw
    display, the function does not report that a library is missing; it
    shows the stream that the proxy sends. *)
Lemma openai_absent_raw_display_streams :
  let requests_post := fun (_ : str) (_ : list (str * str)) (_ : json) =>
    Ok (mkResponse 200 (fun _ => None) [py "data: [DONE]"] None) in
  let decode_utf8 := fun line : str => Ok line in
  let OpenAI := fun _ _ : str => Some (py "NameError") in
  let chat_completions_create := fun (_ _ _ : str) (_ : json) =>
    Raise (py "NameError") : result (list chunk * option str) in
  let r :=
    stream_real_sse true false requests_post decode_utf8 OpenAI
      chat_completions_create
      (py "http://localhost:8080") (py "sk-demo") (py "Hello") (py "gpt-4")
      true in
  ~ skipped "openai" r
  /\ ~ skipped "requests" r
  /\ contains (py "data: [DONE]") (live_printed r) = true.
Proof.
  intros requests_post decode_utf8 OpenAI chat_completions_create r.
  split_and!.
  - intros [Hend _]. unfold print in Hend. apply endswith_spec in Hend.
    vm_compute in Hend. discriminate Hend.
  - intros [Hend _]. unfold print in Hend. apply endswith_spec in Hend.
    vm_compute in Hend. discriminate Hend.
  - vm_compute. reflexivity.
Qed.

(** The request to the proxy is sent before the openai library is looked
    for: when it fails, the call ends with its exception. *)
Remark post_failure_raises (requests_post : str -> list (str * str) -> json
                              -> result response)
    (decode_utf8 : str -> result str) (OpenAI : str -> str -> option str)
    (chat_completions_create :
       str -> str -> str -> json -> result (list chunk * option str))
    (OPENAI_AVAILABLE : bool) (proxy_url api_key prompt model exn : str)
    (show_raw : bool) :
  requests_post (completions_url proxy_url) (post_headers api_key)
    (post_body model (user_messages prompt)) = Raise exn ->
  live_ending
    (stream_real_sse true OPENAI_AVAILABLE requests_post decode_utf8 OpenAI
       chat_completions_create proxy_url api_key prompt model show_raw)
  = Raised exn.
Proof. intros Hpost. unfold stream_real_sse. cbn [negb]. by rewrite Hpost. Qed.

(** C8 (amended): when the requests library is absent, the function prints
    that it is not available and returns, having sent no request. When the
    openai library is absent, the parsed display is asked for (not the raw
    one) and the request to the proxy has returned, the function prints
    that openai is not available and returns without building the client
    and without opening the token stream. With the raw display the openai
    library is not used: the run is the same without the library as with
    it, so that its absence is neither reported nor a reason to skip; the
    request to the proxy is the only request, and when it has returned,
    the function prints the header lines and the lines of the response,
    and ends as the reading of these lines ends. *)
Theorem absent_library_reported
    (REQUESTS_AVAILABLE OPENAI_AVAILABLE : bool)
    (requests_post : str -> list (str * str) -> json -> result response)
    (decode_utf8 : str -> result str) (OpenAI : str -> str -> option str)
    (chat_completions_create :
       str -> str -> str -> json -> result (list chunk * option str))
    (proxy_url api_key prompt model : str) (show_raw : bool) :
  let r :=
    stream_real_sse REQUESTS_AVAILABLE OPENAI_AVAILABLE requests_post
      decode_utf8 OpenAI chat_completions_create
      proxy_url api_key prompt model show_raw in
  (REQUESTS_AVAILABLE = false ->
   r = mkLive (print [] (not_available "requests")) [] Returned
   /\ skipped "requests" r)
  /\ (REQUESTS_AVAILABLE = true -> OPENAI_AVAILABLE = false ->
      show_raw = false ->
      (exists response,
         requests_post (completions_url proxy_url) (post_headers api_key)
           (post_body model (user_messages prompt)) = Ok response) ->
      r = mkLive
            (print
               (print [] (Colors.DIM ++ py "Prompt: " ++ prompt
                          ++ Colors.RESET))
               (not_available "openai"))
            [post_request proxy_url api_key model (user_messages prompt)]
            Returned
      /\ skipped "openai" r)
  /\ (REQUESTS_AVAILABLE = true -> show_raw = true ->
      r = stream_real_sse true true requests_post decode_utf8 OpenAI
            chat_completions_create proxy_url api_key prompt model true
      /\ live_requests r
         = [post_request proxy_url api_key model (user_messages prompt)]
      /\ forall response,
           requests_post (completions_url proxy_url) (post_headers api_key)
             (post_body model (user_messages prompt)) = Ok response ->
           let lines :=
             raw_lines decode_utf8 (raw_header prompt response)
               (body_lines response) in
           let post :=
             post_request proxy_url api_key model (user_messages prompt) in
           r = match lines.2, body_error response with
               | Some exn, _ => mkLive lines.1 [post] (Raised exn)
               | None, Some exn => mkLive lines.1 [post] (Raised exn)
               | None, None =>
                   mkLive
                     (print lines.1
                        (Colors.DIM ++ py "--- END STREAM ---"
                         ++ Colors.RESET))
                     [post] Returned
               end).
Proof.
  intros r. split_and!.
  - intros ->. assert (r = mkLive (print [] (not_available "requests")) []
                             Returned) as -> by reflexivity.
    split; [reflexivity|]. split_and!.
    + by exists [].
    + reflexivity.
    + intros base_url key model' messages. apply not_elem_of_nil.
  - intros -> -> -> [response Hpost].
    assert (r = mkLive
                  (print
                     (print [] (Colors.DIM ++ py "Prompt: " ++ prompt
                                ++ Colors.RESET))
                     (not_available "openai"))
                  [post_request proxy_url api_key model (user_messages prompt)]
                  Returned) as ->.
    { unfold r, stream_real_sse. cbn [negb]. rewrite Hpost. reflexivity. }
    split; [reflexivity|]. split_and!.
    + by eexists.
    + reflexivity.
    + intros base_url key model' messages Hin.
      apply list_elem_of_singleton in Hin. discriminate Hin.
  - intros -> ->. unfold r, stream_real_sse. cbn [negb].
    destruct (requests_post _ _ _) as [response|exn] eqn:Hpost.
    + fold (raw_header prompt response).
      destruct (raw_lines decode_utf8 (raw_header prompt response)
                  (body_lines response)) as [out [exn|]] eqn:Hlines.
      * split_and!; [reflexivity | reflexivity |].
        intros ? [= <-]. by rewrite Hlines.
      * destruct (body_error response) as [exn|] eqn:Hbody.
        -- split_and!; [reflexivity | reflexivity |].
           intros ? [= <-]. by rewrite Hlines, Hbody.
        -- split_and!; [reflexivity | reflexivity |].
           intros ? [= <-]. by rewrite Hlines, Hbody.
    + split_and!; [reflexivity | reflexivity |]. intros ? [=].
Qed.

Lemma absent_library_reported_witness :
  let requests_post := fun (_ : str) (_ : list (str * str)) (_ : json) =>
    Ok (mkResponse 200 (fun _ => None) [py "data: [DONE]"] None) in
  let decode_utf8 := fun line : str => Ok line in
  let OpenAI := fun _ _ : str => Some (py "NameError") in
  let chat_completions_create := fun (_ _ _ : str) (_ : json) =>
    Raise (py "NameError") : result (list chunk * option str) in
  let run := fun requests_available show_raw : bool =>
    stream_real_sse requests_available false requests_post decode_utf8
      OpenAI chat_completions_create
      (py "http://localhost:8080") (py "sk-demo") (py "Hello") (py "gpt-4")
      show_raw in
  skipped "requests" (run false false) /\ skipped "openai" (run true false)
  /\ live_requests (run true true)
     = [post_request (py "http://localhost:8080") (py "sk-demo") (py "gpt-4")
          (user_messages (py "Hello"))].
Proof.
  intros requests_post decode_utf8 OpenAI chat_completions_create run.
  split_and!.
  - apply (absent_library_reported false false requests_post decode_utf8
             OpenAI chat_completions_create
             (py "http://localhost:8080") (py "sk-demo") (py "Hello")
             (py "gpt-4") false).
    reflexivity.
  - apply (absent_library_reported true false requests_post decode_utf8
             OpenAI chat_completions_create
             (py "http://localhost:8080") (py "sk-demo") (py "Hello")
             (py "gpt-4") false);
      [reflexivity | reflexivity | reflexivity |].
    eexists. reflexivity.
  - apply (absent_library_reported true false requests_post decode_utf8
             OpenAI chat_completions_create
             (py "http://localhost:8080") (py "sk-demo") (py "Hello")
             (py "gpt-4") true); reflexivity.
Defined.

End StreamingDemoSpec.

(** ** More on Python text *)

Module PyMore.
Import PyFacts.
Local Open Scope nat_scope.

Lemma lstrip_head (s : str) (c : char) :
  head (lstrip s) = Some c -> isspace c = false.
Proof.
  induction s as [|a s IH]; cbn [lstrip]; [done|].
  destruct (isspace a) eqn:Ha; [done|]. by intros [= <-].
Qed.

Lemma lstrip_elem (s : str) (c : char) : c ∈ lstrip s -> c ∈ s.
Proof.
  induction s as [|a s IH]; cbn [lstrip]; [done|].
  destruct (isspace a); [|done]. intros Hc. by apply list_elem_of_further, IH.
Qed.

Lemma lstrip_spaces (s : str) :
  Forall (fun c => isspace c = true) s -> lstrip s = [].
Proof.
  induction 1 as [|a s Ha _ IH]; cbn [lstrip]; [done|]. by rewrite Ha.
Qed.

Lemma lstrip_app (l k : str) :
  lstrip (l ++ k) = match lstrip l with [] => lstrip k | _ => lstrip l ++ k end.
Proof.
  induction l as [|a l IH]; cbn [lstrip app].
  - done.
  - destruct (isspace a); [apply IH | done].
Qed.

Lemma rstrip_last (s : str) (c : char) :
  last (rstrip s) = Some c -> isspace c = false.
Proof. unfold rstrip. rewrite last_reverse. apply lstrip_head. Qed.

Lemma rstrip_elem (s : str) (c : char) : c ∈ rstrip s -> c ∈ s.
Proof.
  unfold rstrip. rewrite elem_of_reverse. intros Hc%lstrip_elem.
  by apply elem_of_reverse.
Qed.

(** A text that starts with a character that is not white space keeps it
    under [rstrip]. *)
Lemma rstrip_head (s : str) (c : char) :
  isspace c = false -> head s = Some c -> head (rstrip s) = Some c.
Proof.
  intros Hc Hs. destruct s as [|a s]; [done|]. injection Hs as ->.
  unfold rstrip. rewrite reverse_cons, lstrip_app.
  destruct (lstrip (reverse s)) as [|b t] eqn:Ht.
  - cbn [lstrip]. by rewrite Hc.
  - by rewrite reverse_snoc.
Qed.

Lemma rstrip_snoc_space (s : str) (c : char) :
  isspace c = true -> rstrip (s ++ [c]) = rstrip s.
Proof.
  intros Hc. unfold rstrip. rewrite reverse_snoc. cbn [lstrip]. by rewrite Hc.
Qed.

Lemma strip_head (s : str) (c : char) :
  head (strip s) = Some c -> isspace c = false.
Proof.
  unfold strip. destruct (lstrip s) as [|a t] eqn:Ht; [done|].
  assert (isspace a = false) as Ha by (apply (lstrip_head s); by rewrite Ht).
  rewrite (rstrip_head (a :: t) a Ha eq_refl). by intros [= <-].
Qed.

Lemma strip_last (s : str) (c : char) :
  last (strip s) = Some c -> isspace c = false.
Proof. apply rstrip_last. Qed.

Lemma strip_elem (s : str) (c : char) : c ∈ strip s -> c ∈ s.
Proof. unfold strip. intros Hc%rstrip_elem. by apply lstrip_elem. Qed.

Lemma strip_spaces (s : str) :
  Forall (fun c => isspace c = true) s -> strip s = [].
Proof. intros Hs. unfold strip. by rewrite lstrip_spaces. Qed.

(** The line terminator does not change what [strip] returns. *)
Lemma strip_snoc_LF (s : str) : strip (s ++ [LF]) = strip s.
Proof.
  unfold strip. rewrite lstrip_app.
  destruct (lstrip s) as [|a t]; [done|].
  by rewrite rstrip_snoc_space.
Qed.

(** Reading with universal newlines leaves no carriage return. *)
Lemma universal_newlines_no_CR (t : str) : CR ∉ universal_newlines t.
Proof.
  assert (forall n (t : str), length t <= n -> CR ∉ universal_newlines t)
    as Hn; [|by apply (Hn (length t))].
  clear t. induction n as [|n IH]; intros [|c r] Hlen;
    cbn [universal_newlines]; try apply not_elem_of_nil; simpl in Hlen;
    [lia|].
  assert (CR <> LF) as HCRLF by discriminate.
  destruct (c =? CR)%N eqn:Hc.
  - destruct r as [|c' r'].
    + by intros H%list_elem_of_singleton.
    + destruct (c' =? LF)%N; apply not_elem_of_cons; (split; [done|]);
        apply IH; simpl in *; lia.
  - apply N.eqb_neq in Hc. apply not_elem_of_cons. split; [done|].
    apply IH. lia.
Qed.

(** Every line is a text without line feed, with or without the
    terminator. *)
Lemma split_lines_body (cur t : str) :
  LF ∉ cur ->
  Forall (fun line => exists body,
            (LF ∉ body) /\ (line = body ++ [LF] \/ line = body))
    (split_lines cur t).
Proof.
  revert cur. induction t as [|c r IH]; intros cur Hcur; cbn [split_lines].
  - destruct cur as [|a cur]; [constructor|].
    constructor; [|constructor]. exists (reverse (a :: cur)).
    split; [by rewrite elem_of_reverse | by right].
  - destruct (c =? LF)%N eqn:Hc.
    + apply N.eqb_eq in Hc as ->. constructor.
      * exists (reverse cur). split; [by rewrite elem_of_reverse|].
        left. apply reverse_cons.
      * apply IH, not_elem_of_nil.
    + apply N.eqb_neq in Hc. apply IH, not_elem_of_cons. by split.
Qed.

Lemma split_lines_elem (cur t line : str) (c : char) :
  line ∈ split_lines cur t -> c ∈ line -> c ∈ cur \/ c ∈ t.
Proof.
  revert cur. induction t as [|a r IH]; intros cur; cbn [split_lines].
  - destruct cur as [|b cur]; [by intros ?%elem_of_nil|].
    intros ->%list_elem_of_singleton Hc. left. by apply elem_of_reverse.
  - destruct (a =? LF)%N eqn:Ha.
    + intros [->|Hin]%elem_of_cons Hc.
      * apply elem_of_reverse, elem_of_cons in Hc as [->|Hc];
          [right; apply list_elem_of_here | by left].
      * destruct (IH [] Hin Hc) as [?%elem_of_nil|?]; [done|].
        right. by apply list_elem_of_further.
    + intros Hin Hc. destruct (IH (a :: cur) Hin Hc) as [Hc'|Hc'].
      * apply elem_of_cons in Hc' as [->|Hc'];
          [right; apply list_elem_of_here | by left].
      * right. by apply list_elem_of_further.
Qed.

(** Induction along the cases of [universal_newlines]. *)
Lemma universal_newlines_ind (P : str -> Prop) :
  P [] ->
  (forall c r, c <> CR -> P r -> P (c :: r)) ->
  P [CR] ->
  (forall r, P r -> P (CR :: LF :: r)) ->
  (forall c r, c <> LF -> P (c :: r) -> P (CR :: c :: r)) ->
  forall t, P t.
Proof.
  intros Hnil Hother Hcr Hcrlf Hcrc t.
  assert (forall n (t : str), length t <= n -> P t) as Hn;
    [|by apply (Hn (length t))].
  clear t. induction n as [|n IH]; intros [|c r] Hlen; try done;
    simpl in Hlen; [lia|].
  destruct (decide (c = CR)) as [->|Hc].
  - destruct r as [|c' r']; [done|].
    destruct (decide (c' = LF)) as [->|Hc'].
    + apply Hcrlf, IH. simpl in Hlen. lia.
    + apply Hcrc; [done|]. apply IH. lia.
  - apply Hother; [done|]. apply IH. lia.
Qed.

Lemma universal_newlines_other (c : char) (r : str) :
  c <> CR -> universal_newlines (c :: r) = c :: universal_newlines r.
Proof.
  intros Hc. cbn [universal_newlines].
  by destruct (N.eqb_spec c CR).
Qed.

Lemma universal_newlines_CR_other (c : char) (r : str) :
  c <> LF ->
  universal_newlines (CR :: c :: r) = LF :: universal_newlines (c :: r).
Proof.
  intros Hc. cbn [universal_newlines].
  change (CR =? CR)%N with true. cbn match.
  by destruct (N.eqb_spec c LF).
Qed.

Lemma last_cons_ne (c : char) (r : str) (x : char) :
  last (c :: r) <> Some x -> last r <> Some x.
Proof. destruct r as [|c' r]; [done|]. by rewrite last_cons_cons. Qed.

(** A line feed added after a text that does not end with a carriage
    return is read as it is. *)
Lemma universal_newlines_snoc_LF (t : str) :
  last t <> Some CR ->
  universal_newlines (t ++ [LF]) = universal_newlines t ++ [LF].
Proof.
  induction t as [| c r Hc IH | | r IH | c r Hc IH]
    using universal_newlines_ind; intros Hlast.
  - reflexivity.
  - cbn [app]. rewrite !universal_newlines_other by done.
    rewrite IH; [done|]. by eapply last_cons_ne.
  - done.
  - change (universal_newlines ((CR :: LF :: r) ++ [LF]))
      with (LF :: universal_newlines (r ++ [LF])).
    change (universal_newlines (CR :: LF :: r))
      with (LF :: universal_newlines r).
    rewrite IH; [done|]. by eapply last_cons_ne, last_cons_ne.
  - change ((CR :: c :: r) ++ [LF]) with (CR :: c :: (r ++ [LF])).
    rewrite !universal_newlines_CR_other by done.
    change (c :: r ++ [LF]) with ((c :: r) ++ [LF]).
    rewrite IH; [done|]. by eapply last_cons_ne.
Qed.

(** A text that ends with neither kind of line break is read as a text
    that does not end with a line feed. *)
Lemma universal_newlines_last (t : str) :
  t <> [] -> last t <> Some LF -> last t <> Some CR ->
  universal_newlines t <> [] /\ last (universal_newlines t) <> Some LF.
Proof.
  induction t as [| c r Hc IH | | r IH | c r Hc IH]
    using universal_newlines_ind; intros Hne HLF HCR.
  - done.
  - rewrite universal_newlines_other by done. split; [done|].
    destruct r as [|c' r'].
    + cbn. intros [= ->]. by apply HLF.
    + destruct IH as [Hne' Hlast]; [done | by eapply last_cons_ne..|].
      destruct (universal_newlines (c' :: r')) as [|a u]; [done|].
      by rewrite last_cons_cons.
  - done.
  - change (universal_newlines (CR :: LF :: r))
      with (LF :: universal_newlines r).
    split; [done|]. destruct r as [|c' r'].
    + exfalso. by apply HLF.
    + destruct IH as [Hne' Hlast];
        [done | by eapply last_cons_ne, last_cons_ne..|].
      destruct (universal_newlines (c' :: r')) as [|a u]; [done|].
      by rewrite last_cons_cons.
  - rewrite universal_newlines_CR_other by done. split; [done|].
    destruct IH as [Hne' Hlast]; [done | by eapply last_cons_ne..|].
    destruct (universal_newlines (c :: r)) as [|a u]; [done|].
    by rewrite last_cons_cons.
Qed.

(** Ending the last line with a line feed adds the terminator to that
    line and no line. *)
Lemma split_lines_snoc_LF (cur u : str) :
  cur <> [] \/ u <> [] -> last u <> Some LF ->
  exists lines body,
    split_lines cur u = lines ++ [body]
    /\ split_lines cur (u ++ [LF]) = lines ++ [body ++ [LF]].
Proof.
  revert cur. induction u as [|c r IH]; intros cur Hne Hlast.
  - destruct Hne as [Hne|]; [|done]. exists [], (reverse cur).
    destruct cur as [|a cur]; [done|]. split; [done|].
    cbn [app split_lines]. change (LF =? LF)%N with true. cbn match.
    by rewrite (reverse_cons _ LF).
  - cbn [app split_lines]. destruct (c =? LF)%N eqn:Hc.
    + apply N.eqb_eq in Hc as ->.
      destruct r as [|c' r']; [exfalso; by apply Hlast|].
      destruct (IH []) as (lines & body & H1 & H2);
        [by right | by eapply last_cons_ne|].
      exists (reverse (LF :: cur) :: lines), body.
      by rewrite H1, H2.
    + apply (IH (c :: cur)); [by left | by eapply last_cons_ne].
Qed.

End PyMore.

(** ** The characters of an encoded value *)

Module JsonFacts.
Import Wire.
Local Open Scope nat_scope.

(** Induction on a value and on the values inside it. *)
Lemma json_nested_ind (P : json -> Prop) :
  P JNull ->
  (forall b, P (JBool b)) ->
  (forall z, P (JInt z)) ->
  (forall s, P (JStr s)) ->
  (forall l, Forall P l -> P (JList l)) ->
  (forall members, Forall (fun kv => P kv.2) members -> P (JObj members)) ->
  forall j, P j.
Proof.
  intros Hnull Hbool Hint Hstr Hlist Hobj. fix IH 1.
  intros [ | b | z | s | l | members].
  - exact Hnull.
  - apply Hbool.
  - apply Hint.
  - apply Hstr.
  - apply Hlist. revert l. fix IHl 1. intros [|x l].
    + constructor.
    + constructor; [apply IH | apply IHl].
  - apply Hobj. revert members. fix IHm 1. intros [|[k v] members].
    + constructor.
    + constructor; [apply IH | apply IHm].
Qed.

Lemma digits_printable (d : Decimal.uint) :
  Forall (fun c => printable c = true) (py (NilEmpty.string_of_uint d)).
Proof. induction d; constructor; done. Qed.

Lemma str_of_Z_printable (z : Z) :
  Forall (fun c => printable c = true) (str_of_Z z).
Proof.
  unfold str_of_Z, NilZero.string_of_int.
  destruct (Z.to_int z) as [d|d].
  - unfold NilZero.string_of_uint. destruct d;
      try apply (digits_printable (_ _)). by repeat constructor.
  - constructor; [done|]. unfold NilZero.string_of_uint. destruct d;
      try apply (digits_printable (_ _)). by repeat constructor.
Qed.

Lemma hexdigit_printable (d : N) : (d < 16)%N -> printable (hexdigit d) = true.
Proof.
  intros Hd. unfold hexdigit, printable. rewrite andb_true_iff, !N.leb_le.
  destruct (N.ltb_spec d 10); lia.
Qed.

Lemma backslash_u_printable (n : N) :
  Forall (fun c => printable c = true) (backslash_u n).
Proof.
  unfold backslash_u, hex4.
  repeat (constructor;
          [first [reflexivity
                 | apply hexdigit_printable, N.mod_upper_bound; lia]|]).
  constructor.
Qed.

Lemma escape_char_printable (c : char) :
  Forall (fun c => printable c = true) (escape_char c).
Proof.
  unfold escape_char.
  repeat (destruct (_ =? _)%N; [by repeat constructor|]).
  destruct (_ && _) eqn:Hc; [by repeat constructor|].
  destruct (_ <? _)%N; [apply backslash_u_printable|].
  apply Forall_app. split; apply backslash_u_printable.
Qed.

Lemma encode_str_printable (s : str) :
  Forall (fun c => printable c = true) (encode_str s).
Proof.
  unfold encode_str. constructor; [done|]. apply Forall_app. split.
  - induction s as [|c s IH]; [constructor|].
    cbn [fmap list_fmap concat]. apply Forall_app. split; [|done].
    apply escape_char_printable.
  - by repeat constructor.
Qed.

Section Encoded.
Variable P : char -> Prop.
Variable indent : option nat.
Hypothesis printable_P : forall c, printable c = true -> P c.
Hypothesis indent_P : forall level, Forall P (newline_indent indent level).

Lemma printable_Forall (s : str) :
  Forall (fun c => printable c = true) s -> Forall P s.
Proof. intros Hs. eapply Forall_impl; [exact Hs | exact printable_P]. Qed.

Lemma join_Forall (sep : str) (items : list str) :
  Forall P sep -> Forall (Forall P) items -> Forall P (join sep items).
Proof.
  intros Hsep. induction 1 as [|x items Hx Hitems IH]; cbn [join].
  - constructor.
  - destruct items as [|y items]; [done|].
    apply Forall_app. split; [done|]. apply Forall_app. by split.
Qed.

Lemma bracket_Forall (level : nat) (opening closing : str)
    (items : list str) :
  Forall P opening -> Forall P closing -> Forall (Forall P) items ->
  Forall P (bracket indent level opening closing items).
Proof.
  intros Ho Hc Hitems. unfold bracket. destruct items as [|x items].
  - apply Forall_app. by split.
  - repeat (apply Forall_app; split); try done.
    apply join_Forall; [|done]. apply Forall_app. split; [|done].
    apply printable_Forall. unfold item_separator.
    destruct indent; by repeat constructor.
Qed.

(** Every character of an encoded value is printable ASCII or comes from
    the indentation. *)
Lemma encode_Forall (j : json) (level : nat) : Forall P (encode indent level j).
Proof.
  revert level.
  induction j as [ | b | z | s | l IH | members IH] using json_nested_ind;
    intros level; cbn [encode].
  - apply printable_Forall. by repeat constructor.
  - apply printable_Forall. destruct b; by repeat constructor.
  - apply printable_Forall, str_of_Z_printable.
  - apply printable_Forall, encode_str_printable.
  - apply bracket_Forall;
      [apply printable_Forall; by repeat constructor..|].
    induction IH as [|x l Hx _ IHl]; constructor; [apply Hx | apply IHl].
  - apply bracket_Forall;
      [apply printable_Forall; by repeat constructor..|].
    induction IH as [|[k v] members Hv _ IHm]; constructor; [|apply IHm].
    cbn [fst snd]. apply Forall_app. split;
      [apply printable_Forall, encode_str_printable|].
    apply Forall_app. split; [|apply Hv].
    apply printable_Forall. by repeat constructor.
Qed.

End Encoded.

(** [json.dumps(obj)] gives printable ASCII on one line, whatever the
    strings inside [obj] hold. *)
Lemma dumps_printable (obj : json) :
  Forall (fun c => printable c = true) (dumps obj).
Proof. apply encode_Forall; [done | intros level; constructor]. Qed.

(** [json.dumps(obj, indent=n)] gives lines of printable ASCII. *)
Lemma dumps_indent_ascii (n : nat) (obj : json) :
  Forall ascii_text (dumps_indent n obj).
Proof.
  apply encode_Forall.
  - intros c Hc. by left.
  - intros level. cbn [newline_indent]. constructor; [by right|].
    apply Forall_replicate. by left.
Qed.

End JsonFacts.

(** ** More on the tokenizer builder *)

Module BuildTokenizerMore.
Import PyFacts PyMore BuildTokenizer BuildTokenizerSpec.
Local Open Scope nat_scope.

(** *** The mapping of any file *)

(** X1: in the mapping of any vocabulary file, two words never share an
    id, and the id of a word is the index of a line that holds it. *)
Theorem vocab_ids_unique (text w1 w2 : str) (k : nat) :
  dict_get (vocab_dict (read_vocab text)) w1 = Some k ->
  dict_get (vocab_dict (read_vocab text)) w2 = Some k ->
  w1 = w2
  /\ read_vocab text !! k = Some w1
  /\ k < length (read_vocab text).
Proof.
  intros [H1 _]%vocab_dict_get [H2 _]%vocab_dict_get.
  split_and!; [congruence | done | by eapply lookup_lt_Some].
Qed.

Lemma vocab_ids_unique_witness :
  let text := py "a" ++ [LF] ++ py "b" ++ [LF] ++ py "a" ++ [LF] in
  py "a" = py "a"
  /\ read_vocab text !! 2 = Some (py "a")
  /\ 2 < length (read_vocab text).
Proof.
  intros text.
  apply (vocab_ids_unique text (py "a") (py "a") 2); reflexivity.
Defined.

Lemma vocab_dict_keys_order (l : list str) :
  dict_keys (vocab_dict l) = reverse (remove_dups (reverse l)).
Proof.
  induction l as [|x l IH] using rev_ind.
  - done.
  - rewrite vocab_dict_snoc, dict_keys_set, reverse_snoc. cbn [remove_dups].
    destruct (decide (x ∈ dict_keys (vocab_dict l))) as [Hin|Hin];
      destruct (decide_rel elem_of x (reverse l)) as [Hr|Hr].
    + done.
    + exfalso. apply Hr, elem_of_reverse. by apply vocab_dict_keys_elem.
    + exfalso. apply Hin, vocab_dict_keys_elem. by apply elem_of_reverse.
    + by rewrite reverse_cons, IH.
Qed.

(** X2: the mapping of any vocabulary file lists every word once, in the
    order of the first line of each word, and pairs it with the index of
    its last line. *)
Theorem vocab_dict_shape (text : str) :
  let vocab := read_vocab text in
  let d := vocab_dict vocab in
  dict_keys d = reverse (remove_dups (reverse vocab))
  /\ NoDup (dict_keys d)
  /\ (forall w, w ∈ dict_keys d <-> w ∈ vocab)
  /\ (forall w k,
       dict_get d w = Some k
       <-> vocab !! k = Some w /\ forall j, vocab !! j = Some w -> j <= k).
Proof.
  intros vocab d. split_and!.
  - apply vocab_dict_keys_order.
  - apply vocab_dict_keys_NoDup.
  - intros w. apply vocab_dict_keys_elem.
  - intros w k. apply vocab_dict_get.
Qed.

Example vocab_dict_first_place_last_index :
  vocab_dict (py <$> ["the"; "a"; "the"; "of"; "a"]%string)
  = [(py "the", 2); (py "a", 4); (py "of", 3)].
Proof. reflexivity. Qed.

(** *** The words *)

Lemma read_vocab_lookup (text : str) (i : nat) :
  read_vocab text !! i = strip <$> file_lines text !! i.
Proof. apply list_lookup_fmap. Qed.

(** X3: whatever the file holds, a word of the generated mapping contains
    no line feed and no carriage return, and it neither starts nor ends
    with white space. *)
Theorem words_are_stripped (text w : str) :
  w ∈ read_vocab text ->
  (LF ∉ w)
  /\ (CR ∉ w)
  /\ (forall c, head w = Some c -> isspace c = false)
  /\ (forall c, last w = Some c -> isspace c = false).
Proof.
  intros (line & -> & Hline)%list_elem_of_fmap. split_and!.
  - pose proof (split_lines_body [] (universal_newlines text)
                  (not_elem_of_nil _)) as Hbody.
    rewrite Forall_forall in Hbody.
    destruct (Hbody line Hline) as (body & Hfree & [-> | ->]).
    + rewrite PyMore.strip_snoc_LF. by intros ?%PyMore.strip_elem.
    + by intros ?%PyMore.strip_elem.
  - intros Hc%PyMore.strip_elem.
    destruct (PyMore.split_lines_elem _ _ _ _ Hline Hc) as [?%elem_of_nil|?];
      [done|].
    by eapply PyMore.universal_newlines_no_CR.
  - apply PyMore.strip_head.
  - apply PyMore.strip_last.
Qed.

Lemma words_are_stripped_witness :
  let text := py "  hello world " ++ [CR; LF] ++ py "x" in
  read_vocab text = [py "hello world"; py "x"]
  /\ (LF ∉ py "hello world")
  /\ (CR ∉ py "hello world")
  /\ (forall c, head (py "hello world") = Some c -> isspace c = false)
  /\ (forall c, last (py "hello world") = Some c -> isspace c = false).
Proof.
  intros text. split; [reflexivity|].
  apply (words_are_stripped text (py "hello world")).
  apply (list_elem_of_lookup_2 _ 0). reflexivity.
Defined.

(** X4: a line that holds nothing but white space gives the empty word,
    and the empty word is then a key of the mapping, with the index of a
    line that is not before that one. *)
Theorem blank_line_is_empty_word (text line : str) (i : nat) :
  file_lines text !! i = Some line ->
  Forall (fun c => isspace c = true) line ->
  read_vocab text !! i = Some []
  /\ exists k, dict_get (vocab_dict (read_vocab text)) [] = Some k /\ i <= k.
Proof.
  intros Hline Hblank.
  assert (read_vocab text !! i = Some []) as Hi.
  { rewrite read_vocab_lookup, Hline. simpl. f_equal.
    by apply PyMore.strip_spaces. }
  split; [done|].
  destruct (dict_get (vocab_dict (read_vocab text)) []) as [k|] eqn:Hget.
  - exists k. split; [done|]. apply vocab_dict_get in Hget as [_ Hmax].
    by apply Hmax.
  - apply dict_get_None in Hget. exfalso. apply Hget.
    apply vocab_dict_keys_elem. by eapply list_elem_of_lookup_2.
Qed.

Lemma blank_line_is_empty_word_witness :
  let text := py "a" ++ [LF] ++ py "  " ++ [LF] ++ py "b" ++ [LF] in
  read_vocab text !! 1 = Some []
  /\ exists k, dict_get (vocab_dict (read_vocab text)) [] = Some k /\ 1 <= k.
Proof.
  intros text.
  apply (blank_line_is_empty_word text (py "  " ++ [LF]) 1).
  - reflexivity.
  - repeat constructor.
Defined.

(** X5: a line feed added at the end of a file that ends with neither a
    line feed nor a carriage return changes no word: the file gives the
    same words, and so the same mapping, with and without it. *)
Theorem final_newline_is_optional (text : str) :
  text <> [] -> last text <> Some LF -> last text <> Some CR ->
  read_vocab (text ++ [LF]) = read_vocab text
  /\ generated (text ++ [LF]) = generated text.
Proof.
  intros Hne HLF HCR.
  assert (read_vocab (text ++ [LF]) = read_vocab text) as Hsame.
  { unfold read_vocab, file_lines.
    rewrite universal_newlines_snoc_LF by done.
    destruct (universal_newlines_last text Hne HLF HCR) as [Hne' Hlast].
    destruct (split_lines_snoc_LF [] (universal_newlines text))
      as (lines & body & -> & ->); [by right | done |].
    rewrite !fmap_app. f_equal. cbn [fmap list_fmap]. f_equal.
    apply strip_snoc_LF. }
  split; [done|]. unfold generated. by rewrite Hsame.
Qed.

Lemma final_newline_is_optional_witness :
  let text := py "hello" ++ [LF] ++ py "world" in
  read_vocab (text ++ [LF]) = read_vocab text
  /\ generated (text ++ [LF]) = generated text.
Proof.
  intros text.
  apply (final_newline_is_optional text); vm_compute; discriminate.
Defined.

(** *** The run of the builder *)

(** X6: when the vocabulary file is read as text, the output can be
    opened for writing and standard output can encode the line with the
    check mark, the size that the builder prints is the number of lines of
    the file. The mapping never has more entries than that, and it has as
    many exactly when no word repeats. *)
Theorem vocab_size_counts_lines (joinpath : str -> str -> str)
    (open_for_writing : str -> option str) (encodable : char -> bool)
    (fs : filesystem) (model_dir text : str) :
  fs !! joinpath model_dir (py "vocab.txt") = Some (Text text) ->
  open_for_writing (joinpath model_dir (py "tokenizer.json")) = None ->
  can_print encodable
    (CHECK_MARK :: py " Created " ++ joinpath model_dir (py "tokenizer.json"))
  = true ->
  let n := length (file_lines text) in
  let d := vocab_dict (read_vocab text) in
  stdout (build_tokenizer_json joinpath open_for_writing encodable fs
            model_dir)
  = CHECK_MARK :: py " Created " ++ joinpath model_dir (py "tokenizer.json")
    ++ [LF] ++ py "  Vocab size: " ++ str_of_nat n ++ [LF]
  /\ length d <= n
  /\ (length d = n <-> NoDup (read_vocab text)).
Proof.
  intros Hfile Hopen Hprint n d.
  assert (length (read_vocab text) = n) as Hn by apply length_fmap.
  split_and!.
  - rewrite (build_success joinpath open_for_writing encodable fs model_dir
               text Hfile Hopen Hprint).
    cbn [stdout]. rewrite Hn. cbn [app]. by rewrite <- !app_assoc.
  - rewrite <- Hn. apply vocab_dict_length.
  - rewrite <- Hn. split.
    + intros Heq. destruct (decide (NoDup (read_vocab text))) as [|Hdup];
        [done|]. apply vocab_dict_length_lt in Hdup. fold d in Hdup. lia.
    + intros Hnd. unfold d. rewrite vocab_dict_NoDup by done.
      apply length_imap.
Qed.

Lemma vocab_size_counts_lines_witness :
  let joinpath := fun d name : str => d ++ py "/" ++ name in
  let open_for_writing := fun _ : str => @None str in
  let encodable := fun c : char => (c =? CHECK_MARK)%N in
  let text := py "a" ++ [LF] ++ py "b" ++ [LF] ++ py "a" ++ [LF] in
  let fs : filesystem := {[ py "m/vocab.txt" := Text text ]} in
  stdout (build_tokenizer_json joinpath open_for_writing encodable fs (py "m"))
  = CHECK_MARK :: py " Created m/tokenizer.json" ++ [LF]
    ++ py "  Vocab size: 3" ++ [LF]
  /\ length (vocab_dict (read_vocab text)) = 2.
Proof.
  intros joinpath open_for_writing encodable text fs. split; [|reflexivity].
  assert (fs !! joinpath (py "m") (py "vocab.txt") = Some (Text text))
    as Hfile by (vm_compute; reflexivity).
  apply (vocab_size_counts_lines joinpath open_for_writing encodable fs
           (py "m") text Hfile); reflexivity.
Defined.

(** X7: the builder changes no file other than tokenizer.json of the model
    directory, whether it succeeds or not. *)
Theorem builder_writes_one_file (joinpath : str -> str -> str)
    (open_for_writing : str -> option str) (encodable : char -> bool)
    (fs : filesystem) (model_dir path : str) :
  path <> joinpath model_dir (py "tokenizer.json") ->
  files (build_tokenizer_json joinpath open_for_writing encodable fs
           model_dir) !! path
  = fs !! path.
Proof.
  intros Hpath.
  destruct (build_cases joinpath open_for_writing encodable fs model_dir) as
    [(Hfile & Hprint & Hr) | [(Hfile & Hprint & Hr) | [(exn & Hfile & Hr)
    | [(text & exn & Hfile & Hopen & Hr)
    | [(text & Hfile & Hopen & Hprint & Hr)
    | (text & Hfile & Hopen & Hprint & Hr)]]]]];
    rewrite Hr; cbn [files]; try done; by apply lookup_insert_ne.
Qed.

Lemma builder_writes_one_file_witness :
  let joinpath := fun d name : str => d ++ py "/" ++ name in
  let open_for_writing := fun _ : str => @None str in
  let encodable := fun _ : char => true in
  let fs : filesystem :=
    {[ py "m/vocab.txt" := Text (py "a" ++ [LF]);
       py "m/config.json" := Text (py "{}") ]} in
  files (build_tokenizer_json joinpath open_for_writing encodable fs (py "m"))
    !! py "m/config.json"
  = fs !! py "m/config.json".
Proof.
  intros joinpath open_for_writing encodable fs.
  apply (builder_writes_one_file joinpath open_for_writing encodable fs
           (py "m") (py "m/config.json")).
  vm_compute. discriminate.
Defined.

(** X8: when tokenizer.json and vocab.txt are different paths, running
    the builder again on its own result changes nothing: the second run
    prints the same text, ends the same way and leaves the same files. *)
Theorem builder_idempotent (joinpath : str -> str -> str)
    (open_for_writing : str -> option str) (encodable : char -> bool)
    (fs : filesystem) (model_dir : str) :
  joinpath model_dir (py "vocab.txt") <> joinpath model_dir (py "tokenizer.json") ->
  build_tokenizer_json joinpath open_for_writing encodable
    (files (build_tokenizer_json joinpath open_for_writing encodable fs
              model_dir)) model_dir
  = build_tokenizer_json joinpath open_for_writing encodable fs model_dir.
Proof.
  intros Hpaths.
  destruct (build_cases joinpath open_for_writing encodable fs model_dir) as
    [(Hfile & Hprint & Hr) | [(Hfile & Hprint & Hr) | [(exn & Hfile & Hr)
    | [(text & exn & Hfile & Hopen & Hr)
    | [(text & Hfile & Hopen & Hprint & Hr)
    | (text & Hfile & Hopen & Hprint & Hr)]]]]];
    rewrite Hr; cbn [files]; try (by rewrite Hr).
  - rewrite <- Hr.
    rewrite (build_success joinpath open_for_writing encodable _ model_dir
               text) by (by rewrite ?lookup_insert_ne).
    rewrite Hr. by rewrite insert_insert_eq.
  - rewrite <- Hr.
    rewrite (build_created_unprintable joinpath open_for_writing encodable _
               model_dir text) by (by rewrite ?lookup_insert_ne).
    rewrite Hr. by rewrite insert_insert_eq.
Qed.

Lemma builder_idempotent_witness :
  let joinpath := fun d name : str => d ++ py "/" ++ name in
  let open_for_writing := fun _ : str => @None str in
  let encodable := fun _ : char => true in
  let fs : filesystem :=
    {[ py "m/vocab.txt" := Text (py "a" ++ [LF] ++ py "b") ]} in
  build_tokenizer_json joinpath open_for_writing encodable
    (files (build_tokenizer_json joinpath open_for_writing encodable fs
              (py "m"))) (py "m")
  = build_tokenizer_json joinpath open_for_writing encodable fs (py "m").
Proof.
  intros joinpath open_for_writing encodable fs.
  apply (builder_idempotent joinpath open_for_writing encodable fs (py "m")).
  vm_compute. discriminate.
Defined.

(** X9: the script changes no file unless it is given exactly one
    argument, and then only tokenizer.json of that directory; with any
    other number of arguments it prints the usage line and exits with
    status 1. *)
Theorem main_touches_one_file (joinpath : str -> str -> str)
    (open_for_writing : str -> option str) (encodable : char -> bool)
    (fs : filesystem) (argv : list str) (path : str) :
  (forall prog model_dir,
     argv = [prog; model_dir] ->
     path <> joinpath model_dir (py "tokenizer.json")) ->
  files (main joinpath open_for_writing encodable fs argv) !! path = fs !! path
  /\ (length argv <> 2 ->
      main joinpath open_for_writing encodable fs argv
      = mkRun fs (py "Usage: build_tokenizer.py <model_directory>" ++ [LF])
          (Exited 1)).
Proof.
  intros Hpath. destruct argv as [|prog [|model_dir [|extra argv]]];
    cbn [length]; try (split; [reflexivity | reflexivity]).
  split; [|lia]. change (main _ _ _ fs [prog; model_dir])
    with (build_tokenizer_json joinpath open_for_writing encodable fs
            model_dir).
  apply build_other_files. by eapply Hpath.
Qed.

Lemma main_touches_one_file_witness :
  let joinpath := fun d name : str => d ++ py "/" ++ name in
  let open_for_writing := fun _ : str => @None str in
  let encodable := fun _ : char => false in
  let fs : filesystem := {[ py "m/vocab.txt" := Text (py "a" ++ [LF]) ]} in
  let argv := [py "build_tokenizer.py"; py "m"; py "extra"] in
  files (main joinpath open_for_writing encodable fs argv)
    !! py "m/tokenizer.json"
  = fs !! py "m/tokenizer.json"
  /\ (length argv <> 2 ->
      main joinpath open_for_writing encodable fs argv
      = mkRun fs (py "Usage: build_tokenizer.py <model_directory>" ++ [LF])
          (Exited 1)).
Proof.
  intros joinpath open_for_writing encodable fs argv.
  apply (main_touches_one_file joinpath open_for_writing encodable fs argv
           (py "m/tokenizer.json")).
  intros prog model_dir Hargv. discriminate Hargv.
Defined.

(** X10: the file that the builder writes is ASCII text, whatever the
    vocabulary holds: each of its characters is printable ASCII or a line
    feed. *)
Theorem written_file_is_ascii (joinpath : str -> str -> str)
    (open_for_writing : str -> option str) (encodable : char -> bool)
    (fs : filesystem) (model_dir text : str) :
  fs !! joinpath model_dir (py "vocab.txt") = Some (Text text) ->
  open_for_writing (joinpath model_dir (py "tokenizer.json")) = None ->
  exists content,
    files (build_tokenizer_json joinpath open_for_writing encodable fs
             model_dir)
      !! joinpath model_dir (py "tokenizer.json") = Some (Text content)
    /\ Forall Wire.ascii_text content.
Proof.
  intros Hfile Hopen. eexists. split.
  - by apply build_tokenizer_json_writes.
  - apply JsonFacts.dumps_indent_ascii.
Qed.

Lemma written_file_is_ascii_witness :
  let joinpath := fun d name : str => d ++ py "/" ++ name in
  let open_for_writing := fun _ : str => @None str in
  let encodable := fun _ : char => false in
  let fs : filesystem :=
    {[ py "m/vocab.txt" := Text [233%N; 12354%N; LF] ]} in
  exists content,
    files (build_tokenizer_json joinpath open_for_writing encodable fs
             (py "m"))
      !! joinpath (py "m") (py "tokenizer.json") = Some (Text content)
    /\ Forall Wire.ascii_text content.
Proof.
  intros joinpath open_for_writing encodable fs.
  apply (written_file_is_ascii joinpath open_for_writing encodable fs (py "m")
           [233%N; 12354%N; LF]); vm_compute; reflexivity.
Defined.

End BuildTokenizerMore.

(** ** More on the streaming demo *)

Module StreamingDemoMore.
Import PyFacts PyMore Wire JsonFacts StreamingDemo StreamingDemoSpec DemoRunner.
Local Open Scope nat_scope.

(** *** The wire format *)

(** X11: every event of [generate_sse_event] is "data: ", one line of
    printable ASCII and two line feeds, whatever the chunk id, the content
    and the finish reason hold: a line feed or a character outside ASCII
    in the content never reaches the wire as such. *)
Theorem event_is_one_ascii_line (created : Z) (chunk_id : str)
    (content finish_reason : option str) :
  exists payload,
    generate_sse_event created chunk_id content finish_reason
    = py "data: " ++ payload ++ [LF; LF]
    /\ Forall (fun c => printable c = true) payload
    /\ (LF ∉ payload).
Proof.
  exists (dumps (chunk_data created chunk_id content finish_reason)).
  split; [reflexivity|].
  pose proof (dumps_printable
                (chunk_data created chunk_id content finish_reason)) as Hp.
  split; [exact Hp|]. intros HLF.
  rewrite Forall_forall in Hp. by specialize (Hp LF HLF).
Qed.

Example event_with_line_feeds :
  generate_sse_event 1700000000 (py "id") (Some [LF; 233%N; LF]) None
  = py "data: {" ++ quoted "id" ++ py ": " ++ quoted "id" ++ py ", "
    ++ quoted "object" ++ py ": " ++ quoted "chat.completion.chunk" ++ py ", "
    ++ quoted "created" ++ py ": 1700000000, " ++ quoted "model" ++ py ": "
    ++ quoted "gpt-4" ++ py ", " ++ quoted "choices" ++ py ": [{"
    ++ quoted "index" ++ py ": 0, " ++ quoted "delta" ++ py ": {"
    ++ quoted "content" ++ py ": " ++ quoted "\n\u00e9\n" ++ py "}, "
    ++ quoted "finish_reason" ++ py ": null}]}" ++ [LF; LF].
Proof. vm_compute. reflexivity. Qed.

(** *** The simulated display *)

Lemma table_lookup_None (key : str) :
  key ∉ py <$> ["normal"; "pii_redacted"; "financial"; "blocked"]%string ->
  SIMULATED_RESPONSES !! key = None.
Proof. intros Hkey. by apply not_elem_of_list_to_map_1. Qed.

Lemma table_lookup_Some (key : str) :
  key ∈ py <$> ["normal"; "pii_redacted"; "financial"; "blocked"]%string ->
  is_Some (SIMULATED_RESPONSES !! key).
Proof.
  intros Hkey.
  repeat (apply elem_of_cons in Hkey as [->|Hkey]; [by eexists|]).
  by apply elem_of_nil in Hkey.
Qed.

(** With a key of the table the generator yields a stream and the display
    returns. *)
Lemma known_key_returns (clock : nat -> Z) (key : str) (show_raw : bool) :
  key ∈ py <$> ["normal"; "pii_redacted"; "financial"; "blocked"]%string ->
  is_Some (simulate_sse_stream clock key)
  /\ demo_ending (run_simulated_stream clock key show_raw) = Returned.
Proof.
  intros [sc Hkey]%table_lookup_Some.
  pose proof (simulate_sse_stream_Some clock key sc Hkey) as Hs.
  split; [by eexists|].
  unfold run_simulated_stream. rewrite Hkey, Hs. by destruct show_raw.
Qed.

(** X13: the simulated display knows the four scenario keys and no other.
    For one of them the call returns; for any other key it raises KeyError
    before it prints anything, and the generator yields nothing. *)
Theorem unknown_key_raises (clock : nat -> Z) (key : str) (show_raw : bool) :
  let names := py <$> ["normal"; "pii_redacted"; "financial"; "blocked"]%string in
  (key ∈ names ->
   is_Some (simulate_sse_stream clock key)
   /\ demo_ending (run_simulated_stream clock key show_raw) = Returned)
  /\ (key ∉ names ->
      simulate_sse_stream clock key = None
      /\ run_simulated_stream clock key show_raw
         = mkDemo [] (Raised (py "KeyError"))).
Proof.
  intros names. split.
  - apply known_key_returns.
  - intros Hkey%table_lookup_None.
    unfold run_simulated_stream, simulate_sse_stream. by rewrite Hkey.
Qed.

Lemma unknown_key_raises_witness :
  let clock := fun n : nat => (1700000000 + Z.of_nat n)%Z in
  demo_ending (run_simulated_stream clock (py "financial") true) = Returned
  /\ run_simulated_stream clock (py "Normal") false
     = mkDemo [] (Raised (py "KeyError")).
Proof.
  intros clock. split.
  - apply (unknown_key_raises clock (py "financial") true).
    vm_compute. do 2 apply list_elem_of_further. apply list_elem_of_here.
  - apply (unknown_key_raises clock (py "Normal") false).
    apply (bool_decide_unpack _). vm_compute. exact I.
Defined.

Lemma shown_empty : shown [] = [].
Proof. reflexivity. Qed.

(** The loop of the parsed display prints the tokens of the stream in
    order, and nothing else. *)
Lemma parsed_loop_out (st : parsed_state) (stream : list (str * option str)) :
  parsed_out (foldl parsed_step st stream)
  = parsed_out st ++ concat (shown <$> emitted_tokens stream).
Proof.
  revert st. induction stream as [|[sse_event token] stream IH]; intros st.
  - cbn. by rewrite app_nil_r.
  - cbn [foldl]. rewrite IH. unfold emitted_tokens at 2.
    unfold parsed_step. cbn [fst snd omap list_omap].
    generalize (contains (py "finish_reason") sse_event
                && contains (py "content_filter") sse_event).
    generalize (contains (py "finish_reason") sse_event
                && contains FINISH_STOP sse_event).
    intros b2 b1. fold (emitted_tokens stream).
    destruct token as [[|c r]|]; cbn [fmap list_fmap concat].
    + rewrite shown_empty. by destruct b1, b2.
    + unfold shown, print_end.
      destruct (contains REDACTED (c :: r)); destruct b1, b2;
        cbn [parsed_out]; by rewrite <- ?app_assoc.
    + by destruct b1, b2.
Qed.

(** For every scenario key of the table, the parsed display prints the
    prompt line and then, after "Response: ", the tokens of the
    scenario in order with nothing between them, each token that contains
    "[REDACTED]" between the yellow and the reset codes, and then a line
    feed. *)
Theorem parsed_display_shows_tokens (clock : nat -> Z) (key : str)
    (sc : scenario) :
  SIMULATED_RESPONSES !! key = Some sc ->
  exists rest,
    printed (run_simulated_stream clock key false)
    = Colors.DIM ++ py "Prompt: " ++ prompt sc ++ Colors.RESET ++ [LF]
      ++ Colors.GREEN ++ py "Response: " ++ Colors.RESET
      ++ concat (shown <$> tokens sc) ++ [LF] ++ rest.
Proof.
  intros Hkey.
  destruct (simulate_sse_stream clock key) as [stream|] eqn:Hs;
    [| by rewrite (simulate_sse_stream_Some clock key sc Hkey) in Hs].
  unfold run_simulated_stream. rewrite Hkey, Hs. cbn [printed].
  unfold print at 1 2 3 4. rewrite parsed_loop_out. cbn [parsed_out].
  rewrite (emitted_tokens_simulated clock key sc stream Hkey Hs).
  unfold print_end, print. cbn [app]. rewrite <- !app_assoc. cbn [app].
  eexists. reflexivity.
Qed.

Lemma parsed_display_shows_tokens_witness :
  let clock := fun n : nat => (1700000000 + Z.of_nat n)%Z in
  let sc :=
    mkScenario (py "What is my account email?")
      (py <$> ["Your"; " account"; " email"; " is"; " [REDACTED]"; " and";
               " phone"; " is"; " [REDACTED]"; "."]%string)
      (py "stop") in
  concat (shown <$> tokens sc)
  = py "Your account email is" ++ Colors.YELLOW ++ py " [REDACTED]"
    ++ Colors.RESET ++ py " and phone is" ++ Colors.YELLOW ++ py " [REDACTED]"
    ++ Colors.RESET ++ py "."
  /\ exists rest,
       printed (run_simulated_stream clock (py "pii_redacted") false)
       = Colors.DIM ++ py "Prompt: " ++ prompt sc ++ Colors.RESET ++ [LF]
         ++ Colors.GREEN ++ py "Response: " ++ Colors.RESET
         ++ concat (shown <$> tokens sc) ++ [LF] ++ rest.
Proof.
  intros clock sc. split; [vm_compute; reflexivity|].
  apply (parsed_display_shows_tokens clock (py "pii_redacted") sc).
  vm_compute. reflexivity.
Defined.

(** *** The live display *)

Section LiveFacts.
Variable REQUESTS_AVAILABLE : bool.
Variable OPENAI_AVAILABLE : bool.
Variable decode_utf8 : str -> result str.
Variable OpenAI : str -> str -> option str.
Variable chat_completions_create :
  str -> str -> str -> json -> result (list chunk * option str).
Variables proxy_url api_key prompt model : str.


(** X17: the parsed display never reads the response of its POST: two
    proxies that both answer the POST give the same run, whatever they
    answer. *)
Theorem parsed_display_ignores_response
    (post1 post2 : str -> list (str * str) -> json -> result response)
    (response1 response2 : response) :
  post1 (completions_url proxy_url) (post_headers api_key)
    (post_body model (user_messages prompt)) = Ok response1 ->
  post2 (completions_url proxy_url) (post_headers api_key)
    (post_body model (user_messages prompt)) = Ok response2 ->
  stream_real_sse REQUESTS_AVAILABLE OPENAI_AVAILABLE post1
    decode_utf8 OpenAI chat_completions_create proxy_url api_key prompt model false
  = stream_real_sse REQUESTS_AVAILABLE OPENAI_AVAILABLE post2
      decode_utf8 OpenAI chat_completions_create proxy_url api_key prompt model false.
Proof.
  intros H1 H2. unfold stream_real_sse.
  destruct REQUESTS_AVAILABLE; cbn [negb]; [|reflexivity].
  by rewrite H1, H2.
Qed.

Lemma raw_lines_without_blank (out : str) (lines : list str) :
  raw_lines decode_utf8 out
    (List.filter (fun line => match line with [] => false | _ => true end)
       lines)
  = raw_lines decode_utf8 out lines.
Proof.
  revert out. induction lines as [|line lines IH]; intros out; [done|].
  destruct line as [|c line]; cbn [List.filter raw_lines]; [apply IH|].
  destruct (decode_utf8 (c :: line)); [apply IH | done].
Qed.

(** X18: the raw display skips the blank lines of the response: a response
    and the same response without its blank lines give the same run. *)
Theorem raw_display_skips_blank_lines
    (post1 post2 : str -> list (str * str) -> json -> result response)
    (response : response) (show_raw : bool) :
  post1 (completions_url proxy_url) (post_headers api_key)
    (post_body model (user_messages prompt)) = Ok response ->
  post2 (completions_url proxy_url) (post_headers api_key)
    (post_body model (user_messages prompt))
    = Ok (without_blank_lines response) ->
  stream_real_sse REQUESTS_AVAILABLE OPENAI_AVAILABLE post1
    decode_utf8 OpenAI chat_completions_create proxy_url api_key prompt model show_raw
  = stream_real_sse REQUESTS_AVAILABLE OPENAI_AVAILABLE post2
      decode_utf8 OpenAI chat_completions_create proxy_url api_key prompt model
      show_raw.
Proof.
  intros H1 H2. unfold stream_real_sse.
  destruct REQUESTS_AVAILABLE; cbn [negb]; [|reflexivity].
  rewrite H1, H2. destruct show_raw; [|reflexivity].
  unfold without_blank_lines. cbn [status_code headers_get body_lines body_error].
  by rewrite raw_lines_without_blank.
Qed.

(** The loop over the chunks, when every chunk has a choice: it prints the
    contents in order, counts those with the marker and keeps the finish
    reason of the last chunk. *)
Lemma parsed_chunks_complete (st : parsed_state) (chunks : list chunk) :
  Forall (fun c => choices c <> []) chunks ->
  parsed_chunks st chunks
  = (mkParsed
       (parsed_out st ++ concat ((fun c => shown (chunk_content c)) <$> chunks))
       (redaction_count st
        + length (List.filter (fun c => contains REDACTED (chunk_content c))
                    chunks))
       (match last chunks with
        | Some c => chunk_finish_reason c
        | None => seen_finish_reason st
        end),
     None).
Proof.
  intros Hall. revert st. induction Hall as [|c chunks Hc _ IH]; intros st.
  - cbn. rewrite app_nil_r, Nat.add_0_r. by destruct st.
  - cbn [parsed_chunks].
    destruct (choices c) as [|choice0 others] eqn:Hchoices; [done|].
    assert (chunk_content c = or_else (delta_content choice0) []) as Hcontent
      by (unfold chunk_content; by rewrite Hchoices).
    assert (chunk_finish_reason c = choice_finish_reason choice0) as Hfinish
      by (unfold chunk_finish_reason; by rewrite Hchoices).
    assert (match last (c :: chunks) with
            | Some c' => chunk_finish_reason c'
            | None => seen_finish_reason st
            end
            = match last chunks with
              | Some c' => chunk_finish_reason c'
              | None => choice_finish_reason choice0
              end) as ->.
    { destruct chunks as [|c' chunks]; [exact Hfinish|].
      rewrite last_cons_cons.
      destruct (last (c' :: chunks)) eqn:Hlast; [done|].
      by apply last_None in Hlast. }
    cbn [fmap list_fmap concat List.filter]. rewrite Hcontent.
    generalize (or_else (delta_content choice0) []). intros content.
    unfold shown at 1, print_end.
    destruct (contains REDACTED content);
      rewrite IH; cbn [parsed_out redaction_count seen_finish_reason length];
      rewrite <- ?app_assoc; do 2 f_equal; lia.
Qed.

Lemma parsed_chunks_app (st : parsed_state) (chunks rest : list chunk) :
  parsed_chunks st (chunks ++ rest)
  = match parsed_chunks st chunks with
    | (st', None) => parsed_chunks st' rest
    | stopped => stopped
    end.
Proof.
  revert st. induction chunks as [|c chunks IH]; intros st; [done|].
  cbn [app parsed_chunks]. destruct (choices c); [done|].
  destruct (contains _ _); apply IH.
Qed.

(** X19: with both libraries, a proxy that answers, a client that is
    built and a stream whose chunks all have a choice, the parsed display prints the contents of the
    chunks in order and then the summary: the finish reason is the one of
    the last chunk (None when the stream is empty or the last chunk has
    none) and the count is the number of chunks whose content contains
    "[REDACTED]". *)
Theorem live_summary
    (requests_post : str -> list (str * str) -> json -> result response)
    (response : response) (chunks : list chunk) :
  REQUESTS_AVAILABLE = true -> OPENAI_AVAILABLE = true ->
  requests_post (completions_url proxy_url) (post_headers api_key)
    (post_body model (user_messages prompt)) = Ok response ->
  OpenAI (proxy_url ++ py "/v1") api_key = None ->
  chat_completions_create (proxy_url ++ py "/v1") api_key model
    (user_messages prompt) = Ok (chunks, None) ->
  Forall (fun c => choices c <> []) chunks ->
  let r :=
    stream_real_sse REQUESTS_AVAILABLE OPENAI_AVAILABLE requests_post
      decode_utf8 OpenAI chat_completions_create proxy_url api_key prompt model
      false in
  live_ending r = Returned
  /\ live_printed r
     = Colors.DIM ++ py "Prompt: " ++ prompt ++ Colors.RESET ++ [LF]
       ++ Colors.GREEN ++ py "Response: " ++ Colors.RESET
       ++ concat ((fun c => shown (chunk_content c)) <$> chunks) ++ [LF]
       ++ [LF] ++ Colors.CYAN ++ py "--- Stream Complete ---" ++ Colors.RESET
       ++ [LF]
       ++ py "  finish_reason: "
       ++ format_optional (last chunks ≫= chunk_finish_reason) ++ [LF]
       ++ py "  redactions: "
       ++ str_of_nat
            (length (List.filter
                       (fun c => contains REDACTED (chunk_content c)) chunks))
       ++ [LF].
Proof.
  intros -> -> Hpost Hclient Hcreate Hall r. unfold r, stream_real_sse.
  cbn [negb].
  rewrite Hpost, Hclient, Hcreate, (parsed_chunks_complete _ chunks Hall).
  cbn [live_ending live_printed parsed_out redaction_count seen_finish_reason].
  split; [reflexivity|].
  unfold print, print_end. cbn [app]. rewrite <- !app_assoc. cbn [app].
  rewrite Nat.add_0_l. by destruct (last chunks).
Qed.

(** X20: once the client is built, a chunk without choices ends the
    parsed display with IndexError.
    The contents of the chunks before it have been printed; the summary is
    not. *)
Theorem chunk_without_choices_raises
    (requests_post : str -> list (str * str) -> json -> result response)
    (response : response) (before after : list chunk) (bad : chunk)
    (stream_error : option str) :
  REQUESTS_AVAILABLE = true -> OPENAI_AVAILABLE = true ->
  requests_post (completions_url proxy_url) (post_headers api_key)
    (post_body model (user_messages prompt)) = Ok response ->
  OpenAI (proxy_url ++ py "/v1") api_key = None ->
  chat_completions_create (proxy_url ++ py "/v1") api_key model
    (user_messages prompt) = Ok (before ++ bad :: after, stream_error) ->
  Forall (fun c => choices c <> []) before ->
  choices bad = [] ->
  let r :=
    stream_real_sse REQUESTS_AVAILABLE OPENAI_AVAILABLE requests_post
      decode_utf8 OpenAI chat_completions_create proxy_url api_key prompt model
      false in
  live_ending r = Raised (py "IndexError")
  /\ live_printed r
     = Colors.DIM ++ py "Prompt: " ++ prompt ++ Colors.RESET ++ [LF]
       ++ Colors.GREEN ++ py "Response: " ++ Colors.RESET
       ++ concat ((fun c => shown (chunk_content c)) <$> before).
Proof.
  intros -> -> Hpost Hclient Hcreate Hall Hbad r. unfold r, stream_real_sse.
  cbn [negb].
  rewrite Hpost, Hclient, Hcreate, parsed_chunks_app,
    (parsed_chunks_complete _ before Hall).
  cbn [parsed_chunks]. rewrite Hbad.
  cbn [live_ending live_printed parsed_out].
  split; [reflexivity|].
  unfold print, print_end. cbn [app]. rewrite <- !app_assoc. by cbn [app].
Qed.

End LiveFacts.

(** *** Runs of the live display *)


Lemma parsed_display_ignores_response_witness :
  let post1 := fun (_ : str) (_ : list (str * str)) (_ : json) =>
    Ok (mkResponse 200 (fun _ => None) [py "data: [DONE]"] None) in
  let post2 := fun (_ : str) (_ : list (str * str)) (_ : json) =>
    Ok (mkResponse 500 (fun _ => None) [] (Some (py "ChunkedEncodingError"))) in
  let decode_utf8 := fun line : str => Ok line in
  let client := fun _ _ : str => @None str in
  let create := fun (_ _ _ : str) (_ : json) =>
    Ok ([mkChunk [mkChoice (Some (py "Hi")) (Some (py "stop"))]], None) in
  stream_real_sse true true post1 decode_utf8 client create
    (py "http://localhost:8080") (py "sk-demo") (py "Hello") (py "gpt-4") false
  = stream_real_sse true true post2 decode_utf8 client create
      (py "http://localhost:8080") (py "sk-demo") (py "Hello") (py "gpt-4")
      false.
Proof.
  intros post1 post2 decode_utf8 client create.
  apply (parsed_display_ignores_response true true decode_utf8 client create
           (py "http://localhost:8080") (py "sk-demo") (py "Hello")
           (py "gpt-4") post1 post2
           (mkResponse 200 (fun _ => None) [py "data: [DONE]"] None)
           (mkResponse 500 (fun _ => None) []
              (Some (py "ChunkedEncodingError"))));
    reflexivity.
Defined.

Lemma raw_display_skips_blank_lines_witness :
  let response :=
    mkResponse 200 (fun _ => None)
      [py "data: one"; []; py "data: [DONE]"; []] None in
  let post1 := fun (_ : str) (_ : list (str * str)) (_ : json) =>
    Ok response in
  let post2 := fun (_ : str) (_ : list (str * str)) (_ : json) =>
    Ok (mkResponse 200 (fun _ => None) [py "data: one"; py "data: [DONE]"]
          None) in
  let decode_utf8 := fun line : str => Ok line in
  let client := fun _ _ : str => @None str in
  let create := fun (_ _ _ : str) (_ : json) =>
    Raise (py "unused") : result (list chunk * option str) in
  stream_real_sse true true post1 decode_utf8 client create
    (py "http://localhost:8080") (py "sk-demo") (py "Hello") (py "gpt-4") true
  = stream_real_sse true true post2 decode_utf8 client create
      (py "http://localhost:8080") (py "sk-demo") (py "Hello") (py "gpt-4")
      true.
Proof.
  intros response post1 post2 decode_utf8 client create.
  apply (raw_display_skips_blank_lines true true decode_utf8 client create
           (py "http://localhost:8080") (py "sk-demo") (py "Hello")
           (py "gpt-4") post1 post2 response true);
    reflexivity.
Defined.

Lemma live_summary_witness :
  let response := mkResponse 200 (fun _ => None) [] None in
  let post := fun (_ : str) (_ : list (str * str)) (_ : json) => Ok response in
  let decode_utf8 := fun line : str => Ok line in
  let chunks :=
    [mkChunk [mkChoice (Some (py "Mail: ")) None];
     mkChunk [mkChoice (Some (py "[REDACTED]")) None];
     mkChunk [mkChoice None (Some (py "stop"))]] in
  let client := fun _ _ : str => @None str in
  let create := fun (_ _ _ : str) (_ : json) => Ok (chunks, None) in
  let r :=
    stream_real_sse true true post decode_utf8 client create
      (py "http://localhost:8080") (py "sk-demo") (py "Hello") (py "gpt-4")
      false in
  live_ending r = Returned
  /\ live_printed r
     = Colors.DIM ++ py "Prompt: Hello" ++ Colors.RESET ++ [LF]
       ++ Colors.GREEN ++ py "Response: " ++ Colors.RESET
       ++ py "Mail: " ++ Colors.YELLOW ++ py "[REDACTED]" ++ Colors.RESET
       ++ [LF]
       ++ [LF] ++ Colors.CYAN ++ py "--- Stream Complete ---" ++ Colors.RESET
       ++ [LF]
       ++ py "  finish_reason: stop" ++ [LF]
       ++ py "  redactions: 1" ++ [LF].
Proof.
  intros response post decode_utf8 chunks client create r.
  apply (live_summary true true decode_utf8 client create
           (py "http://localhost:8080") (py "sk-demo") (py "Hello")
           (py "gpt-4") post response chunks);
    try reflexivity.
  repeat constructor; discriminate.
Defined.

Lemma chunk_without_choices_raises_witness :
  let response := mkResponse 200 (fun _ => None) [] None in
  let post := fun (_ : str) (_ : list (str * str)) (_ : json) => Ok response in
  let decode_utf8 := fun line : str => Ok line in
  let before := [mkChunk [mkChoice (Some (py "Hi")) (Some (py "stop"))]] in
  let client := fun _ _ : str => @None str in
  let create := fun (_ _ _ : str) (_ : json) =>
    Ok (before ++ [mkChunk []], None) in
  let r :=
    stream_real_sse true true post decode_utf8 client create
      (py "http://localhost:8080") (py "sk-demo") (py "Hello") (py "gpt-4")
      false in
  live_ending r = Raised (py "IndexError")
  /\ live_printed r
     = Colors.DIM ++ py "Prompt: Hello" ++ Colors.RESET ++ [LF]
       ++ Colors.GREEN ++ py "Response: " ++ Colors.RESET ++ py "Hi".
Proof.
  intros response post decode_utf8 before client create r.
  apply (chunk_without_choices_raises true true decode_utf8 client create
           (py "http://localhost:8080") (py "sk-demo") (py "Hello")
           (py "gpt-4") post response before [] (mkChunk []) None);
    try reflexivity.
  repeat constructor; discriminate.
Defined.

End StreamingDemoMore.

(** ** The demo runner *)

Module DemoRunnerSpec.
Import PyFacts StreamingDemo StreamingDemoSpec StreamingDemoMore DemoRunner.
Local Open Scope nat_scope.

(** *** Steps in sequence *)

Lemma and_then_keeps_requests (a b : step) :
  keeps_requests a -> keeps_requests b -> keeps_requests (a >>> b).
Proof.
  intros Ha Hb w. unfold and_then. specialize (Ha w).
  destruct (a w) as [w' [| code | exn]]; cbn [fst] in *; [|done..].
  by rewrite Hb.
Qed.

Lemma and_then_reads_lines (j k : nat) (a b : step) :
  reads_lines j a -> reads_lines k b -> reads_lines (j + k) (a >>> b).
Proof.
  intros Ha Hb w. unfold and_then.
  destruct (Ha w) as [Hok Heof].
  destruct (decide (j <= length (stdin w))) as [Hj|Hj].
  - destruct (Hok Hj) as [Hret Hin].
    destruct (a w) as [w' o]; cbn [fst snd] in *. subst o.
    destruct (Hb w') as [Hok' Heof']. rewrite Hin, length_drop in *.
    split; intros Hlen.
    + destruct Hok' as [-> ->]; [lia|]. by rewrite drop_drop.
    + apply Heof'. lia.
  - destruct Heof as [Hraise Hin]; [lia|].
    destruct (a w) as [w' o]; cbn [fst snd] in *. subst o.
    split; intros Hlen; [lia | done].
Qed.

Lemma and_then_input_driven (a b : step) :
  input_driven a -> input_driven b -> input_driven (a >>> b).
Proof.
  intros Ha Hb w1 w2 Hin Ht. unfold and_then.
  destruct (Ha w1 w2 Hin Ht) as (text & Ho1 & Ho2 & He & Hs & Hk).
  destruct (a w1) as [w1' o1], (a w2) as [w2' o2]; cbn [fst snd] in *.
  subst o2. destruct o1 as [| code | exn]; cbn [fst snd];
    try (exists text; by split_and!).
  destruct (Hb w1' w2' Hs Hk) as (text' & Ho1' & Ho2' & He' & Hs' & Hk').
  exists (text ++ text'). rewrite Ho1', Ho2', Ho1, Ho2, <- !app_assoc.
  by split_and!.
Qed.

(** *** The single steps *)

Lemma say_keeps_requests (f : str -> str) : keeps_requests (say f).
Proof. by intros w. Qed.

Lemma say_reads_lines (f : str -> str) : reads_lines 0 (say f).
Proof. intros w. cbn. split; [done | lia]. Qed.

Lemma say_input_driven (f : str -> str) (text : str) :
  (forall o, f o = o ++ text) -> input_driven (say f).
Proof. intros Hf w1 w2 Hin Ht. exists text. cbn. by rewrite !Hf. Qed.

Lemma input_keeps_requests (prompt : str) : keeps_requests (input prompt).
Proof. intros w. unfold input. by destruct (stdin w). Qed.

Lemma input_reads_lines (prompt : str) : reads_lines 1 (input prompt).
Proof.
  intros w. unfold input. destruct (stdin w) as [|line rest]; cbn.
  - split; [lia | done].
  - split; [by rewrite drop_0 | lia].
Qed.

Lemma input_input_driven (prompt : str) : input_driven (input prompt).
Proof.
  intros w1 w2 Hin Ht. exists prompt. unfold input. rewrite <- Hin.
  by destruct (stdin w1).
Qed.

Lemma print_header_app (o title : str) :
  print_header o title
  = o ++ (LF :: Colors.BOLD ++ Colors.CYAN ++ RULE) ++ [LF]
      ++ (py " " ++ title) ++ [LF] ++ (RULE ++ Colors.RESET ++ [LF]) ++ [LF].
Proof. unfold print_header, print. by rewrite <- !app_assoc. Qed.

Lemma print_scenario_app (o : str) (number : Z) (title description : str) :
  print_scenario o number title description
  = o ++ (LF :: Colors.BOLD ++ Colors.MAGENTA ++ py "Scenario "
          ++ str_of_Z number ++ py ": " ++ title ++ Colors.RESET) ++ [LF]
      ++ (Colors.DIM ++ description ++ Colors.RESET ++ [LF]) ++ [LF].
Proof. unfold print_scenario, print. by rewrite <- !app_assoc. Qed.

Section RunnerFacts.
Variable REQUESTS_AVAILABLE : bool.
Variable OPENAI_AVAILABLE : bool.
Variable requests_get : str -> result Z.
Variable requests_post : str -> list (str * str) -> json -> result response.
Variable decode_utf8 : str -> result str.
Variable OpenAI : str -> str -> option str.
Variable chat_completions_create :
  str -> str -> str -> json -> result (list chunk * option str).
Variable clock : nat -> Z.

Lemma simulated_keeps_requests (key : str) (show_raw : bool) :
  keeps_requests (simulated clock key show_raw).
Proof. by intros w. Qed.

Lemma simulated_reads_lines (key : str) (show_raw : bool) :
  key ∈ py <$> ["normal"; "pii_redacted"; "financial"; "blocked"]%string ->
  reads_lines 0 (simulated clock key show_raw).
Proof.
  intros Hkey w. unfold simulated. cbn [fst snd stdin]. split; [|lia].
  intros _. split; [|done].
  by apply (known_key_returns (fun n => clock (ticks w + n)) key show_raw).
Qed.

Lemma simulated_input_driven (key : str) (show_raw : bool) :
  input_driven (simulated clock key show_raw).
Proof.
  intros w1 w2 Hin Ht. unfold simulated. cbn [fst snd out stdin ticks].
  rewrite <- Ht. eexists. by split_and!.
Qed.

Lemma live_without_requests (proxy_url api_key prompt model : str)
    (show_raw : bool) (w : world) :
  live false OPENAI_AVAILABLE requests_post decode_utf8 OpenAI
    chat_completions_create proxy_url api_key prompt model show_raw w
  = (mkWorld (out w ++ print [] (not_available "requests")) (stdin w)
       (sent w) (ticks w), Returned).
Proof. unfold live, stream_real_sse. cbn. by rewrite app_nil_r. Qed.

(** The steps of the demo after the opening: a property of steps that
    holds of every single step, with the number of lines that the step
    reads, holds of the sequence with four lines. *)
Lemma scenario_chain (P : nat -> step -> Prop) (simulated_mode show_raw : bool)
    (proxy_url key model : str) :
  (forall j k a b, P j a -> P k b -> P (j + k) (a >>> b)) ->
  (forall prompt, P 1 (input prompt)) ->
  (forall f text, (forall o, f o = o ++ text) -> P 0 (say f)) ->
  (forall scenario_key prompt,
     scenario_key ∈ py <$> ["normal"; "pii_redacted"; "financial";
                            "blocked"]%string ->
     P 0 (scenario_step REQUESTS_AVAILABLE OPENAI_AVAILABLE requests_post
            decode_utf8 OpenAI chat_completions_create clock
            simulated_mode proxy_url key model show_raw scenario_key prompt)) ->
  P 4 (input START_PROMPT >>>
       say (fun o => print_scenario o 1 (py "Normal Streaming")
              (py "Safe content streams through CheckStream unchanged.")) >>>
       scenario_step REQUESTS_AVAILABLE OPENAI_AVAILABLE requests_post
         decode_utf8 OpenAI chat_completions_create clock
         simulated_mode proxy_url key model show_raw
         (py "normal") (py "What is 2 + 2? Reply in one sentence.") >>>
       input NEXT_PROMPT >>>
       say (fun o => print_scenario o 2 (py "PII Redaction")
              (py "Personal information is detected and replaced with [REDACTED].")) >>>
       scenario_step REQUESTS_AVAILABLE OPENAI_AVAILABLE requests_post
         decode_utf8 OpenAI chat_completions_create clock
         simulated_mode proxy_url key model show_raw
         (py "pii_redacted")
         (py "Generate a fake customer profile with name, email, and phone number.") >>>
       input NEXT_PROMPT >>>
       say (fun o => print_scenario o 3 (py "Regulatory Guardrails")
              (py "Financial advice triggers compliance disclaimers (FCA/FINRA).")) >>>
       scenario_step REQUESTS_AVAILABLE OPENAI_AVAILABLE requests_post
         decode_utf8 OpenAI chat_completions_create clock
         simulated_mode proxy_url key model show_raw
         (py "financial") (py "Should I invest all my savings in Bitcoin?") >>>
       input NEXT_PROMPT >>>
       say (fun o => print_scenario o 4 (py "Policy Block")
              (py "Prohibited content triggers stream termination with content_filter.")) >>>
       scenario_step REQUESTS_AVAILABLE OPENAI_AVAILABLE requests_post
         decode_utf8 OpenAI chat_completions_create clock
         simulated_mode proxy_url key model show_raw
         (py "blocked") (py "Write a harmless poem about nature.") >>>
       say (fun o => print_header o (py "Demo Complete")) >>>
       say (fun o => print o SUMMARY)).
Proof.
  intros Hseq Hinput Hsay Hscenario.
  change 4 with (1 + (0 + (0 + (1 + (0 + (0 + (1 + (0 + (0 + (1 + (0 + (0
                 + (0 + 0))))))))))))).
  repeat (apply Hseq;
          [first [apply Hinput
                 | eapply Hsay; intros o; apply print_scenario_app
                 | eapply Hsay; intros o; apply print_header_app
                 | apply Hscenario; apply (bool_decide_unpack _); vm_compute;
                   exact I]|]).
  eapply Hsay. intros o. reflexivity.
Qed.

(** *** The opening *)

Lemma opening_simulated (proxy_url : str) (api_key : option str)
    (model : str) (w : world) :
  truthy api_key = false ->
  opening REQUESTS_AVAILABLE requests_get proxy_url api_key model w
  = (mkWorld
       (print (print_header (out w) (py "CheckStream Streaming Demo"))
          SIMULATED_BANNER)
       (stdin w) (sent w) (ticks w), true).
Proof. intros Hkey. unfold opening. by rewrite Hkey. Qed.

Lemma opening_fallback (proxy_url api_key model exn : str) (w : world) :
  api_key <> [] ->
  REQUESTS_AVAILABLE = true ->
  requests_get (proxy_url ++ py "/health/ready") = Raise exn ->
  opening REQUESTS_AVAILABLE requests_get proxy_url (Some api_key) model w
  = (mkWorld
       (print
          (print
             (print (print_header (out w) (py "CheckStream Streaming Demo"))
                (live_banner proxy_url model))
             (Colors.RED ++ [BALLOT_X] ++ py " Cannot connect to "
              ++ proxy_url ++ Colors.RESET))
          (Colors.DIM ++ py "Falling back to simulated mode"
           ++ Colors.RESET ++ [LF]))
       (stdin w) (sent w ++ [HealthGet (proxy_url ++ py "/health/ready")])
       (ticks w), true).
Proof.
  intros Hkey Hreq Hget. unfold opening. rewrite Hreq, Hget.
  by destruct api_key.
Qed.

Lemma opening_stdin (proxy_url : str) (api_key : option str) (model : str)
    (w : world) :
  stdin (opening REQUESTS_AVAILABLE requests_get proxy_url api_key model w).1
  = stdin w.
Proof.
  unfold opening. destruct (truthy api_key); cbn [negb]; [|done].
  destruct REQUESTS_AVAILABLE; [|done].
  by destruct (requests_get _).
Qed.

(** *** The demo in simulated mode *)

(** X21: without an API key (none, or the empty string) the demo sends no
    request at all, whatever the proxy, the libraries and the input are. *)
Theorem simulated_demo_sends_nothing (proxy_url : str) (api_key : option str)
    (model : str) (show_raw : bool) (w : world) :
  truthy api_key = false ->
  sent (run_demo REQUESTS_AVAILABLE OPENAI_AVAILABLE requests_get requests_post
          decode_utf8 OpenAI chat_completions_create clock
          proxy_url api_key model show_raw w).1
  = sent w.
Proof.
  intros Hkey. unfold run_demo. rewrite opening_simulated by done.
  cbv zeta.
  rewrite (scenario_chain (fun _ => keeps_requests) true show_raw proxy_url
             (or_else api_key []) model); [done | | | |].
  - intros _ _ a b. apply and_then_keeps_requests.
  - apply input_keeps_requests.
  - intros f text _. apply say_keeps_requests.
  - intros scenario_key prompt _. apply simulated_keeps_requests.
Qed.

(** X22: without an API key the demo reads four lines from standard
    input. With four lines or more it runs to its end and leaves the
    others unread; with fewer it ends with EOFError. *)
Theorem simulated_demo_reads_four_lines (proxy_url : str)
    (api_key : option str) (model : str) (show_raw : bool) :
  truthy api_key = false ->
  reads_lines 4
    (run_demo REQUESTS_AVAILABLE OPENAI_AVAILABLE requests_get requests_post
       decode_utf8 OpenAI chat_completions_create clock
       proxy_url api_key model show_raw).
Proof.
  intros Hkey w. unfold run_demo. rewrite opening_simulated by done.
  cbv zeta.
  set (w' := mkWorld _ (stdin w) (sent w) (ticks w)).
  apply (scenario_chain reads_lines true show_raw proxy_url
           (or_else api_key []) model
           and_then_reads_lines input_reads_lines
           (fun f text _ => say_reads_lines f)
           (fun scenario_key prompt Hin =>
              simulated_reads_lines scenario_key show_raw Hin)
           w').
Qed.

(** X23: when the check of the proxy raises, the demo goes on in simulated
    mode: it has sent the health request and sends nothing else, and after
    its opening it prints the same text, reads the same input and ends the
    same way as the demo without an API key. *)
Theorem proxy_failure_falls_back (proxy_url api_key model exn : str)
    (show_raw : bool) (w : world) :
  api_key <> [] ->
  REQUESTS_AVAILABLE = true ->
  requests_get (proxy_url ++ py "/health/ready") = Raise exn ->
  let live_run :=
    run_demo REQUESTS_AVAILABLE OPENAI_AVAILABLE requests_get requests_post
      decode_utf8 OpenAI chat_completions_create clock
      proxy_url (Some api_key) model show_raw w in
  let simulated_run :=
    run_demo REQUESTS_AVAILABLE OPENAI_AVAILABLE requests_get requests_post
      decode_utf8 OpenAI chat_completions_create clock
      proxy_url None model show_raw w in
  let header := print_header (out w) (py "CheckStream Streaming Demo") in
  sent live_run.1 = sent w ++ [HealthGet (proxy_url ++ py "/health/ready")]
  /\ live_run.2 = simulated_run.2
  /\ stdin live_run.1 = stdin simulated_run.1
  /\ exists text,
       out live_run.1
       = print
           (print (print header (live_banner proxy_url model))
              (Colors.RED ++ [BALLOT_X] ++ py " Cannot connect to "
               ++ proxy_url ++ Colors.RESET))
           (Colors.DIM ++ py "Falling back to simulated mode"
            ++ Colors.RESET ++ [LF])
         ++ text
       /\ out simulated_run.1 = print header SIMULATED_BANNER ++ text.
Proof.
  intros Hkey Hreq Hget live_run simulated_run header.
  unfold live_run, simulated_run, run_demo.
  rewrite (opening_simulated proxy_url None model w eq_refl).
  rewrite (opening_fallback proxy_url api_key model exn w Hkey Hreq Hget).
  cbv zeta. fold header.
  set (w1 := mkWorld _ (stdin w) (sent w ++ _) (ticks w)).
  set (w0 := mkWorld _ (stdin w) (sent w) (ticks w)).
  unfold scenario_step.
  pose proof (scenario_chain (fun _ => keeps_requests) true show_raw proxy_url
                [] model) as Hsent.
  pose proof (scenario_chain (fun _ => input_driven) true show_raw proxy_url
                [] model) as Hsame.
  unfold scenario_step in Hsent, Hsame.
  split.
  - rewrite Hsent; [done | | | |].
    + intros _ _ a b. apply and_then_keeps_requests.
    + apply input_keeps_requests.
    + intros f text _. apply say_keeps_requests.
    + intros scenario_key prompt _. apply simulated_keeps_requests.
  - specialize (Hsame (fun _ _ => and_then_input_driven) input_input_driven
                  say_input_driven
                  (fun scenario_key _ _ =>
                     simulated_input_driven scenario_key show_raw)).
    destruct (Hsame w1 w0 eq_refl eq_refl) as (text & Ho1 & Ho0 & He & Hs & _).
    split_and!; [done | done |]. exists text. by split.
Qed.

(** X24: with an API key but without the requests library the demo sends
    no request, not even the check of the proxy; each of its four
    scenarios only reports the missing library, and it still reads its
    four lines. *)
Theorem live_demo_without_requests (proxy_url api_key model : str)
    (show_raw : bool) (w : world) :
  api_key <> [] ->
  REQUESTS_AVAILABLE = false ->
  let r :=
    run_demo REQUESTS_AVAILABLE OPENAI_AVAILABLE requests_get requests_post
      decode_utf8 OpenAI chat_completions_create clock
      proxy_url (Some api_key) model show_raw w in
  sent r.1 = sent w
  /\ (4 <= length (stdin w) ->
      r.2 = Returned /\ stdin r.1 = drop 4 (stdin w))
  /\ (length (stdin w) < 4 ->
      r.2 = Raised (py "EOFError") /\ stdin r.1 = []).
Proof.
  intros Hkey Hreq r. unfold r, run_demo, opening. rewrite Hreq.
  assert (truthy (Some api_key) = true) as -> by (by destruct api_key).
  cbn [negb]. cbv zeta.
  set (w' := mkWorld _ (stdin w) (sent w) (ticks w)).
  pose proof (scenario_chain (fun _ => keeps_requests) false show_raw proxy_url
                (or_else (Some api_key) []) model) as Hsent.
  pose proof (scenario_chain reads_lines false show_raw proxy_url
                (or_else (Some api_key) []) model) as Hlines.
  rewrite Hreq in Hsent, Hlines. split.
  - rewrite Hsent; [done | | | |].
    + intros _ _ a b. apply and_then_keeps_requests.
    + apply input_keeps_requests.
    + intros f text _. apply say_keeps_requests.
    + intros scenario_key prompt _ w0. unfold scenario_step.
      by rewrite live_without_requests.
  - assert (forall scenario_key prompt : str,
              reads_lines 0
                (scenario_step false OPENAI_AVAILABLE requests_post
                   decode_utf8 OpenAI chat_completions_create clock false proxy_url
                   (or_else (Some api_key) []) model show_raw scenario_key
                   prompt)) as Hlive.
    { intros scenario_key prompt w0. unfold scenario_step.
      rewrite live_without_requests. cbn. split; [done | lia]. }
    apply (Hlines and_then_reads_lines input_reads_lines
             (fun f text _ => say_reads_lines f)
             (fun scenario_key prompt _ => Hlive scenario_key prompt) w').
Qed.

End RunnerFacts.

(** *** Runs of the demo *)

Lemma simulated_demo_sends_nothing_witness :
  let requests_get := fun _ : str => Ok 200%Z in
  let requests_post := fun (_ : str) (_ : list (str * str)) (_ : json) =>
    Ok (mkResponse 200 (fun _ => None) [py "data: [DONE]"] None) in
  let decode_utf8 := fun line : str => Ok line in
  let client := fun _ _ : str => @None str in
  let create := fun (_ _ _ : str) (_ : json) =>
    Ok ([] : list chunk, None : option str) in
  let clock := fun n : nat => (1700000000 + Z.of_nat n)%Z in
  let w := mkWorld [] [[]; []; []; []] [] 0 in
  sent (run_demo true true requests_get requests_post decode_utf8 client create clock
          (py "http://localhost:8080") (Some []) (py "gpt-4") true w).1
  = [].
Proof.
  intros requests_get requests_post decode_utf8 client create clock w.
  apply (simulated_demo_sends_nothing true true requests_get requests_post
           decode_utf8 client create clock (py "http://localhost:8080") (Some [])
           (py "gpt-4") true w).
  reflexivity.
Defined.

Lemma simulated_demo_reads_four_lines_witness :
  let requests_get := fun _ : str => Ok 200%Z in
  let requests_post := fun (_ : str) (_ : list (str * str)) (_ : json) =>
    Ok (mkResponse 200 (fun _ => None) [py "data: [DONE]"] None) in
  let decode_utf8 := fun line : str => Ok line in
  let client := fun _ _ : str => @None str in
  let create := fun (_ _ _ : str) (_ : json) =>
    Ok ([] : list chunk, None : option str) in
  let clock := fun n : nat => (1700000000 + Z.of_nat n)%Z in
  let demo :=
    run_demo true true requests_get requests_post decode_utf8 client create clock
      (py "http://localhost:8080") None (py "gpt-4") false in
  ((demo (mkWorld [] [[]; []; []; []; py "later"] [] 0)).2 = Returned
   /\ stdin (demo (mkWorld [] [[]; []; []; []; py "later"] [] 0)).1
      = [py "later"])
  /\ ((demo (mkWorld [] [[]; []] [] 0)).2 = Raised (py "EOFError")
      /\ stdin (demo (mkWorld [] [[]; []] [] 0)).1 = []).
Proof.
  intros requests_get requests_post decode_utf8 client create clock demo.
  pose proof (simulated_demo_reads_four_lines true true requests_get
                requests_post decode_utf8 client create clock
                (py "http://localhost:8080") None (py "gpt-4") false eq_refl)
    as Hlines.
  split.
  - apply (Hlines (mkWorld [] [[]; []; []; []; py "later"] [] 0)).
    simpl. lia.
  - apply (Hlines (mkWorld [] [[]; []] [] 0)). simpl. lia.
Defined.

Lemma proxy_failure_falls_back_witness :
  let requests_get := fun _ : str => Raise (py "ConnectionError") : result Z in
  let requests_post := fun (_ : str) (_ : list (str * str)) (_ : json) =>
    Ok (mkResponse 200 (fun _ => None) [py "data: [DONE]"] None) in
  let decode_utf8 := fun line : str => Ok line in
  let client := fun _ _ : str => @None str in
  let create := fun (_ _ _ : str) (_ : json) =>
    Ok ([] : list chunk, None : option str) in
  let clock := fun n : nat => (1700000000 + Z.of_nat n)%Z in
  let w := mkWorld [] [[]; []; []; []] [] 0 in
  let live_run :=
    run_demo true true requests_get requests_post decode_utf8 client create clock
      (py "http://localhost:8080") (Some (py "sk-demo")) (py "gpt-4") false w in
  let simulated_run :=
    run_demo true true requests_get requests_post decode_utf8 client create clock
      (py "http://localhost:8080") None (py "gpt-4") false w in
  sent live_run.1 = [HealthGet (py "http://localhost:8080/health/ready")]
  /\ live_run.2 = simulated_run.2
  /\ stdin live_run.1 = stdin simulated_run.1.
Proof.
  intros requests_get requests_post decode_utf8 client create clock w
    live_run simulated_run.
  destruct (proxy_failure_falls_back true true requests_get requests_post
              decode_utf8 client create clock (py "http://localhost:8080")
              (py "sk-demo") (py "gpt-4") (py "ConnectionError") false w)
    as (Hsent & Hend & Hin & _); [discriminate | reflexivity | reflexivity |].
  split_and!; [exact Hsent | exact Hend | exact Hin].
Defined.

Lemma live_demo_without_requests_witness :
  let requests_get := fun _ : str => Ok 200%Z in
  let requests_post := fun (_ : str) (_ : list (str * str)) (_ : json) =>
    Ok (mkResponse 200 (fun _ => None) [py "data: [DONE]"] None) in
  let decode_utf8 := fun line : str => Ok line in
  let client := fun _ _ : str => @None str in
  let create := fun (_ _ _ : str) (_ : json) =>
    Ok ([] : list chunk, None : option str) in
  let clock := fun n : nat => (1700000000 + Z.of_nat n)%Z in
  let w := mkWorld [] [[]; []; []; []] [] 0 in
  let r :=
    run_demo false true requests_get requests_post decode_utf8 client create clock
      (py "http://localhost:8080") (Some (py "sk-demo")) (py "gpt-4") false w in
  sent r.1 = [] /\ r.2 = Returned.
Proof.
  intros requests_get requests_post decode_utf8 client create clock w r.
  destruct (live_demo_without_requests false true requests_get requests_post
              decode_utf8 client create clock (py "http://localhost:8080")
              (py "sk-demo") (py "gpt-4") false w)
    as (Hsent & Hok & _); [discriminate | reflexivity |].
  split; [exact Hsent|]. apply Hok. simpl. lia.
Defined.

End DemoRunnerSpec.

(** ** The text of the events and the finish reason *)

Module EventText.
Import PyFacts Wire JsonFacts StreamingDemo StreamingDemoSpec StreamingDemoMore.
Import DemoRunner.
Local Open Scope nat_scope.

(** *** Searching a text made of parts *)

Lemma contains_app_r (sub p s : str) :
  contains sub s = true -> contains sub (p ++ s) = true.
Proof.
  rewrite !contains_spec. intros (pre & post & ->).
  exists (p ++ pre), post. by rewrite <- app_assoc.
Qed.

Lemma contains_app_l (sub s q : str) :
  contains sub s = true -> contains sub (s ++ q) = true.
Proof.
  rewrite !contains_spec. intros (pre & post & ->).
  exists pre, (post ++ q). by rewrite <- !app_assoc.
Qed.

(** A text without digits is found in a text around a block of digits only
    before the block or after it. *)
Lemma contains_around_digits (sub a digits b : str) :
  sub <> [] -> digits <> [] ->
  Forall (fun c => signed_digit c = false) sub ->
  Forall (fun c => signed_digit c = true) digits ->
  contains sub (a ++ digits ++ b) = contains sub a || contains sub b.
Proof.
  intros Hsub Hdigits Hno Hyes. apply eq_true_iff_eq.
  rewrite orb_true_iff. split.
  - assert (forall c, c ∈ sub -> c ∈ digits -> False) as Hclash.
    { intros c Hc Hd. rewrite Forall_forall in Hno, Hyes.
      specialize (Hno c Hc). specialize (Hyes c Hd). congruence. }
    intros (pre & post & Heq)%contains_spec.
    apply app_eq_inv in Heq as [(k & -> & Heq) | (k & -> & Heq)].
    + apply app_eq_inv in Heq as [(k' & -> & Heq) | (k' & -> & Heq)].
      * destruct k' as [|c k'].
        -- left. apply contains_spec. exists pre, []. by rewrite !app_nil_r.
        -- exfalso. destruct digits as [|d digits]; [done|].
           injection Heq as -> _. apply (Hclash c).
           ++ apply elem_of_app. right. apply list_elem_of_here.
           ++ apply list_elem_of_here.
      * left. apply contains_spec. by exists pre, k'.
    + apply app_eq_inv in Heq as [(k' & -> & Heq) | (k' & -> & Heq)].
      * destruct k' as [|c k'].
        -- right. apply contains_spec. exists [], post. cbn in *. by subst b.
        -- exfalso. destruct sub as [|d sub]; [done|].
           injection Heq as -> _. apply (Hclash c).
           ++ apply list_elem_of_here.
           ++ apply elem_of_app. right. apply list_elem_of_here.
      * right. apply contains_spec. by exists k', post.
  - intros [Ha | Hb].
    + by apply contains_app_l.
    + by apply contains_app_r, contains_app_r.
Qed.

(** *** Printed integers *)

Lemma digits_signed (d : Decimal.uint) :
  Forall (fun c => signed_digit c = true) (py (NilEmpty.string_of_uint d)).
Proof. induction d; constructor; done. Qed.

Lemma str_of_Z_signed_digits (z : Z) :
  Forall (fun c => signed_digit c = true) (str_of_Z z).
Proof.
  unfold str_of_Z, NilZero.string_of_int.
  destruct (Z.to_int z) as [d|d].
  - unfold NilZero.string_of_uint. destruct d;
      try apply (digits_signed (_ _)). by repeat constructor.
  - constructor; [done|]. unfold NilZero.string_of_uint. destruct d;
      try apply (digits_signed (_ _)). by repeat constructor.
Qed.

Lemma str_of_Z_nonempty (z : Z) : str_of_Z z <> [].
Proof.
  unfold str_of_Z, NilZero.string_of_int.
  destruct (Z.to_int z) as [d|d]; [|done].
  unfold NilZero.string_of_uint. by destruct d.
Qed.

(** A digit and the minus sign are encoded as they are. *)
Lemma escape_signed_digit (c : char) :
  signed_digit c = true -> escape_char c = [c].
Proof.
  unfold signed_digit, escape_char, QUOTE, BACKSLASH. intros Hc.
  apply orb_true_iff in Hc.
  rewrite andb_true_iff, N.eqb_eq, !N.leb_le in Hc.
  repeat match goal with
         | |- context [(c =? ?n)%N] => destruct (N.eqb_spec c n); [lia|]
         end.
  destruct (_ && _) eqn:Hp; [done|].
  apply andb_false_iff in Hp. rewrite !N.leb_gt in Hp. lia.
Qed.

Lemma escape_digits (digits : str) :
  Forall (fun c => signed_digit c = true) digits ->
  concat (escape_char <$> digits) = digits.
Proof.
  induction 1 as [|c digits Hc _ IH]; [done|].
  cbn [fmap list_fmap concat]. by rewrite escape_signed_digit, IH.
Qed.

Lemma encode_str_digits (p digits : str) :
  Forall (fun c => signed_digit c = true) digits ->
  encode_str (p ++ digits)
  = QUOTE :: concat (escape_char <$> p) ++ digits ++ [QUOTE].
Proof.
  intros Hd. unfold encode_str.
  rewrite fmap_app, concat_app, (escape_digits digits Hd).
  by rewrite <- app_assoc.
Qed.

(** *** The text of an event *)

(** The text of an event of the simulated stream, character by character:
    the JSON object with its five members in the order id, object,
    created, model, choices, the separators ", " and ": ", the delta as
    [delta_text] gives it and the finish reason in quotes or as null, and
    two line feeds after it. *)
Lemma generate_sse_event_text (created0 created : Z)
    (content reason : option str) :
  generate_sse_event created (py "chatcmpl-demo-" ++ str_of_Z created0)
    content reason
  = EVENT_HEAD ++ str_of_Z created0 ++ EVENT_MIDDLE ++ str_of_Z created
    ++ event_tail (delta_text content) (optional_text reason).
Proof.
  unfold generate_sse_event, sse_frame, dumps, chunk_data, json_of_optional,
    delta_text, optional_text.
  cbn [encode List.map fst snd].
  rewrite (encode_str_digits _ _ (str_of_Z_signed_digits created0)).
  generalize (str_of_Z created0) (str_of_Z created). intros digits0 digits.
  destruct content as [[|c r]|], reason as [reason|];
    cbn [truthy or_else encode List.map fst snd];
    try generalize (encode_str reason);
    try generalize (encode_str (c :: r)); intros;
    cbv -[app]; rewrite <- !app_assoc; cbn [app];
    rewrite <- ?app_assoc; cbn [app]; reflexivity.
Qed.

(** *** The events of the simulated stream, as text *)

Lemma escape_plain_or_LF (c : char) :
  plain_or_LF c = true ->
  escape_char c = if (c =? LF)%N then [BACKSLASH; 110%N] else [c].
Proof.
  unfold plain_or_LF, plain, printable, escape_char, QUOTE, BACKSLASH, LF.
  intros Hc. destruct (N.eqb_spec c 10) as [Heq|Hlf];
    [subst c; reflexivity|].
  rewrite orb_false_r, !andb_true_iff, !negb_true_iff, !N.eqb_neq,
    !N.leb_le in Hc.
  repeat match goal with
         | |- context [(c =? ?n)%N] => destruct (N.eqb_spec c n); [lia|]
         end.
  destruct (_ && _) eqn:Hp; [done|].
  apply andb_false_iff in Hp. rewrite !N.leb_gt in Hp. lia.
Qed.

(** JSON writes a text of plain characters and line feeds in quotes, with
    backslash and n for each line feed. *)
Lemma encode_str_in_quotes (s : str) :
  forallb plain_or_LF s = true -> encode_str s = in_quotes s.
Proof.
  intros Hs. unfold encode_str, in_quotes. cbn [app]. f_equal. f_equal.
  induction s as [|c s IH]; [done|].
  cbn [forallb] in Hs. apply andb_true_iff in Hs as [Hc Hs].
  cbn [fmap list_fmap concat flat_map].
  by rewrite (escape_plain_or_LF c Hc), (IH Hs).
Qed.

(** The tokens and the finish reasons of the table are such texts. *)
Lemma table_texts_plain (key : str) (sc : scenario) :
  SIMULATED_RESPONSES !! key = Some sc ->
  forallb (forallb plain_or_LF) (tokens sc) = true
  /\ forallb plain_or_LF (finish_reason sc) = true.
Proof.
  intros Hkey. apply elem_of_list_to_map_2 in Hkey.
  repeat (apply elem_of_cons in Hkey as [[= _ ->]|Hkey];
          [split; vm_compute; reflexivity|]).
  by apply elem_of_nil in Hkey.
Qed.

Lemma token_event_text (created0 created : Z) (token : str) :
  token <> [] -> forallb plain_or_LF token = true ->
  generate_sse_event created (py "chatcmpl-demo-" ++ str_of_Z created0)
    (Some token) None
  = token_event created0 created token.
Proof.
  intros Hne Hplain. rewrite generate_sse_event_text.
  unfold token_event, event_tail, event_end, delta_text, optional_text.
  destruct token as [|c token]; [done|]. cbn [truthy or_else].
  rewrite (encode_str_in_quotes _ Hplain).
  by rewrite <- !app_assoc.
Qed.

Lemma finish_event_text (created0 created : Z) (reason : str) :
  forallb plain_or_LF reason = true ->
  generate_sse_event created (py "chatcmpl-demo-" ++ str_of_Z created0)
    None (Some reason)
  = finish_event created0 created reason.
Proof.
  intros Hplain. rewrite generate_sse_event_text.
  unfold finish_event, event_tail, event_end, delta_text, optional_text.
  cbn [truthy]. rewrite (encode_str_in_quotes _ Hplain).
  by rewrite <- !app_assoc.
Qed.

(** C7: for every scenario key of the table, the stream has one event per
    token of the scenario, in the order of the token list. The event of
    the token at place [i] is, character by character, the text
    [data: {"id": "chatcmpl-demo-T0", "object": "chat.completion.chunk",
    "created": T, "model": "gpt-4", "choices": [{"index": 0, "delta":
    {"content": "TOKEN"}, "finish_reason": null}]}] and two line feeds,
    with that token between the quotes (a line feed of the token as
    backslash n), [T0] the first reading of the clock and [T] the reading
    at that event; this text is the JSON form of a chunk whose delta
    carries that token as its content. The events after those of the
    tokens carry no token, and the stream halts with the end marker
    "data: [DONE]". *)
Theorem one_event_per_token (clock : nat -> Z) (key : str) (sc : scenario) :
  SIMULATED_RESPONSES !! key = Some sc ->
  exists stream,
    simulate_sse_stream clock key = Some stream
    /\ length stream = length (tokens sc) + 2
    /\ emitted_tokens stream = tokens sc
    /\ (forall i token,
          tokens sc !! i = Some token ->
          stream !! i
          = Some (token_event (clock 0) (clock (S i)) token, Some token)
          /\ exists chunk,
               token_event (clock 0) (clock (S i)) token
               = py "data: " ++ dumps chunk ++ [LF; LF]
               /\ delta_of chunk = Some (JObj ["content" ~> JStr token]))
    /\ (forall i event token,
          length (tokens sc) <= i -> stream !! i = Some (event, token) ->
          token = None)
    /\ last stream = Some (py "data: [DONE]" ++ [LF; LF], None).
Proof.
  intros Hkey. eexists. split; [by apply simulate_sse_stream_Some|].
  pose proof (table_tokens_nonempty key sc Hkey) as Hne.
  destruct (table_texts_plain key sc Hkey) as [Hplain _].
  rewrite Forall_lookup in Hne. rewrite forallb_forall in Hplain.
  split_and!.
  - rewrite length_app, length_imap. cbn [length]. lia.
  - eapply emitted_tokens_simulated; [done|]. by apply simulate_sse_stream_Some.
  - intros i token Hi.
    assert (token <> []) as Htoken by (by eapply Hne).
    assert (forallb plain_or_LF token = true) as Htext.
    { apply Hplain, list_elem_of_In. by eapply list_elem_of_lookup_2. }
    split.
    + rewrite lookup_app_l
        by (rewrite length_imap; by eapply lookup_lt_Some).
      rewrite list_lookup_imap, Hi. cbn [fmap option_fmap option_map].
      by rewrite (token_event_text _ _ token Htoken Htext).
    + exists (chunk_data (clock (S i))
                (py "chatcmpl-demo-" ++ str_of_Z (clock 0)) (Some token) None).
      split; [|by apply delta_of_token].
      by rewrite <- (token_event_text _ _ token Htoken Htext).
  - intros i event token Hle Hi.
    rewrite lookup_app_r in Hi by (by rewrite length_imap).
    rewrite length_imap in Hi.
    destruct (i - length (tokens sc)) as [|[|n]]; cbn [lookup list_lookup] in Hi;
      [by injection Hi | by injection Hi | done].
  - by rewrite last_app.
Qed.

Lemma one_event_per_token_witness :
  let clock := fun n : nat => (1700000000 + Z.of_nat n)%Z in
  let sc :=
    mkScenario (py "What is 2 + 2? Reply in one sentence.")
      (py <$> ["Two"; " plus"; " two"; " equals"; " four"; "."]%string)
      (py "stop") in
  SIMULATED_RESPONSES !! py "normal" = Some sc
  /\ token_event (clock 0) (clock 2) (py " plus")
     = py "data: {" ++ [QUOTE] ++ py "id" ++ [QUOTE] ++ py ": " ++ [QUOTE]
       ++ py "chatcmpl-demo-1700000000" ++ [QUOTE] ++ py ", "
       ++ [QUOTE] ++ py "object" ++ [QUOTE] ++ py ": " ++ [QUOTE]
       ++ py "chat.completion.chunk" ++ [QUOTE] ++ py ", "
       ++ [QUOTE] ++ py "created" ++ [QUOTE] ++ py ": 1700000002, "
       ++ [QUOTE] ++ py "model" ++ [QUOTE] ++ py ": " ++ [QUOTE]
       ++ py "gpt-4" ++ [QUOTE] ++ py ", "
       ++ [QUOTE] ++ py "choices" ++ [QUOTE] ++ py ": [{"
       ++ [QUOTE] ++ py "index" ++ [QUOTE] ++ py ": 0, "
       ++ [QUOTE] ++ py "delta" ++ [QUOTE] ++ py ": {"
       ++ [QUOTE] ++ py "content" ++ [QUOTE] ++ py ": "
       ++ [QUOTE] ++ py " plus" ++ [QUOTE] ++ py "}, "
       ++ [QUOTE] ++ py "finish_reason" ++ [QUOTE] ++ py ": null}]}"
       ++ [LF; LF]
  /\ exists stream,
       simulate_sse_stream clock (py "normal") = Some stream
       /\ length stream = length (tokens sc) + 2
       /\ emitted_tokens stream = tokens sc
       /\ (forall i token,
             tokens sc !! i = Some token ->
             stream !! i
             = Some (token_event (clock 0) (clock (S i)) token, Some token)
             /\ exists chunk,
                  token_event (clock 0) (clock (S i)) token
                  = py "data: " ++ dumps chunk ++ [LF; LF]
                  /\ delta_of chunk = Some (JObj ["content" ~> JStr token]))
       /\ (forall i event token,
             length (tokens sc) <= i -> stream !! i = Some (event, token) ->
             token = None)
       /\ last stream = Some (py "data: [DONE]" ++ [LF; LF], None).
Proof.
  intros clock sc.
  assert (SIMULATED_RESPONSES !! py "normal" = Some sc) as Hkey
    by (vm_compute; reflexivity).
  split; [exact Hkey|]. split; [vm_compute; reflexivity|].
  apply (one_event_per_token clock (py "normal") sc Hkey).
Defined.

(** C10: for every scenario key of the table, the event before the last
    is, character by character, the text
    [data: {"id": "chatcmpl-demo-T0", "object": "chat.completion.chunk",
    "created": T, "model": "gpt-4", "choices": [{"index": 0, "delta": {},
    "finish_reason": "REASON"}]}] and two line feeds, with the finish
    reason of the scenario between the quotes: the JSON form of a chunk
    with an empty delta and that finish reason. Every event before it is
    the text of a token event, which ends with ["finish_reason": null}]}]:
    the JSON form of a chunk whose finish reason is null. *)
Theorem finish_chunk_before_done (clock : nat -> Z) (key : str)
    (sc : scenario) :
  SIMULATED_RESPONSES !! key = Some sc ->
  exists stream,
    simulate_sse_stream clock key = Some stream
    /\ 2 <= length stream
    /\ stream !! (length stream - 2)
       = Some (finish_event (clock 0) (clock (S (length (tokens sc))))
                 (finish_reason sc), None)
    /\ (exists chunk,
          finish_event (clock 0) (clock (S (length (tokens sc))))
            (finish_reason sc)
          = py "data: " ++ dumps chunk ++ [LF; LF]
          /\ delta_of chunk = Some (JObj [])
          /\ finish_reason_of chunk = Some (JStr (finish_reason sc)))
    /\ (forall i,
          i < length stream - 2 ->
          exists token chunk,
            stream !! i
            = Some (token_event (clock 0) (clock (S i)) token, Some token)
            /\ token_event (clock 0) (clock (S i)) token
               = py "data: " ++ dumps chunk ++ [LF; LF]
            /\ finish_reason_of chunk = Some JNull).
Proof.
  intros Hkey. eexists. split; [by apply simulate_sse_stream_Some|].
  pose proof (table_tokens_nonempty key sc Hkey) as Hne.
  destruct (table_texts_plain key sc Hkey) as [Hplain Hreason].
  rewrite Forall_lookup in Hne. rewrite forallb_forall in Hplain.
  rewrite length_app, length_imap. cbn [length].
  replace (length (tokens sc) + 2 - 2) with (length (tokens sc)) by lia.
  split_and!.
  - lia.
  - rewrite lookup_app_r by (by rewrite length_imap).
    rewrite length_imap, Nat.sub_diag. cbn [lookup list_lookup].
    by rewrite (finish_event_text _ _ _ Hreason).
  - exists (chunk_data (clock (S (length (tokens sc))))
              (py "chatcmpl-demo-" ++ str_of_Z (clock 0)) None
              (Some (finish_reason sc))).
    split_and!.
    + by rewrite <- (finish_event_text _ _ _ Hreason).
    + apply delta_of_final.
    + apply finish_reason_of_chunk.
  - intros i Hi. apply lookup_lt_is_Some_2 in Hi as [token Hi].
    assert (token <> []) as Htoken by (by eapply Hne).
    assert (forallb plain_or_LF token = true) as Htext.
    { apply Hplain, list_elem_of_In. by eapply list_elem_of_lookup_2. }
    exists token,
      (chunk_data (clock (S i)) (py "chatcmpl-demo-" ++ str_of_Z (clock 0))
         (Some token) None).
    split_and!.
    + rewrite lookup_app_l
        by (rewrite length_imap; by eapply lookup_lt_Some).
      rewrite list_lookup_imap, Hi. cbn [fmap option_fmap option_map].
      by rewrite (token_event_text _ _ token Htoken Htext).
    + by rewrite <- (token_event_text _ _ token Htoken Htext).
    + apply finish_reason_of_chunk.
Qed.

Lemma finish_chunk_before_done_witness :
  let clock := fun n : nat => (1700000000 + Z.of_nat n)%Z in
  let sc :=
    mkScenario (py "Tell me how to hack into a system")
      (py <$> ["I"; " cannot"; " assist"; " with"; " that"; " request"; " due";
               " to"; " safety"; " policies"; "."]%string)
      (py "content_filter") in
  SIMULATED_RESPONSES !! py "blocked" = Some sc
  /\ finish_event (clock 0) (clock 12) (finish_reason sc)
     = py "data: {" ++ [QUOTE] ++ py "id" ++ [QUOTE] ++ py ": " ++ [QUOTE]
       ++ py "chatcmpl-demo-1700000000" ++ [QUOTE] ++ py ", "
       ++ [QUOTE] ++ py "object" ++ [QUOTE] ++ py ": " ++ [QUOTE]
       ++ py "chat.completion.chunk" ++ [QUOTE] ++ py ", "
       ++ [QUOTE] ++ py "created" ++ [QUOTE] ++ py ": 1700000012, "
       ++ [QUOTE] ++ py "model" ++ [QUOTE] ++ py ": " ++ [QUOTE]
       ++ py "gpt-4" ++ [QUOTE] ++ py ", "
       ++ [QUOTE] ++ py "choices" ++ [QUOTE] ++ py ": [{"
       ++ [QUOTE] ++ py "index" ++ [QUOTE] ++ py ": 0, "
       ++ [QUOTE] ++ py "delta" ++ [QUOTE] ++ py ": {}, "
       ++ [QUOTE] ++ py "finish_reason" ++ [QUOTE] ++ py ": "
       ++ [QUOTE] ++ py "content_filter" ++ [QUOTE] ++ py "}]}" ++ [LF; LF]
  /\ exists stream,
       simulate_sse_stream clock (py "blocked") = Some stream
       /\ 2 <= length stream
       /\ stream !! (length stream - 2)
          = Some (finish_event (clock 0) (clock (S (length (tokens sc))))
                    (finish_reason sc), None)
       /\ (exists chunk,
             finish_event (clock 0) (clock (S (length (tokens sc))))
               (finish_reason sc)
             = py "data: " ++ dumps chunk ++ [LF; LF]
             /\ delta_of chunk = Some (JObj [])
             /\ finish_reason_of chunk = Some (JStr (finish_reason sc)))
       /\ (forall i,
             i < length stream - 2 ->
             exists token chunk,
               stream !! i
               = Some (token_event (clock 0) (clock (S i)) token, Some token)
               /\ token_event (clock 0) (clock (S i)) token
                  = py "data: " ++ dumps chunk ++ [LF; LF]
               /\ finish_reason_of chunk = Some JNull).
Proof.
  intros clock sc.
  assert (SIMULATED_RESPONSES !! py "blocked" = Some sc) as Hkey
    by (vm_compute; reflexivity).
  split; [exact Hkey|]. split; [vm_compute; reflexivity|].
  apply (finish_chunk_before_done clock (py "blocked") sc Hkey).
Defined.

(** X12: the events that the generator yields for a scenario key of the
    table, character by character. Each event is one line and two line
    feeds. The line of a token is the JSON object with the members id,
    object, created, model and choices in this order, with the separators
    ", " and ": ": the id is "chatcmpl-demo-" and the first reading of the
    clock, created is the reading of the clock at that event, the delta
    holds the token (it is the empty object for an empty token) and the
    finish reason is null. The event after the tokens has an empty delta
    and the finish reason of the scenario, and the last one is
    "data: [DONE]". *)
Theorem simulated_stream_text (clock : nat -> Z) (key : str) (sc : scenario) :
  SIMULATED_RESPONSES !! key = Some sc ->
  simulate_sse_stream clock key
  = Some (imap (fun i token =>
                  (event_line (clock 0) (clock (S i)) (Some token) None
                   ++ [LF; LF], Some token))
            (tokens sc)
          ++ [(event_line (clock 0) (clock (S (length (tokens sc)))) None
                 (Some (finish_reason sc)) ++ [LF; LF], None);
              (py "data: [DONE]" ++ [LF; LF], None)]).
Proof.
  intros Hkey. rewrite (simulate_sse_stream_Some clock key sc Hkey).
  f_equal. f_equal.
  - apply imap_ext. intros i token _. cbn beta. f_equal.
    rewrite generate_sse_event_text. unfold event_line, event_tail.
    by rewrite <- !app_assoc.
  - f_equal. f_equal.
    rewrite generate_sse_event_text. unfold event_line, event_tail.
    by rewrite <- !app_assoc.
Qed.

Lemma simulated_stream_text_witness :
  let clock := fun n : nat => (1700000000 + Z.of_nat n)%Z in
  let sc :=
    mkScenario (py "What is 2 + 2? Reply in one sentence.")
      (py <$> ["Two"; " plus"; " two"; " equals"; " four"; "."]%string)
      (py "stop") in
  SIMULATED_RESPONSES !! py "normal" = Some sc
  /\ match simulate_sse_stream clock (py "normal") with
     | Some ((event, _) :: _) => Some event
     | _ => None
     end
     = Some
         (py "data: {" ++ [QUOTE] ++ py "id" ++ [QUOTE] ++ py ": " ++ [QUOTE]
          ++ py "chatcmpl-demo-1700000000" ++ [QUOTE] ++ py ", "
          ++ [QUOTE] ++ py "object" ++ [QUOTE] ++ py ": " ++ [QUOTE]
          ++ py "chat.completion.chunk" ++ [QUOTE] ++ py ", "
          ++ [QUOTE] ++ py "created" ++ [QUOTE] ++ py ": 1700000001, "
          ++ [QUOTE] ++ py "model" ++ [QUOTE] ++ py ": " ++ [QUOTE]
          ++ py "gpt-4" ++ [QUOTE] ++ py ", "
          ++ [QUOTE] ++ py "choices" ++ [QUOTE] ++ py ": [{"
          ++ [QUOTE] ++ py "index" ++ [QUOTE] ++ py ": 0, "
          ++ [QUOTE] ++ py "delta" ++ [QUOTE] ++ py ": {"
          ++ [QUOTE] ++ py "content" ++ [QUOTE] ++ py ": "
          ++ [QUOTE] ++ py "Two" ++ [QUOTE] ++ py "}, "
          ++ [QUOTE] ++ py "finish_reason" ++ [QUOTE] ++ py ": null}]}"
          ++ [LF; LF]).
Proof.
  intros clock sc. split; [reflexivity|].
  rewrite (simulated_stream_text clock (py "normal") sc); [|reflexivity].
  vm_compute. reflexivity.
Defined.

(** *** The finish reason that the parsed display finds *)

(** A text without digits is found in an event of the simulated stream
    only in one of its three fixed parts. *)
Lemma contains_simulated_event (sub tail : str) (created0 created : Z) :
  sub <> [] ->
  Forall (fun c => signed_digit c = false) sub ->
  contains sub
    (EVENT_HEAD ++ str_of_Z created0 ++ EVENT_MIDDLE ++ str_of_Z created
     ++ tail)
  = contains sub EVENT_HEAD || contains sub EVENT_MIDDLE || contains sub tail.
Proof.
  intros Hsub Hno.
  rewrite (contains_around_digits sub EVENT_HEAD (str_of_Z created0)
             (EVENT_MIDDLE ++ str_of_Z created ++ tail) Hsub
             (str_of_Z_nonempty created0) Hno
             (str_of_Z_signed_digits created0)).
  rewrite (contains_around_digits sub EVENT_MIDDLE (str_of_Z created) tail
             Hsub (str_of_Z_nonempty created) Hno
             (str_of_Z_signed_digits created)).
  apply orb_assoc.
Qed.

Local Ltac no_digits := apply (bool_decide_unpack _); vm_compute; exact I.

(** The chunk with the finish reason sets the finish reason that the loop
    has seen, for each of the two reasons of the table. *)
Lemma final_step_reason (st : parsed_state) (created0 created : Z)
    (reason : str) :
  reason = py "stop" \/ reason = py "content_filter" ->
  seen_finish_reason
    (parsed_step st
       (generate_sse_event created (py "chatcmpl-demo-" ++ str_of_Z created0)
          None (Some reason), None))
  = Some reason.
Proof.
  intros Hreason. rewrite generate_sse_event_text. unfold parsed_step.
  cbn [fst snd].
  assert (py "finish_reason" <> []) as H1 by discriminate.
  assert (py "content_filter" <> []) as H2 by discriminate.
  assert (FINISH_STOP <> []) as H3 by discriminate.
  rewrite (contains_simulated_event (py "finish_reason") _ _ _ H1)
    by no_digits.
  rewrite (contains_simulated_event (py "content_filter") _ _ _ H2)
    by no_digits.
  rewrite (contains_simulated_event FINISH_STOP _ _ _ H3) by no_digits.
  destruct Hreason as [-> | ->].
  - change (contains (py "finish_reason") EVENT_HEAD) with false.
    change (contains (py "finish_reason") EVENT_MIDDLE) with false.
    change (contains (py "content_filter") EVENT_HEAD) with false.
    change (contains (py "content_filter") EVENT_MIDDLE) with false.
    change (contains FINISH_STOP EVENT_HEAD) with false.
    change (contains FINISH_STOP EVENT_MIDDLE) with false.
    assert (contains (py "finish_reason")
              (event_tail (delta_text None) (optional_text (Some (py "stop"))))
            = true) as -> by (vm_compute; reflexivity).
    assert (contains (py "content_filter")
              (event_tail (delta_text None) (optional_text (Some (py "stop"))))
            = false) as -> by (vm_compute; reflexivity).
    assert (contains FINISH_STOP
              (event_tail (delta_text None) (optional_text (Some (py "stop"))))
            = true) as -> by (vm_compute; reflexivity).
    reflexivity.
  - change (contains (py "finish_reason") EVENT_HEAD) with false.
    change (contains (py "finish_reason") EVENT_MIDDLE) with false.
    change (contains (py "content_filter") EVENT_HEAD) with false.
    change (contains (py "content_filter") EVENT_MIDDLE) with false.
    assert (contains (py "finish_reason")
              (event_tail (delta_text None)
                 (optional_text (Some (py "content_filter"))))
            = true) as -> by (vm_compute; reflexivity).
    assert (contains (py "content_filter")
              (event_tail (delta_text None)
                 (optional_text (Some (py "content_filter"))))
            = true) as -> by (vm_compute; reflexivity).
    reflexivity.
Qed.

(** The end marker changes nothing in the loop. *)
Lemma done_step (st : parsed_state) : parsed_step st (DONE, None) = st.
Proof.
  unfold parsed_step. cbn [fst snd].
  change (contains (py "finish_reason") DONE) with false. reflexivity.
Qed.

(** The two finish reasons of the table. *)
Lemma table_finish_reason (key : str) (sc : scenario) :
  SIMULATED_RESPONSES !! key = Some sc ->
  finish_reason sc = py "stop" \/ finish_reason sc = py "content_filter".
Proof.
  intros Hkey. apply elem_of_list_to_map_2 in Hkey.
  repeat (apply elem_of_cons in Hkey as [[= _ ->]|Hkey];
          [cbn [finish_reason]; by auto|]).
  by apply elem_of_nil in Hkey.
Qed.

(** X14: for every scenario key of the table and whatever the clock
    shows, the parsed display prints exactly this: the prompt line, the
    tokens of the scenario after "Response: " (those with "[REDACTED]" in
    yellow), the line "--- Stream Complete ---", the finish reason of the
    scenario, and the number of tokens that contain "[REDACTED]". *)
Theorem parsed_display_output (clock : nat -> Z) (key : str) (sc : scenario) :
  SIMULATED_RESPONSES !! key = Some sc ->
  run_simulated_stream clock key false
  = mkDemo
      (Colors.DIM ++ py "Prompt: " ++ prompt sc ++ Colors.RESET ++ [LF]
       ++ Colors.GREEN ++ py "Response: " ++ Colors.RESET
       ++ concat (shown <$> tokens sc) ++ [LF]
       ++ [LF] ++ Colors.CYAN ++ py "--- Stream Complete ---" ++ Colors.RESET
       ++ [LF]
       ++ py "  finish_reason: " ++ finish_reason sc ++ [LF]
       ++ py "  redactions: " ++ str_of_nat (count_redacted (tokens sc))
       ++ [LF])
      Returned.
Proof.
  intros Hkey.
  pose proof (simulate_sse_stream_Some clock key sc Hkey) as Hs.
  pose proof (emitted_tokens_simulated clock key sc _ Hkey Hs) as Htokens.
  unfold run_simulated_stream. rewrite Hkey, Hs.
  match goal with
  | |- context [foldl parsed_step ?st0 ?stream] =>
      set (st := foldl parsed_step st0 stream);
      assert (parsed_out st
              = parsed_out st0 ++ concat (shown <$> tokens sc)) as Hout
        by (unfold st; by rewrite parsed_loop_out, Htokens);
      assert (redaction_count st = count_redacted (tokens sc)) as Hcount
        by (unfold st; by rewrite parsed_loop_count, Htokens);
      assert (seen_finish_reason st = Some (finish_reason sc)) as Hseen
  end.
  { unfold st. rewrite foldl_app. cbn [foldl]. rewrite done_step.
    apply final_step_reason. by eapply table_finish_reason. }
  rewrite Hout, Hcount, Hseen. cbn [parsed_out].
  assert (or_else (Some (finish_reason sc)) (finish_reason sc)
          = finish_reason sc) as -> by (by destruct (finish_reason sc)).
  f_equal. unfold print, print_end. cbn [app]. rewrite <- !app_assoc.
  by cbn [app].
Qed.

(** *** The raw display *)

Lemma lstrip_nonspace (s : str) (c : char) :
  head s = Some c -> isspace c = false -> lstrip s = s.
Proof.
  destruct s as [|a s]; [done|]. intros [= ->] Hc. cbn [lstrip].
  by rewrite Hc.
Qed.

Lemma rstrip_ends (s ws : str) (c : char) :
  isspace c = false -> Forall (fun a => isspace a = true) ws ->
  rstrip (s ++ [c] ++ ws) = s ++ [c].
Proof.
  intros Hc Hws. unfold rstrip.
  rewrite !reverse_app, <- app_assoc, PyMore.lstrip_app.
  rewrite PyMore.lstrip_spaces by (by apply Forall_reverse).
  rewrite reverse_singleton. cbn [app lstrip]. rewrite Hc.
  by rewrite reverse_cons, reverse_involutive.
Qed.

(** The line that the raw display shows for an event is the event without
    its two line feeds. *)
Lemma strip_event (created0 created : Z) (content reason : option str) :
  strip (EVENT_HEAD ++ str_of_Z created0 ++ EVENT_MIDDLE ++ str_of_Z created
         ++ event_tail (delta_text content) (optional_text reason))
  = event_line created0 created content reason.
Proof.
  unfold strip, event_line, event_tail, event_end.
  rewrite (lstrip_nonspace _ 100%N) by done.
  generalize (delta_text content) (optional_text reason)
    (str_of_Z created0) (str_of_Z created).
  intros delta reason_text digits0 digits.
  change (py "}]}") with (py "}]" ++ [125%N]).
  rewrite !app_assoc. rewrite <- (app_assoc _ [125%N] [LF; LF]).
  by rewrite rstrip_ends by (by repeat constructor).
Qed.

(** The loop of the raw display adds one line for each event. *)
Lemma raw_loop_out (out : str) (stream : list (str * option str)) :
  foldl raw_step out stream = out ++ concat (raw_step [] <$> stream).
Proof.
  revert out. induction stream as [|item stream IH]; intros out.
  - cbn. by rewrite app_nil_r.
  - cbn [foldl fmap list_fmap concat]. rewrite IH, app_assoc. f_equal.
    unfold raw_step, print. by repeat case_match.
Qed.

(** The tokens of the table change the colour of a line only through
    "[REDACTED]". *)
Lemma table_token_colours (key : str) (sc : scenario) :
  SIMULATED_RESPONSES !! key = Some sc ->
  Forall (fun t =>
            contains REDACTED
              (event_tail (delta_text (Some t)) (optional_text None))
            = contains REDACTED t
            /\ contains (py "[DONE]")
                 (event_tail (delta_text (Some t)) (optional_text None))
               = false
            /\ contains (py "content_filter")
                 (event_tail (delta_text (Some t)) (optional_text None))
               = false)
    (tokens sc).
Proof.
  intros Hkey. apply elem_of_list_to_map_2 in Hkey.
  repeat (apply elem_of_cons in Hkey as [[= _ ->]|Hkey];
          [cbn [tokens]; apply (bool_decide_unpack _); vm_compute; exact I|]).
  by apply elem_of_nil in Hkey.
Qed.

Lemma raw_step_token (created0 created : Z) (t : str) :
  contains REDACTED (event_tail (delta_text (Some t)) (optional_text None))
  = contains REDACTED t ->
  contains (py "[DONE]")
    (event_tail (delta_text (Some t)) (optional_text None)) = false ->
  contains (py "content_filter")
    (event_tail (delta_text (Some t)) (optional_text None)) = false ->
  raw_step []
    (generate_sse_event created (py "chatcmpl-demo-" ++ str_of_Z created0)
       (Some t) None, Some t)
  = (if contains REDACTED t then Colors.RED else Colors.GREEN)
    ++ event_line created0 created (Some t) None ++ Colors.RESET ++ [LF].
Proof.
  intros Hred Hdone Hfilter. rewrite generate_sse_event_text. unfold raw_step.
  cbn [fst]. rewrite strip_event.
  assert (REDACTED <> []) as H1 by discriminate.
  assert (py "[DONE]" <> []) as H2 by discriminate.
  assert (py "content_filter" <> []) as H3 by discriminate.
  rewrite (contains_simulated_event REDACTED _ _ _ H1) by no_digits.
  rewrite (contains_simulated_event (py "[DONE]") _ _ _ H2) by no_digits.
  rewrite (contains_simulated_event (py "content_filter") _ _ _ H3)
    by no_digits.
  rewrite Hred, Hdone, Hfilter.
  change (contains REDACTED EVENT_HEAD) with false.
  change (contains REDACTED EVENT_MIDDLE) with false.
  change (contains (py "[DONE]") EVENT_HEAD) with false.
  change (contains (py "[DONE]") EVENT_MIDDLE) with false.
  change (contains (py "content_filter") EVENT_HEAD) with false.
  change (contains (py "content_filter") EVENT_MIDDLE) with false.
  cbn [orb]. unfold print. cbn [app].
  destruct (contains REDACTED t); by rewrite <- ?app_assoc.
Qed.

Lemma raw_step_final (created0 created : Z) (reason : str) :
  reason = py "stop" \/ reason = py "content_filter" ->
  raw_step []
    (generate_sse_event created (py "chatcmpl-demo-" ++ str_of_Z created0)
       None (Some reason), None)
  = (if bool_decide (reason = py "content_filter")
     then Colors.YELLOW else Colors.GREEN)
    ++ event_line created0 created None (Some reason) ++ Colors.RESET ++ [LF].
Proof.
  intros Hreason. rewrite generate_sse_event_text. unfold raw_step.
  cbn [fst]. rewrite strip_event.
  assert (REDACTED <> []) as H1 by discriminate.
  assert (py "[DONE]" <> []) as H2 by discriminate.
  assert (py "content_filter" <> []) as H3 by discriminate.
  rewrite (contains_simulated_event REDACTED _ _ _ H1) by no_digits.
  rewrite (contains_simulated_event (py "[DONE]") _ _ _ H2) by no_digits.
  rewrite (contains_simulated_event (py "content_filter") _ _ _ H3)
    by no_digits.
  change (contains REDACTED EVENT_HEAD) with false.
  change (contains REDACTED EVENT_MIDDLE) with false.
  change (contains (py "[DONE]") EVENT_HEAD) with false.
  change (contains (py "[DONE]") EVENT_MIDDLE) with false.
  change (contains (py "content_filter") EVENT_HEAD) with false.
  change (contains (py "content_filter") EVENT_MIDDLE) with false.
  cbn [orb]. unfold print. cbn [app].
  destruct Hreason as [-> | ->].
  - assert (contains REDACTED
              (event_tail (delta_text None) (optional_text (Some (py "stop"))))
            = false) as -> by (vm_compute; reflexivity).
    assert (contains (py "[DONE]")
              (event_tail (delta_text None) (optional_text (Some (py "stop"))))
            = false) as -> by (vm_compute; reflexivity).
    assert (contains (py "content_filter")
              (event_tail (delta_text None) (optional_text (Some (py "stop"))))
            = false) as -> by (vm_compute; reflexivity).
    rewrite bool_decide_eq_false_2 by discriminate.
    by rewrite <- ?app_assoc.
  - assert (contains REDACTED
              (event_tail (delta_text None)
                 (optional_text (Some (py "content_filter"))))
            = false) as -> by (vm_compute; reflexivity).
    assert (contains (py "[DONE]")
              (event_tail (delta_text None)
                 (optional_text (Some (py "content_filter"))))
            = false) as -> by (vm_compute; reflexivity).
    assert (contains (py "content_filter")
              (event_tail (delta_text None)
                 (optional_text (Some (py "content_filter"))))
            = true) as -> by (vm_compute; reflexivity).
    rewrite bool_decide_eq_true_2 by done.
    by rewrite <- ?app_assoc.
Qed.

Lemma raw_step_done :
  raw_step [] (DONE, None)
  = Colors.YELLOW ++ py "data: [DONE]" ++ Colors.RESET ++ [LF].
Proof. vm_compute. reflexivity. Qed.

(** X15: for every scenario key of the table and whatever the clock
    shows, the raw display prints exactly this: the prompt line, the three
    header lines and the line "--- SSE STREAM ---", then one line for each
    event, which is the event without its two line feeds: red for a token
    that contains "[REDACTED]" and green for any other token, yellow for
    the chunk with the finish reason "content_filter" and green for the
    one with "stop", yellow for the end marker; then the line
    "--- END STREAM ---". *)
Theorem raw_display_output (clock : nat -> Z) (key : str) (sc : scenario) :
  SIMULATED_RESPONSES !! key = Some sc ->
  run_simulated_stream clock key true
  = mkDemo
      (Colors.DIM ++ py "Prompt: " ++ prompt sc ++ Colors.RESET ++ [LF]
       ++ [LF] ++ Colors.DIM ++ py "HTTP 200 OK" ++ Colors.RESET ++ [LF]
       ++ Colors.DIM ++ py "Content-Type: text/event-stream" ++ Colors.RESET
       ++ [LF]
       ++ Colors.DIM ++ py "Cache-Control: no-cache" ++ Colors.RESET ++ [LF]
       ++ [LF] ++ Colors.DIM ++ py "--- SSE STREAM ---" ++ Colors.RESET
       ++ [LF]
       ++ concat
            (imap (fun i token =>
                     (if contains REDACTED token
                      then Colors.RED else Colors.GREEN)
                     ++ event_line (clock 0) (clock (S i)) (Some token) None
                     ++ Colors.RESET ++ [LF])
               (tokens sc))
       ++ (if bool_decide (finish_reason sc = py "content_filter")
           then Colors.YELLOW else Colors.GREEN)
       ++ event_line (clock 0) (clock (S (length (tokens sc)))) None
            (Some (finish_reason sc))
       ++ Colors.RESET ++ [LF]
       ++ Colors.YELLOW ++ py "data: [DONE]" ++ Colors.RESET ++ [LF]
       ++ Colors.DIM ++ py "--- END STREAM ---" ++ Colors.RESET ++ [LF])
      Returned.
Proof.
  intros Hkey.
  pose proof (simulate_sse_stream_Some clock key sc Hkey) as Hs.
  unfold run_simulated_stream. rewrite Hkey, Hs.
  rewrite raw_loop_out, fmap_app, concat_app, fmap_imap.
  cbn [fmap list_fmap concat].
  rewrite raw_step_done, raw_step_final by (by eapply table_finish_reason).
  rewrite (imap_ext _
             (fun i token =>
                (if contains REDACTED token then Colors.RED else Colors.GREEN)
                ++ event_line (clock 0) (clock (S i)) (Some token) None
                ++ Colors.RESET ++ [LF])).
  - f_equal. unfold print. cbn [app]. rewrite <- !app_assoc. by cbn [app].
  - intros i token Hi. cbn [compose].
    pose proof (table_token_colours key sc Hkey) as Hcolours.
    rewrite Forall_lookup in Hcolours.
    destruct (Hcolours i token Hi) as (Hred & Hdone & Hfilter).
    by apply raw_step_token.
Qed.

Lemma raw_display_output_witness :
  let clock := fun n : nat => (1700000000 + Z.of_nat n)%Z in
  contains (Colors.RED ++ py "data: ")
    (printed (run_simulated_stream clock (py "pii_redacted") true)) = true
  /\ contains (Colors.RED ++ py "data: ")
       (printed (run_simulated_stream clock (py "normal") true)) = false.
Proof.
  intros clock. split.
  - rewrite (raw_display_output clock (py "pii_redacted")
               (mkScenario (py "What is my account email?")
                  (py <$> ["Your"; " account"; " email"; " is"; " [REDACTED]";
                           " and"; " phone"; " is"; " [REDACTED]"; "."]%string)
                  (py "stop")));
      vm_compute; reflexivity.
  - rewrite (raw_display_output clock (py "normal")
               (mkScenario (py "What is 2 + 2? Reply in one sentence.")
                  (py <$> ["Two"; " plus"; " two"; " equals"; " four";
                           "."]%string)
                  (py "stop")));
      vm_compute; reflexivity.
Defined.

Lemma parsed_display_output_witness :
  let clock := fun n : nat => (1700000000 + 3 * Z.of_nat n)%Z in
  printed (run_simulated_stream clock (py "blocked") false)
  = Colors.DIM ++ py "Prompt: Tell me how to hack into a system"
    ++ Colors.RESET ++ [LF]
    ++ Colors.GREEN ++ py "Response: " ++ Colors.RESET
    ++ py "I cannot assist with that request due to safety policies." ++ [LF]
    ++ [LF] ++ Colors.CYAN ++ py "--- Stream Complete ---" ++ Colors.RESET
    ++ [LF]
    ++ py "  finish_reason: content_filter" ++ [LF]
    ++ py "  redactions: 0" ++ [LF].
Proof.
  intros clock.
  rewrite (parsed_display_output clock (py "blocked")
             (mkScenario (py "Tell me how to hack into a system")
                (py <$> ["I"; " cannot"; " assist"; " with"; " that";
                         " request"; " due"; " to"; " safety"; " policies";
                         "."]%string)
                (py "content_filter")));
    vm_compute; reflexivity.
Defined.

End EventText.
